(** * The exec-agent example containers

    A shallow embedding of the two example scripts of the exec-agent,
    [examples/test_container.py] and [examples/worker_script.py], and the
    properties of the execution contract that they exercise.

    What is modelled: JSON values, Python's dynamically typed accessors
    ([.get], [len], [.keys], subscripting) with the exceptions they raise,
    the workspace file system (a tree of files and directories), the environment
    variables, the HTTP request to the service proxy, and the exit code of
    the process.

    What is left out: the text printed on standard output (only the
    expressions a [print] evaluates are kept, because they can raise), the
    encoding of text on its way to a file or to standard output (every
    string is taken to be one the encoding accepts), file permissions and
    symbolic links. *)

From Stdlib Require Import ZArith Ascii String DecimalString DecimalPos DecimalZ.
From stdpp Require Import gmap strings list fin_maps pretty.

Set Warnings "-register-all".
Open Scope string_scope.

(** ** JSON values

    Every Python value the scripts build or read is a JSON value.  A Python
    [dict] keeps its keys in insertion order and [list(d.keys())] exposes
    that order, so an object is an association list; Python's keys are
    unique, which nothing below depends on.  A float is kept as the decimal
    it is written as: [JFloat m e] is [m * 10^e].  A string is kept as its
    UTF-8 encoding, one [ascii] per byte: [String.length] counts bytes, and
    [code_points] below counts characters. *)

Inductive json : Type :=
| JNull
| JBool (b : bool)
| JInt (n : Z)
| JFloat (m e : Z)
| JStr (s : string)
| JArr (items : list json)
| JObj (fields : list (string * json)).

Abbreviation dict := (list (string * json)).

(** [d.get(k)], [k in d], [d[k] = v] and [list(d.keys())] on a Python
    dict. *)
Fixpoint dict_get (k : string) (d : dict) : option json :=
  match d with
  | [] => None
  | (k', v) :: d' => if String.eqb k k' then Some v else dict_get k d'
  end.

Definition dict_has (k : string) (d : dict) : bool :=
  match dict_get k d with Some _ => true | None => false end.

Fixpoint dict_set (k : string) (v : json) (d : dict) : dict :=
  match d with
  | [] => [(k, v)]
  | (k', v') :: d' =>
      if String.eqb k k' then (k', v) :: d' else (k', v') :: dict_set k v d'
  end.

Definition dict_keys (d : dict) : list string := d.*1.

(** ** Exceptions *)

Inductive exn_kind : Type :=
| FileNotFoundError
| FileExistsError
| NotADirectoryError
| IsADirectoryError
| JSONDecodeError
| AttributeError
| TypeError
| KeyError
| RequestException.

(** [exn_msg e] is [str(e)]. *)
Record exn : Type := Exn { exn_kind_of : exn_kind; exn_msg : string }.

Inductive result (A : Type) : Type :=
| Ok (a : A)
| Raise (e : exn).
Arguments Ok {A} a.
Arguments Raise {A} e.

Definition result_bind {A B} (r : result A) (k : A -> result B) : result B :=
  match r with
  | Ok a => k a
  | Raise e => Raise e
  end.

(** ** Python's dynamically typed accessors *)

Definition type_name (v : json) : string :=
  match v with
  | JNull => "NoneType"
  | JBool _ => "bool"
  | JInt _ => "int"
  | JFloat _ _ => "float"
  | JStr _ => "str"
  | JArr _ => "list"
  | JObj _ => "dict"
  end.

Definition no_attribute (v : json) (attr : string) : exn :=
  Exn AttributeError
      ("'" +:+ type_name v +:+ "' object has no attribute '" +:+ attr +:+ "'").

(** [v.get(k, default)]: only a dict has [get]. *)
Definition py_get (v : json) (k : string) (default : json) : result json :=
  match v with
  | JObj d => Ok (match dict_get k d with Some x => x | None => default end)
  | _ => Raise (no_attribute v "get")
  end.

(** The bytes [10xxxxxx] of a UTF-8 text continue a character; every
    other byte starts one. *)
Definition is_continuation (c : ascii) : bool :=
  match c with
  | Ascii _ _ _ _ _ _ b6 b7 => b7 && negb b6
  end.

(** [len(s)] for a [str]: the number of its characters (code points). *)
Fixpoint code_points (s : string) : nat :=
  match s with
  | EmptyString => 0
  | String c s' => (if is_continuation c then 0 else 1) + code_points s'
  end.

(** [len(v)]: lists, dicts and strings have a length. *)
Definition py_len (v : json) : result nat :=
  match v with
  | JArr l => Ok (length l)
  | JObj d => Ok (length d)
  | JStr s => Ok (code_points s)
  | _ => Raise (Exn TypeError
                    ("object of type '" +:+ type_name v +:+ "' has no len()"))
  end.

(** [v.keys()]: only a dict has [keys]. *)
Definition py_keys (v : json) : result (list string) :=
  match v with
  | JObj d => Ok (dict_keys d)
  | _ => Raise (no_attribute v "keys")
  end.

(** [v[k]] with a string key [k] (the wording of the messages is
    CPython 3.11's; the key of a [KeyError] is shown quoted). *)
Definition py_getitem (v : json) (k : string) : result json :=
  match v with
  | JObj d =>
      match dict_get k d with
      | Some x => Ok x
      | None => Raise (Exn KeyError ("'" +:+ k +:+ "'"))
      end
  | JArr _ => Raise (Exn TypeError "list indices must be integers or slices, not str")
  | JStr _ => Raise (Exn TypeError "string indices must be integers, not 'str'")
  | _ => Raise (Exn TypeError ("'" +:+ type_name v +:+ "' object is not subscriptable"))
  end.

(** [v == s] for a string literal [s]: a value of another type is never
    equal to a string. *)
Definition py_eq_str (v : json) (s : string) : bool :=
  match v with
  | JStr s' => String.eqb s' s
  | _ => false
  end.

(** The line feed. *)
Definition nl : string := String (Ascii.ascii_of_nat 10) EmptyString.

(** [str(b)] for a Python bool. *)
Definition str_of_bool (b : bool) : string := if b then "True" else "False".

(** ** The file system

    A tree: a regular file holds its text, a directory maps names to
    nodes.  A path is the list of its components below the root [/]. *)

Inductive node : Type :=
| File (data : string)
| Dir (entries : gmap string node).

Abbreviation path := (list string).

Definition show_path (p : path) : string :=
  foldr (fun x acc => "/" +:+ x +:+ acc) EmptyString p.

Definition os_error (k : exn_kind) (what : string) (p : path) : exn :=
  Exn k (what +:+ ": '" +:+ show_path p +:+ "'").

Fixpoint fs_lookup (p : path) (n : node) : option node :=
  match p with
  | [] => Some n
  | x :: p' =>
      match n with
      | Dir m => match m !! x with Some c => fs_lookup p' c | None => None end
      | File _ => None
      end
  end.

(** [Path.exists()] / [os.path.exists]: true for files and directories. *)
Definition fs_exists (p : path) (n : node) : bool :=
  match fs_lookup p n with Some _ => true | None => false end.

Definition is_file (n : node) : bool :=
  match n with File _ => true | Dir _ => false end.

(** The children of a directory, as [Path.glob('*')] yields them, in the
    order of the map (the order of a directory listing is unspecified);
    nothing when the path is not a directory. *)
Definition fs_children (p : path) (n : node) : list (string * node) :=
  match fs_lookup p n with
  | Some (Dir m) => map_to_list m
  | _ => []
  end.

(** [open(p, 'w')] followed by writing [data] and closing: the parent
    must be a directory and [p] must not be one; the file is created or
    replaced.  [full] is the whole path, for the message. *)
Fixpoint fs_write_at (full p : path) (data : string) (n : node) : result node :=
  match p with
  | [] => Raise (os_error IsADirectoryError "[Errno 21] Is a directory" full)
  | x :: p' =>
      match n with
      | File _ => Raise (os_error NotADirectoryError "[Errno 20] Not a directory" full)
      | Dir m =>
          match p' with
          | [] =>
              match m !! x with
              | Some (Dir _) =>
                  Raise (os_error IsADirectoryError "[Errno 21] Is a directory" full)
              | _ => Ok (Dir (<[x := File data]> m))
              end
          | _ :: _ =>
              match m !! x with
              | Some c =>
                  result_bind (fs_write_at full p' data c)
                              (fun c' => Ok (Dir (<[x := c']> m)))
              | None =>
                  Raise (os_error FileNotFoundError "[Errno 2] No such file or directory" full)
              end
          end
      end
  end.

Definition fs_write (p : path) (data : string) (n : node) : result node :=
  fs_write_at p p data n.

(** [open(p)] followed by reading everything. *)
Definition fs_read (p : path) (n : node) : result string :=
  match fs_lookup p n with
  | Some (File data) => Ok data
  | Some (Dir _) => Raise (os_error IsADirectoryError "[Errno 21] Is a directory" p)
  | None => Raise (os_error FileNotFoundError "[Errno 2] No such file or directory" p)
  end.

(** [Path(p).mkdir(exist_ok=True)]: an existing directory is accepted, an
    existing file is not, and the parent must be a directory. *)
Fixpoint fs_mkdir_at (full p : path) (n : node) : result node :=
  match p with
  | [] => Ok n
  | x :: p' =>
      match n with
      | File _ => Raise (os_error NotADirectoryError "[Errno 20] Not a directory" full)
      | Dir m =>
          match p' with
          | [] =>
              match m !! x with
              | Some (Dir _) => Ok n
              | Some (File _) =>
                  Raise (os_error FileExistsError "[Errno 17] File exists" full)
              | None => Ok (Dir (<[x := Dir ∅]> m))
              end
          | _ :: _ =>
              match m !! x with
              | Some c =>
                  result_bind (fs_mkdir_at full p' c)
                              (fun c' => Ok (Dir (<[x := c']> m)))
              | None =>
                  Raise (os_error FileNotFoundError "[Errno 2] No such file or directory" full)
              end
          end
      end
  end.

Definition fs_mkdir (p : path) (n : node) : result node := fs_mkdir_at p p n.

(** ** Programs

    A program runs on a state and either returns or raises; the state it
    leaves behind is kept in both cases, since what was written before an
    exception stays written. *)

Definition prog (S A : Type) : Type := S -> result A * S.

Definition ret {S A} (a : A) : prog S A := fun s => (Ok a, s).

Definition bind {S A B} (m : prog S A) (k : A -> prog S B) : prog S B :=
  fun s =>
    match m s with
    | (Ok a, s') => k a s'
    | (Raise e, s') => (Raise e, s')
    end.

(** [try: body / except Exception as e: handler e]. *)
Definition try_except {S A} (body : prog S A) (handler : exn -> prog S A) : prog S A :=
  fun s =>
    match body s with
    | (Ok a, s') => (Ok a, s')
    | (Raise e, s') => handler e s'
    end.

(** A pure computation that may raise. *)
Definition lift {S A} (r : result A) : prog S A := fun s => (r, s).

Declare Scope prog_scope.
Delimit Scope prog_scope with prog.
Notation "x <- m ;; k" := (bind m (fun x => k))
  (at level 100, m at next level, right associativity) : prog_scope.
Notation "m ;; k" := (bind m (fun _ => k))
  (at level 100, right associativity) : prog_scope.

(** The exit status of [exit(main())]: the value [main] returns, or 1
    when an exception escapes. *)
Definition exit_code {S} (r : result Z * S) : Z :=
  match r.1 with
  | Ok z => z
  | Raise _ => 1%Z
  end.

(** States that carry a file system. *)
Class HasFs (S : Type) : Type := {
  get_fs : S -> node;
  set_fs : node -> S -> S
}.

#[export] Instance node_has_fs : HasFs node := {|
  get_fs := fun n => n;
  set_fs := fun n _ => n
|}.

Section FileOperations.
Context {S : Type} `{HasFs S}.

Definition path_exists (p : path) : prog S bool :=
  fun s => (Ok (fs_exists p (get_fs s)), s).

Definition mkdir (p : path) : prog S unit :=
  fun s =>
    match fs_mkdir p (get_fs s) with
    | Ok n => (Ok tt, set_fs n s)
    | Raise e => (Raise e, s)
    end.

Definition read_text (p : path) : prog S string :=
  fun s => (fs_read p (get_fs s), s).

(** [open(p, 'w')] and [f.write(data)]: the text is taken to be one the
    encoding of the file accepts. *)
Definition write_text (p : path) (data : string) : prog S unit :=
  fun s =>
    match fs_write p data (get_fs s) with
    | Ok n => (Ok tt, set_fs n s)
    | Raise e => (Raise e, s)
    end.

Definition glob_star (p : path) : prog S (list (string * node)) :=
  fun s => (Ok (fs_children p (get_fs s)), s).
End FileOperations.

(** ** The JSON library

    [json.dump] and [json.load] belong to Python, not to the scripts: they
    are an interface here.  [json_dumps] is the text [json.dump(v, f,
    indent=2)] writes; [json_loads] parses a text or raises. *)

Class JsonCodec : Type := {
  json_dumps : json -> string;
  json_loads : string -> result json
}.




Section JsonFiles.
Context {S : Type} `{HasFs S} `{JsonCodec}.
Open Scope prog_scope.

(** [with open(p) as f: json.load(f)]. *)
Definition load_json (p : path) : prog S json :=
  text <- read_text p ;; lift (json_loads text).

(** [with open(p, 'w') as f: json.dump(v, f, indent=2)]. *)
Definition dump_json (p : path) (v : json) : prog S unit :=
  write_text p (json_dumps v).
End JsonFiles.

(** ** The execution context: environment and network *)

Record response : Type := Response { status_code : Z; body : string }.

(** The outcome of one call of [requests.get]: a response, or the
    exception the library raises (connection refused, timeout, ...). *)
Record context : Type := MkContext {
  environ : gmap string string;
  network : string -> result response
}.

(** [os.environ.get(k, default)]. *)
Definition environ_get (ctx : context) (k default : string) : string :=
  match environ ctx !! k with
  | Some v => v
  | None => default
  end.

(** The truth value of [os.environ.get(k)]: [None] and the empty string
    are false. *)
Definition truthy (v : option string) : option string :=
  match v with
  | Some EmptyString => None
  | _ => v
  end.

(** ** [examples/test_container.py] *)

Module TestContainer.

(** The state of a run: the file system, the URLs [requests.get] was
    called with so far (most recent first) and the dict [results], which
    the script updates in place, also inside the [try] block. *)
Record state : Type := State {
  st_fs : node;
  st_requests : list string;
  st_results : dict
}.

#[export] Instance state_has_fs : HasFs state := {|
  get_fs := st_fs;
  set_fs := fun n s => State n (st_requests s) (st_results s)
|}.

Definition initial (fs : node) : state := State fs [] [].

Definition input_dir : path := ["workspace"; "input"].
Definition output_dir : path := ["workspace"; "output"].
Definition config_dir : path := ["workspace"; "config"].
Definition graph_file : path := input_dir ++ ["graph_data.json"].
Definition config_file : path := config_dir ++ ["config.json"].
Definition results_file : path := output_dir ++ ["results.json"].
Definition analysis_file : path := output_dir ++ ["analysis.txt"].
Definition graph_update_file : path := output_dir ++ ["graph_update.json"].

(** [results[k] = v] and reading [results]. *)
Definition set_result (k : string) (v : json) : prog state unit :=
  fun s => (Ok tt, State (st_fs s) (st_requests s) (dict_set k v (st_results s))).

Definition get_results : prog state dict :=
  fun s => (Ok (st_results s), s).

Section Program.
Context `{JsonCodec}.
Variable ctx : context.
Open Scope prog_scope.

(** [requests.get(url, timeout=5)]: one call of the library, logged with
    its URL.  [network] gives the outcome of the call; the HTTP requests
    the library makes for it (it follows redirects) are not told apart. *)
Definition requests_get (url : string) : prog state response :=
  fun s =>
    (network ctx url, State (st_fs s) (url :: st_requests s) (st_results s)).

(** [response.json()]. *)
Definition response_json (r : response) : result json :=
  json_loads (body r).

(** [len(graph_data.get(key, []))]. *)
Definition count_of (graph_data : json) (key : string) : result nat :=
  result_bind (py_get graph_data key (JArr [])) py_len.

(** Loading a graph file and counting: the body of step 1, for the
    file at [p]. *)
Definition load_graph_stats (p : path) : prog state json :=
  graph_data <- load_json p ;;
  (* the counts the print statement shows *)
  _ <- lift (count_of graph_data "nodes") ;;
  _ <- lift (count_of graph_data "relationships") ;;
  node_count <- lift (count_of graph_data "nodes") ;;
  relationship_count <- lift (count_of graph_data "relationships") ;;
  ret (JObj [("node_count", JInt (Z.of_nat node_count));
             ("relationship_count", JInt (Z.of_nat relationship_count))]).

(** Step 1: read graph data if available. *)
Definition read_graph_data : prog state unit :=
  present <- path_exists graph_file ;;
  if present : bool then
    stats <- load_graph_stats graph_file ;;
    set_result "input_graph_stats" stats
  else ret tt.

(** Step 2: read configuration if available. *)
Definition read_configuration : prog state unit :=
  present <- path_exists config_file ;;
  if present : bool then
    config_data <- load_json config_file ;;
    _ <- lift (py_keys config_data) ;;
    keys <- lift (py_keys config_data) ;;
    set_result "config_keys" (JArr (JStr <$> keys))
  else ret tt.

(** Step 3: list input files. *)
Definition list_input_files : prog state unit :=
  input_files <- glob_star input_dir ;;
  set_result "input_files"
    (JArr (JStr <$> (filter (fun f => is_file f.2 = true) input_files).*1)).

(** The body of the [try] block of step 4. *)
Definition check_health (service_proxy_url : string) : prog state unit :=
  health_response <- requests_get (service_proxy_url +:+ "/health") ;;
  if (status_code health_response =? 200)%Z then
    health_data <- lift (response_json health_response) ;;
    _ <- lift (py_getitem health_data "status") ;;
    set_result "service_proxy_status" (JStr "healthy") ;;
    services <- lift (py_get health_data "services" (JObj [])) ;;
    names <- lift (py_keys services) ;;
    set_result "available_services" (JArr (JStr <$> names))
  else
    set_result "service_proxy_status" (JStr "unhealthy").

(** Step 4: test service access if available. *)
Definition test_service_access : prog state unit :=
  match truthy (environ ctx !! "SERVICE_PROXY_URL") with
  | Some service_proxy_url =>
      try_except (check_health service_proxy_url)
                 (fun e => set_result "service_proxy_error" (JStr (exn_msg e)))
  | None => ret tt
  end.

(** The text written to [analysis.txt]. *)
Definition analysis_report (execution_id : string) (files : nat) (results : dict)
  : string :=
  "Container Analysis Report" +:+ nl
  +:+ "========================" +:+ nl +:+ nl
  +:+ "Execution ID: " +:+ execution_id +:+ nl
  +:+ "Input files processed: " +:+ pretty files +:+ nl
  +:+ "Service proxy available: "
  +:+ str_of_bool (dict_has "service_proxy_status" results) +:+ nl
  +:+ "Graph data available: "
  +:+ str_of_bool (dict_has "input_graph_stats" results) +:+ nl
  +:+ "Configuration available: "
  +:+ str_of_bool (dict_has "config_keys" results) +:+ nl.

(** Step 5: the results file and the analysis file.  The report is put
    together before the file is written: [len] cannot fail there,
    [input_files] being a list since step 3. *)
Definition generate_output_files (execution_id : string) : prog state unit :=
  set_result "execution_id" (JStr execution_id) ;;
  set_result "status" (JStr "completed") ;;
  set_result "message" (JStr "Test container executed successfully") ;;
  results <- get_results ;;
  dump_json results_file (JObj results) ;;
  results <- get_results ;;
  files <- lift (py_len (match dict_get "input_files" results with
                         | Some v => v
                         | None => JArr []
                         end)) ;;
  write_text analysis_file (analysis_report execution_id files results).

(** The graph update of step 6. *)
Definition graph_update (execution_id : string) : json :=
  JObj
    [("nodes",
      JArr [JObj [("id", JStr ("analysis-" +:+ execution_id));
                  ("labels", JArr [JStr "Analysis"]);
                  ("properties",
                   JObj [("type", JStr "container_execution");
                         ("execution_id", JStr execution_id);
                         ("timestamp", JStr "2025-01-01T00:00:00Z");
                         ("status", JStr "completed")])]]);
     ("relationships",
      JArr [JObj [("id", JStr ("analyzed-" +:+ execution_id));
                  ("type", JStr "ANALYZED_BY");
                  ("start_node", JStr "original-data");
                  ("end_node", JStr ("analysis-" +:+ execution_id));
                  ("properties",
                   JObj [("timestamp", JStr "2025-01-01T00:00:00Z")])]])].

(** Step 6: generate the graph update, if there was graph input. *)
Definition generate_graph_update (execution_id : string) : prog state unit :=
  present <- path_exists graph_file ;;
  if present : bool then
    dump_json graph_update_file (graph_update execution_id)
  else ret tt.

Definition main : prog state Z :=
  let execution_id := environ_get ctx "EXECUTION_ID" "unknown" in
  mkdir output_dir ;;
  read_graph_data ;;
  read_configuration ;;
  list_input_files ;;
  test_service_access ;;
  generate_output_files execution_id ;;
  generate_graph_update execution_id ;;
  ret 0%Z.

(** One execution of the container on a workspace. *)
Definition run (fs : node) : result Z * state := main (initial fs).
End Program.

End TestContainer.

(** ** [examples/worker_script.py] *)

Module WorkerScript.

Definition config_path : path := ["workspace"; "input"; "config.json"].
Definition output_dir : path := ["workspace"; "output"].
Definition result_file : path := output_dir ++ ["result.json"].

(** [process_data]: counts the configured input files. *)
Definition process_data (config : json) : result json :=
  result_bind (py_get config "input_files" (JArr [])) (fun input_files =>
  result_bind (py_len input_files) (fun processed_count =>
  Ok (JObj [("operation", JStr "data_processing");
            ("files_processed", JInt (Z.of_nat processed_count));
            ("status", JStr "completed");
            ("output_files", JArr [JStr "processed_data.json"])]))).

(** [train_model]: the accuracy is the literal 0.95. *)
Definition train_model (config : json) : result json :=
  result_bind (py_get config "model_type" (JStr "random_forest")) (fun model_type =>
  Ok (JObj [("operation", JStr "ml_training");
            ("model_type", model_type);
            ("accuracy", JFloat 95 (-2));
            ("status", JStr "completed");
            ("output_files", JArr [JStr "model.pkl"; JStr "metrics.json"])])).

Definition default_processing (config : json) : result json :=
  Ok (JObj [("operation", JStr "default");
            ("status", JStr "completed");
            ("message", JStr "Default processing completed successfully")]).

Section Program.
Context `{JsonCodec}.
Open Scope prog_scope.

(** Reading the configuration, or the default one. *)
Definition read_config : prog node json :=
  present <- path_exists config_path ;;
  if present : bool then load_json config_path
  else ret (JObj [("operation", JStr "default")]).

(** Processing by operation type. *)
Definition dispatch (config : json) : result json :=
  result_bind (py_get config "operation" (JStr "default")) (fun operation =>
  if py_eq_str operation "data_processing" then process_data config
  else if py_eq_str operation "ml_training" then train_model config
  else default_processing config).

Definition main : prog node Z :=
  config <- read_config ;;
  result <- lift (dispatch config) ;;
  mkdir output_dir ;;
  dump_json result_file result ;;
  ret 0%Z.

(** One execution of the worker on a workspace. *)
Definition run (fs : node) : result Z * node := main fs.
End Program.

End WorkerScript.

(** ** A reference implementation of the JSON library

    Compact JSON text: no white space, a float [m * 10^e] written [<m>e<e>],
    and in a string only the quote and the backslash escaped.  It
    instantiates [JsonCodec] in the examples, and shows that
    [codec_keeps_shape] can be met. *)

Module ReferenceCodec.
Definition quote : ascii := Ascii.ascii_of_nat 34.
Definition backslash : ascii := Ascii.ascii_of_nat 92.

Definition is_digit (c : ascii) : bool :=
  let n := Ascii.nat_of_ascii c in (48 <=? n)%nat && (n <=? 57)%nat.

Definition print_int (n : Z) : string := NilZero.string_of_int (Z.to_int n).

Fixpoint escape (s : string) : string :=
  match s with
  | EmptyString => EmptyString
  | String c s' =>
      if Ascii.eqb c quote || Ascii.eqb c backslash
      then String backslash (String c (escape s'))
      else String c (escape s')
  end.

Definition print_string (s : string) : string :=
  String quote (escape s +:+ String quote EmptyString).

(** A sequence with commas between its elements. *)
Fixpoint print_seq {A} (print_elem : A -> string) (l : list A) : string :=
  match l with
  | [] => EmptyString
  | [x] => print_elem x
  | x :: l' => print_elem x +:+ "," +:+ print_seq print_elem l'
  end.

Fixpoint print (v : json) : string :=
  match v with
  | JNull => "null"
  | JBool true => "true"
  | JBool false => "false"
  | JInt n => print_int n
  | JFloat m e => print_int m +:+ "e" +:+ print_int e
  | JStr s => print_string s
  | JArr items => "[" +:+ print_seq print items +:+ "]"
  | JObj fields =>
      "{" +:+ print_seq (fun kv => print_string kv.1 +:+ ":" +:+ print kv.2) fields
          +:+ "}"
  end.

(** The longest prefix of digits, and what follows it. *)
Fixpoint span_digits (s : string) : string * string :=
  match s with
  | EmptyString => (EmptyString, EmptyString)
  | String c s' =>
      if is_digit c
      then let '(ds, rest) := span_digits s' in (String c ds, rest)
      else (EmptyString, s)
  end.

(** An integer: an optional minus sign and at least one digit. *)
Definition parse_int (s : string) : option (Z * string) :=
  let '(sign, s1) :=
    match s with
    | String c s' => if Ascii.eqb c "-" then ("-", s') else (EmptyString, s)
    | EmptyString => (EmptyString, s)
    end in
  let '(ds, rest) := span_digits s1 in
  match ds with
  | EmptyString => None
  | String _ _ =>
      match NilZero.int_of_string (sign +:+ ds) with
      | Some d => Some (Z.of_int d, rest)
      | None => None
      end
  end.

(** A number: an integer, or a float when an exponent follows. *)
Definition parse_number (s : string) : option (json * string) :=
  match parse_int s with
  | Some (m, String c rest) =>
      if Ascii.eqb c "e" then
        match parse_int rest with
        | Some (e, rest') => Some (JFloat m e, rest')
        | None => None
        end
      else Some (JInt m, String c rest)
  | Some (m, EmptyString) => Some (JInt m, EmptyString)
  | None => None
  end.

(** The characters of a string, after its opening quote. *)
Fixpoint parse_chars (s : string) : option (string * string) :=
  match s with
  | EmptyString => None
  | String c s' =>
      if Ascii.eqb c quote then Some (EmptyString, s')
      else if Ascii.eqb c backslash then
        match s' with
        | String c' s'' =>
            if Ascii.eqb c' quote || Ascii.eqb c' backslash then
              match parse_chars s'' with
              | Some (t, rest) => Some (String c' t, rest)
              | None => None
              end
            else None
        | EmptyString => None
        end
      else
        match parse_chars s' with
        | Some (t, rest) => Some (String c t, rest)
        | None => None
        end
  end.

(** A literal word. *)
Fixpoint expect (w s : string) : option string :=
  match w with
  | EmptyString => Some s
  | String c w' =>
      match s with
      | String c' s' => if Ascii.eqb c c' then expect w' s' else None
      | EmptyString => None
      end
  end.

(** The elements of a non-empty sequence up to its closing character;
    [n] bounds the number of elements. *)
Fixpoint parse_seq {A} (parse_elem : string -> option (A * string))
         (close : ascii) (n : nat) (s : string) : option (list A * string) :=
  match n with
  | O => None
  | S n' =>
      match parse_elem s with
      | Some (x, String c rest) =>
          if Ascii.eqb c close then Some ([x], rest)
          else if Ascii.eqb c "," then
            match parse_seq parse_elem close n' rest with
            | Some (l, rest') => Some (x :: l, rest')
            | None => None
            end
          else None
      | _ => None
      end
  end.

(** A field of an object: a quoted key, a colon and a value. *)
Definition parse_field (parse_value : string -> option (json * string))
           (s : string) : option ((string * json) * string) :=
  match s with
  | String c s1 =>
      if Ascii.eqb c quote then
        match parse_chars s1 with
        | Some (k, String c' s2) =>
            if Ascii.eqb c' ":" then
              match parse_value s2 with
              | Some (v, rest) => Some ((k, v), rest)
              | None => None
              end
            else None
        | _ => None
        end
      else None
  | EmptyString => None
  end.

(** A value; [fuel] bounds the nesting depth and the length of a
    sequence. *)
Fixpoint parse (fuel : nat) (s : string) : option (json * string) :=
  match fuel with
  | O => None
  | S fuel' =>
      match s with
      | EmptyString => None
      | String c s' =>
          if is_digit c || Ascii.eqb c "-" then parse_number s
          else if Ascii.eqb c "n" then option_map (pair JNull) (expect "ull" s')
          else if Ascii.eqb c "t" then option_map (pair (JBool true)) (expect "rue" s')
          else if Ascii.eqb c "f" then option_map (pair (JBool false)) (expect "alse" s')
          else if Ascii.eqb c quote then
            match parse_chars s' with
            | Some (t, rest) => Some (JStr t, rest)
            | None => None
            end
          else if Ascii.eqb c "[" then
            match s' with
            | String c' rest =>
                if Ascii.eqb c' "]" then Some (JArr [], rest)
                else
                  match parse_seq (parse fuel') "]" fuel' s' with
                  | Some (items, rest') => Some (JArr items, rest')
                  | None => None
                  end
            | EmptyString => None
            end
          else if Ascii.eqb c "{" then
            match s' with
            | String c' rest =>
                if Ascii.eqb c' "}" then Some (JObj [], rest)
                else
                  match parse_seq (parse_field (parse fuel')) "}" fuel' s' with
                  | Some (fields, rest') => Some (JObj fields, rest')
                  | None => None
                  end
            | EmptyString => None
            end
          else None
      end
  end.

Definition dumps (v : json) : string := print v.

(** The whole text must be one value. *)
Definition loads (s : string) : result json :=
  match parse (S (String.length s)) s with
  | Some (v, EmptyString) => Ok v
  | _ => Raise (Exn JSONDecodeError "Expecting value")
  end.

Definition codec : JsonCodec := {| json_dumps := dumps; json_loads := loads |}.

(** Notions used to state that parsing undoes printing. *)

Fixpoint all_digits (s : string) : bool :=
  match s with
  | EmptyString => true
  | String c s' => is_digit c && all_digits s'
  end.

Definition starts_with_digit (s : string) : bool :=
  match s with
  | EmptyString => false
  | String c _ => is_digit c
  end.

(** What may follow a value inside a text: nothing, a comma or a closing
    bracket. *)
Definition value_end (rest : string) : Prop :=
  match rest with
  | EmptyString => True
  | String c _ => c = ","%char \/ c = "]"%char \/ c = "}"%char
  end.

(** The size of a value: it bounds the nesting depth and the length of
    every sequence. *)
Fixpoint weight (v : json) : nat :=
  match v with
  | JArr items => S (foldr (fun x acc => weight x + acc) 0 items)
  | JObj fields => S (foldr (fun kv acc => weight kv.2 + acc) 0 fields)
  | _ => 1
  end.

End ReferenceCodec.

(** ** The Result Collector's view of the output *)

(** Modelled from the spec: the Result Collector is not part of the example
    scripts.  Section 4.4: if a file at a well-known path
    ([output/result.json] or [output/results.json]) is present and parses
    as an object, its contents are merged into the reported metadata; a
    missing or malformed file only means that it contributes nothing. *)
Definition well_known_paths : list path :=
  [["workspace"; "output"; "result.json"];
   ["workspace"; "output"; "results.json"]].

Definition metadata_of `{JsonCodec} (fs : node) (p : path) : dict :=
  match fs_read p fs with
  | Ok text =>
      match json_loads text with
      | Ok (JObj d) => d
      | _ => []
      end
  | Raise _ => []
  end.

Definition dict_update (d extra : dict) : dict :=
  fold_left (fun acc kv => dict_set kv.1 kv.2 acc) extra d.

Definition collect_metadata `{JsonCodec} (fs : node) : dict :=
  fold_left (fun acc p => dict_update acc (metadata_of fs p)) well_known_paths [].

(** ** The workspace contract

    What the spec promises about the workspace a container starts in
    (sections 3, 4.1 and 6): the workspace root is a directory, [output]
    is empty or still to be created, [config/config.json] is optional and
    holds a JSON object, and [input/graph_data.json] is optional and holds
    a graph: an object whose [nodes] and [relationships], when present, are
    arrays. *)

Definition array_if_present (k : string) (d : dict) : Prop :=
  forall v, dict_get k d = Some v -> exists items, v = JArr items.

Definition holds_object `{JsonCodec} (fs : node) (p : path) (ok : dict -> Prop) : Prop :=
  fs_lookup p fs = None \/
  exists text d,
    fs_lookup p fs = Some (File text) /\ json_loads text = Ok (JObj d) /\ ok d.

Record workspace_ok `{JsonCodec} (fs : node) : Prop := {
  ws_root : exists m, fs_lookup ["workspace"] fs = Some (Dir m);
  ws_output :
    fs_lookup TestContainer.output_dir fs = None \/
    fs_lookup TestContainer.output_dir fs = Some (Dir ∅);
  ws_config : holds_object fs TestContainer.config_file (fun _ => True);
  ws_graph :
    holds_object fs TestContainer.graph_file
      (fun d => array_if_present "nodes" d /\ array_if_present "relationships" d)
}.

(** A graph (snapshot or delta) with [n] nodes and [m] relationships. *)
Definition graph_with (g : json) (n m : nat) : Prop :=
  exists d nodes relationships,
    g = JObj d /\
    dict_get "nodes" d = Some (JArr nodes) /\ length nodes = n /\
    dict_get "relationships" d = Some (JArr relationships) /\
    length relationships = m.

(** The file at [p] holds the JSON text of [v]. *)
Definition holds_json `{JsonCodec} (fs : node) (p : path) (v : json) : Prop :=
  fs_lookup p fs = Some (File (json_dumps v)).

(** The results the container reports for a graph: [len] of an absent
    entry is the length of the default [[]]. *)
Definition array_length (k : string) (d : dict) : nat :=
  match dict_get k d with
  | Some (JArr items) => length items
  | _ => 0
  end.

Definition graph_stats (d : dict) : json :=
  JObj [("node_count", JInt (Z.of_nat (array_length "nodes" d)));
        ("relationship_count", JInt (Z.of_nat (array_length "relationships" d)))].

(** The three entries that step 5 of the test container adds. *)
Definition final_results (execution_id : string) (results : dict) : dict :=
  dict_set "message" (JStr "Test container executed successfully")
    (dict_set "status" (JStr "completed")
       (dict_set "execution_id" (JStr execution_id) results)).

(** The health request raises: the library raises (connection failure,
    timeout), or the body of a 200 answer is not JSON. *)
Definition health_request_raises `{JsonCodec} (ctx : context) (url : string)
           (e : exn) : Prop :=
  network ctx (url +:+ "/health") = Raise e \/
  exists resp,
    network ctx (url +:+ "/health") = Ok resp /\
    status_code resp = 200%Z /\ json_loads (body resp) = Raise e.

(** What steps 1 to 3 of the test container leave in [results] for a
    workspace [fs]. *)
Record inputs_read `{JsonCodec} (fs : node) (rs : dict) : Prop := {
  read_files : exists files, dict_get "input_files" rs = Some (JArr files);
  read_only :
    forall k, k <> "input_graph_stats" -> k <> "config_keys" ->
              k <> "input_files" -> dict_get k rs = None;
  read_no_graph :
    fs_lookup TestContainer.graph_file fs = None ->
    dict_get "input_graph_stats" rs = None;
  read_graph :
    forall text d,
      fs_lookup TestContainer.graph_file fs = Some (File text) ->
      json_loads text = Ok (JObj d) ->
      dict_get "input_graph_stats" rs = Some (graph_stats d)
}.

(** The workspace is ready for output: the workspace root is a directory
    and [output] is empty or still to be created. *)
Definition output_ready (fs : node) : Prop :=
  (exists m, fs_lookup ["workspace"] fs = Some (Dir m)) /\
  (fs_lookup WorkerScript.output_dir fs = None \/
   fs_lookup WorkerScript.output_dir fs = Some (Dir ∅)).

(** The configuration the worker script works with: the parsed contents of
    the file at its [config_path], or its default when there is no such
    file. *)
Definition worker_config `{JsonCodec} (fs : node) (config : json) : Prop :=
  (fs_lookup WorkerScript.config_path fs = None /\
   config = JObj [("operation", JStr "default")]) \/
  (exists text,
      fs_lookup WorkerScript.config_path fs = Some (File text) /\
      json_loads text = Ok config).

(** The values [len] accepts. *)
Definition has_len (v : json) : Prop :=
  match v with
  | JArr _ | JObj _ | JStr _ => True
  | _ => False
  end.

(** Any successful run of either script, and the file system it leaves. *)
Definition successful_run `{JsonCodec} (ctx : context) (fs fs' : node) : Prop :=
  (exit_code (TestContainer.run ctx fs) = 0%Z /\
   fs' = TestContainer.st_fs (TestContainer.run ctx fs).2) \/
  (exit_code (WorkerScript.run fs) = 0%Z /\ fs' = (WorkerScript.run fs).2).

(** The health endpoint answers as section 6 of the spec describes it:
    status code 200 and a JSON body. *)
Definition health_returns `{JsonCodec} (ctx : context) (url : string) (v : json)
  : Prop :=
  exists resp,
    network ctx (url +:+ "/health") = Ok resp /\
    status_code resp = 200%Z /\ json_loads (body resp) = Ok v.


(** ** What the scripts need of a workspace *)

(** [len(d.get(k, []))] is defined: the entry, when present, has a
    length. *)
Definition has_len_if_present (k : string) (d : dict) : Prop :=
  forall v, dict_get k d = Some v -> has_len v.

(** [Path('/workspace/output').mkdir(exist_ok=True)] can succeed: the
    workspace root is a directory and [output] is not a regular file. *)
Definition output_creatable (fs : node) : Prop :=
  exists m, fs_lookup ["workspace"] fs = Some (Dir m) /\
            forall data, m !! "output" <> Some (File data).

(** [open(p, 'w')] does not find a directory in the place of its
    file. *)
Definition not_a_directory (fs : node) (p : path) : Prop :=
  forall m, fs_lookup p fs <> Some (Dir m).

(** The configuration the worker script can work with: no file at its
    [config_path], or a file that holds an object whose [input_files],
    when the operation is data processing, has a length. *)
Definition worker_accepts `{JsonCodec} (fs : node) : Prop :=
  holds_object fs WorkerScript.config_path
    (fun d => dict_get "operation" d = Some (JStr "data_processing") ->
              has_len_if_present "input_files" d).

(** The inputs the test container can read: each of
    [input/graph_data.json] and [config/config.json] is absent or holds an
    object, and what the container takes the length of has one. *)
Definition graph_readable `{JsonCodec} (fs : node) : Prop :=
  holds_object fs TestContainer.graph_file
    (fun d => has_len_if_present "nodes" d /\ has_len_if_present "relationships" d).

(** Of a configuration the container takes the keys only. *)
Definition config_readable `{JsonCodec} (fs : node) : Prop :=
  holds_object fs TestContainer.config_file (fun _ => True).

(** The names step 3 of the test container lists: the regular files
    directly under [input/]. *)
Definition input_names (fs : node) : list string :=
  (filter (fun f => is_file f.2 = true) (fs_children TestContainer.input_dir fs)).*1.

(** ** Example executions *)

Module Example.
Import ReferenceCodec.

Definition graph : json :=
  JObj [("nodes",
         JArr [JObj [("id", JStr "n1")]; JObj [("id", JStr "n2")];
               JObj [("id", JStr "n3")]]);
        ("relationships",
         JArr [JObj [("id", JStr "r1"); ("start_node", JStr "n1");
                     ("end_node", JStr "n2")];
               JObj [("id", JStr "r2"); ("start_node", JStr "n2");
                     ("end_node", JStr "n3")]])].

Definition config : json :=
  JObj [("operation", JStr "data_processing"); ("input_files", JArr [JStr "a.csv"])].

(** A workspace as the Materializer leaves it: a graph, a configuration,
    one more input file, and no output directory yet. *)
Definition workspace : node :=
  Dir {[ "workspace" :=
           Dir (<["input" := Dir (<["graph_data.json" := File (dumps graph)]>
                                    {[ "a.csv" := File "1,2,3" ]})]>
                  {[ "config" := Dir {[ "config.json" := File (dumps config) ]} ]}) ]}.

(** A workspace with nothing but an empty output directory. *)
Definition bare_workspace : node :=
  Dir {[ "workspace" := Dir {[ "output" := Dir ∅ ]} ]}.

Definition unreachable : string -> result response :=
  fun _ => Raise (Exn RequestException "Connection refused").

(** No service access granted. *)
Definition no_proxy : context :=
  MkContext {[ "EXECUTION_ID" := "exec-1" ]} unreachable.

Definition proxy_url : string := "http://proxy:8080".

Definition with_proxy (answer : result response) : context :=
  MkContext (<["SERVICE_PROXY_URL" := proxy_url]> {[ "EXECUTION_ID" := "exec-1" ]})
           (fun url => if String.eqb url "http://proxy:8080/health"
                       then answer else unreachable url).

Definition health_body : json :=
  JObj [("status", JStr "healthy"); ("services", JObj [("catalog", JObj [])])].

(** The gateway of the spec's scenario. *)
Definition healthy_proxy : context :=
  with_proxy (Ok (Response 200 (dumps health_body))).



(** A gateway that times out. *)
Definition slow_proxy : context :=
  with_proxy (Raise (Exn RequestException "Read timed out. (read timeout=5)")).

(** No execution identifier in the environment. *)
Definition anonymous : context := MkContext ∅ unreachable.

(** A workspace whose configuration, as the Materializer writes it under
    [config/], asks for model training. *)
Definition training_workspace : node :=
  Dir {[ "workspace" :=
           Dir {[ "config" :=
                    Dir {[ "config.json" :=
                             File (dumps (JObj [("operation", JStr "ml_training")])) ]} ]} ]}.

(** A workspace with a configuration where the worker script looks for
    it. *)
Definition worker_workspace (config : json) : node :=
  Dir {[ "workspace" :=
           Dir {[ "input" := Dir {[ "config.json" := File (dumps config) ]} ]} ]}.

(** A data-processing configuration whose [input_files] is a number. *)
Definition odd_config : json :=
  JObj [("operation", JStr "data_processing"); ("input_files", JInt 5)].

(** A workspace whose configuration is not JSON. *)
Definition unreadable_workspace : node :=
  Dir {[ "workspace" :=
           Dir {[ "config" := Dir {[ "config.json" := File "{" ]} ]} ]}.

(** An empty [SERVICE_PROXY_URL]. *)
Definition blank_proxy : context :=
  MkContext (<["SERVICE_PROXY_URL" := EmptyString]> {[ "EXECUTION_ID" := "exec-1" ]})
            unreachable.


(** A configuration that asks for model training with a given model. *)
Definition training_config : json :=
  JObj [("operation", JStr "ml_training"); ("model_type", JStr "xgboost")].

(** A workspace where a directory is in the place of the report. *)
Definition cluttered_workspace : node :=
  Dir {[ "workspace" :=
           Dir {[ "output" := Dir {[ "analysis.txt" := Dir ∅ ]} ]} ]}.
End Example.

(** * Properties *)

(** ** Dicts *)

Lemma dict_get_set (k k' : string) (v : json) (d : dict) :
  dict_get k (dict_set k' v d) = if String.eqb k k' then Some v else dict_get k d.
Proof.
  induction d as [|[k0 v0] d IH]; simpl.
  - reflexivity.
  - destruct (String.eqb_spec k' k0) as [->|Hne]; simpl.
    + destruct (String.eqb k k0); reflexivity.
    + rewrite IH. destruct (String.eqb_spec k k0) as [->|Hne'].
      * destruct (String.eqb_spec k0 k') as [Heq|_]; [congruence | reflexivity].
      * reflexivity.
Qed.

Lemma dict_get_set_ne (k k' : string) (v : json) (d : dict) :
  k <> k' -> dict_get k (dict_set k' v d) = dict_get k d.
Proof.
  intros Hne. rewrite dict_get_set.
  by destruct (String.eqb_spec k k').
Qed.

Lemma dict_set_nonempty (k : string) (v : json) (d : dict) : dict_set k v d <> [].
Proof.
  destruct d as [|[k0 v0] d]; simpl; [discriminate|].
  destruct (String.eqb k k0); discriminate.
Qed.

Lemma dict_update_nonempty (d extra : dict) :
  d <> [] \/ extra <> [] -> dict_update d extra <> [].
Proof.
  unfold dict_update. revert d.
  induction extra as [|[k v] extra IH]; intros d Hne; simpl.
  - destruct Hne as [Hd|He]; [exact Hd | congruence].
  - apply IH. left. apply dict_set_nonempty.
Qed.

(** ** The file system *)

Lemma fs_lookup_app (p q : path) (n : node) :
  fs_lookup (p ++ q) n =
  match fs_lookup p n with Some c => fs_lookup q c | None => None end.
Proof.
  revert n. induction p as [|x p IH]; intros n; simpl.
  - reflexivity.
  - destruct n as [|m]; [reflexivity|].
    destruct (m !! x); [apply IH | reflexivity].
Qed.

Lemma fs_lookup_below_file (q : path) (data : string) :
  q <> [] -> fs_lookup q (File data) = None.
Proof. destruct q; [congruence | reflexivity]. Qed.

Lemma fs_lookup_below_empty (q : path) :
  q <> [] -> fs_lookup q (Dir ∅) = None.
Proof. destruct q; [congruence|]. intros _. simpl. by rewrite lookup_empty. Qed.

(** A successful write leaves the file behind. *)
Lemma fs_write_at_lookup (full p : path) (data : string) (n n' : node) :
  fs_write_at full p data n = Ok n' -> fs_lookup p n' = Some (File data).
Proof.
  revert n n'. induction p as [|x p IH]; intros n n' Hw; simpl in Hw.
  - discriminate.
  - destruct n as [|m]; [discriminate|].
    destruct p as [|y p].
    + destruct (m !! x) as [[|]|]; simplify_eq; simpl; by rewrite lookup_insert_eq.
    + destruct (m !! x) as [c|]; [|discriminate].
      destruct (fs_write_at full (y :: p) data c) as [c'|] eqn:Hc; simplify_eq/=.
      rewrite lookup_insert_eq. by apply (IH c).
Qed.

(** A successful write changes nothing outside the path written. *)
Lemma fs_write_at_other (full p q : path) (data : string) (n n' : node) :
  fs_write_at full p data n = Ok n' -> ¬ q `prefix_of` p ->
  fs_lookup q n' = fs_lookup q n.
Proof.
  revert q n n'. induction p as [|x p IH]; intros q n n' Hw Hq; simpl in Hw.
  - discriminate.
  - destruct q as [|z q]; [destruct Hq; apply prefix_nil|].
    destruct n as [|m]; [discriminate|].
    destruct (decide (z = x)) as [->|Hne].
    + assert (Hq' : ¬ q `prefix_of` p) by (intros H; apply Hq; by apply prefix_cons).
      destruct p as [|y p].
      * assert (q <> []) by (intros ->; apply Hq'; apply prefix_nil).
        destruct (m !! x) as [[|]|] eqn:Hx; simplify_eq; simpl;
          rewrite lookup_insert_eq, ?Hx; by rewrite !fs_lookup_below_file.
      * destruct (m !! x) as [c|] eqn:Hx; [|discriminate].
        destruct (fs_write_at full (y :: p) data c) as [c'|] eqn:Hc; simplify_eq/=.
        rewrite lookup_insert_eq, Hx. by apply IH.
    + destruct p as [|y p].
      * destruct (m !! x) as [[|]|]; simplify_eq; simpl; by rewrite lookup_insert_ne.
      * destruct (m !! x) as [c|]; [|discriminate].
        destruct (fs_write_at full (y :: p) data c) as [c'|]; simplify_eq/=.
        by rewrite lookup_insert_ne.
Qed.

(** Writing succeeds in an existing directory, unless the name is taken
    by a directory. *)
Lemma fs_write_at_in_dir (full parent : path) (x data : string) (n : node)
      (m : gmap string node) :
  fs_lookup parent n = Some (Dir m) ->
  (forall m', m !! x <> Some (Dir m')) ->
  exists n', fs_write_at full (parent ++ [x]) data n = Ok n' /\
             fs_lookup parent n' = Some (Dir (<[x := File data]> m)).
Proof.
  revert n. induction parent as [|y parent IH]; intros n Hp Hx; simpl in *.
  - simplify_eq. destruct (m !! x) as [[|m']|] eqn:E; eauto.
    by destruct (Hx m').
  - destruct n as [|m0]; [discriminate|].
    destruct (m0 !! y) as [c|] eqn:Hy; [|discriminate].
    destruct (IH c Hp Hx) as (c' & Hw & Hl).
    destruct (parent ++ [x])%list eqn:E; [by destruct parent|]. rewrite Hw.
    simpl. eexists; split; [reflexivity|]. simpl. by rewrite lookup_insert_eq.
Qed.

(** What a successful [mkdir] leaves outside the new directory. *)
Lemma fs_mkdir_at_other (full p q : path) (n n' : node) :
  fs_mkdir_at full p n = Ok n' -> ¬ q `prefix_of` p ->
  fs_lookup q n' = fs_lookup q n.
Proof.
  revert q n n'. induction p as [|x p IH]; intros q n n' Hw Hq; simpl in Hw.
  - by simplify_eq.
  - destruct q as [|z q]; [destruct Hq; apply prefix_nil|].
    destruct n as [|m]; [discriminate|].
    destruct (decide (z = x)) as [->|Hne].
    + assert (Hq' : ¬ q `prefix_of` p) by (intros H; apply Hq; by apply prefix_cons).
      destruct p as [|y p].
      * assert (q <> []) by (intros ->; apply Hq'; apply prefix_nil).
        destruct (m !! x) as [[|]|] eqn:Hx; simplify_eq; simpl; [done|].
        by rewrite lookup_insert_eq, Hx, fs_lookup_below_empty.
      * destruct (m !! x) as [c|] eqn:Hx; [|discriminate].
        destruct (fs_mkdir_at full (y :: p) c) as [c'|] eqn:Hc; simplify_eq/=.
        rewrite lookup_insert_eq, Hx. by apply IH.
    + destruct p as [|y p].
      * destruct (m !! x) as [[|]|]; simplify_eq; simpl; [done|].
        by rewrite lookup_insert_ne.
      * destruct (m !! x) as [c|]; [|discriminate].
        destruct (fs_mkdir_at full (y :: p) c) as [c'|]; simplify_eq/=.
        by rewrite lookup_insert_ne.
Qed.

Lemma fs_mkdir_at_cons (full p : path) (y : string) (m : gmap string node) :
  p <> [] ->
  fs_mkdir_at full (y :: p) (Dir m) =
  match m !! y with
  | Some c => result_bind (fs_mkdir_at full p c) (fun c' => Ok (Dir (<[y := c']> m)))
  | None => Raise (os_error FileNotFoundError "[Errno 2] No such file or directory" full)
  end.
Proof. destruct p; [done | reflexivity]. Qed.

(** [mkdir(exist_ok=True)] succeeds in an existing directory, unless the
    name is taken by a file. *)
Lemma fs_mkdir_at_in_dir (full parent : path) (x : string) (n : node)
      (m : gmap string node) :
  fs_lookup parent n = Some (Dir m) ->
  (forall data, m !! x <> Some (File data)) ->
  exists n', fs_mkdir_at full (parent ++ [x]) n = Ok n' /\
             fs_lookup (parent ++ [x]) n' =
             Some (match m !! x with Some c => c | None => Dir ∅ end).
Proof.
  revert n. induction parent as [|y parent IH]; intros n Hp Hx.
  - simpl in *. simplify_eq. destruct (m !! x) as [[data|m']|] eqn:E.
    + by destruct (Hx data).
    + eexists; split; [reflexivity|]. simpl. by rewrite E.
    + eexists; split; [reflexivity|]. simpl. by rewrite lookup_insert_eq.
  - simpl in Hp. destruct n as [|m0]; [discriminate|].
    destruct (m0 !! y) as [c|] eqn:Hy; [|discriminate].
    destruct (IH c Hp Hx) as (c' & Hw & Hl).
    change ((y :: parent) ++ [x])%list with (y :: (parent ++ [x]))%list.
    rewrite fs_mkdir_at_cons, Hy, Hw by (by destruct parent).
    eexists; split; [reflexivity|]. simpl. by rewrite lookup_insert_eq.
Qed.

(** ** Running programs *)

Lemma bind_ok {S A B} (m : prog S A) (k : A -> prog S B) (s s' : S) (b : B) :
  bind m k s = (Ok b, s') ->
  exists a s1, m s = (Ok a, s1) /\ k a s1 = (Ok b, s').
Proof.
  unfold bind. destruct (m s) as [[a|e] s1]; [eauto | discriminate].
Qed.

Lemma bind_run {S A B} (m : prog S A) (k : A -> prog S B) (s s1 : S) (a : A) :
  m s = (Ok a, s1) -> bind m k s = k a s1.
Proof. unfold bind. by intros ->. Qed.

(** Reading the fields of a concrete state. *)
Ltac simpl_state :=
  cbn [get_fs set_fs TestContainer.state_has_fs node_has_fs
       TestContainer.st_fs TestContainer.st_requests TestContainer.st_results] in *.

(** ** The steps of the test container *)

Section TestContainerSteps.
Import TestContainer.
Context `{JsonCodec} (ctx : context).

Lemma count_of_array (d : dict) (k : string) :
  array_if_present k d -> count_of (JObj d) k = Ok (array_length k d).
Proof.
  intros Harr. unfold count_of, array_length. simpl.
  destruct (dict_get k d) as [v|] eqn:E; [|reflexivity].
  destruct (Harr v E) as [items ->]. reflexivity.
Qed.

Lemma load_json_file {S} `{HasFs S} (p : path) (s : S) (text : string) :
  fs_lookup p (get_fs s) = Some (File text) ->
  load_json p s = (json_loads text, s).
Proof.
  intros Hp. unfold load_json, bind, read_text, fs_read, lift. rewrite Hp.
  by destruct (json_loads text).
Qed.

Lemma load_json_state (p : path) (fs : node) (rq : list string) (rs : dict)
      (text : string) :
  fs_lookup p fs = Some (File text) ->
  load_json p (State fs rq rs) = (json_loads text, State fs rq rs).
Proof. intros Hp. by apply load_json_file. Qed.

(** Counting the nodes and relationships of a graph file. *)
Lemma load_graph_stats_run (p : path) (fs : node) (rq : list string) (rs : dict)
      (text : string) (d : dict) :
  fs_lookup p fs = Some (File text) ->
  json_loads text = Ok (JObj d) ->
  array_if_present "nodes" d -> array_if_present "relationships" d ->
  load_graph_stats p (State fs rq rs) = (Ok (graph_stats d), State fs rq rs).
Proof.
  intros Hfile Hload Hn Hr. unfold load_graph_stats.
  unfold bind at 1. rewrite (load_json_state _ _ rq rs _ Hfile), Hload.
  unfold bind, lift. by rewrite !count_of_array.
Qed.

(** Step 1 on a workspace that keeps the contract. *)
Lemma read_graph_data_run (fs : node) (rq : list string) (rs : dict) :
  holds_object fs graph_file
    (fun d => array_if_present "nodes" d /\ array_if_present "relationships" d) ->
  exists rs',
    read_graph_data (State fs rq rs) = (Ok tt, State fs rq rs') /\
    ((fs_lookup graph_file fs = None /\ rs' = rs) \/
     (exists text d,
         fs_lookup graph_file fs = Some (File text) /\
         json_loads text = Ok (JObj d) /\
         rs' = dict_set "input_graph_stats" (graph_stats d) rs)).
Proof.
  intros [Hnone | (text & d & Hfile & Hload & Hn & Hr)];
    unfold read_graph_data, bind at 1, path_exists, fs_exists; simpl_state.
  - rewrite Hnone. eauto.
  - rewrite Hfile. cbv beta iota.
    unfold bind at 1. rewrite (load_graph_stats_run _ _ rq rs _ d Hfile Hload) by done.
    eexists; split; [reflexivity|]. right. by exists text, d.
Qed.

(** Step 2 on a workspace that keeps the contract. *)
Lemma read_configuration_run (fs : node) (rq : list string) (rs : dict) :
  holds_object fs config_file (fun _ => True) ->
  exists rs',
    read_configuration (State fs rq rs) = (Ok tt, State fs rq rs') /\
    ((fs_lookup config_file fs = None /\ rs' = rs) \/
     (exists text d,
         fs_lookup config_file fs = Some (File text) /\
         json_loads text = Ok (JObj d) /\
         rs' = dict_set "config_keys" (JArr (JStr <$> dict_keys d)) rs)).
Proof.
  intros [Hnone | (text & d & Hfile & Hload & _)];
    unfold read_configuration, bind at 1, path_exists, fs_exists; simpl_state.
  - rewrite Hnone. eauto.
  - rewrite Hfile. cbv beta iota.
    unfold bind at 1. rewrite (load_json_state _ _ rq rs _ Hfile), Hload.
    eexists; split; [reflexivity|]. right. by exists text, d.
Qed.

(** Step 3 never fails. *)
Lemma list_input_files_run (fs : node) (rq : list string) (rs : dict) :
  exists files,
    list_input_files (State fs rq rs) =
    (Ok tt, State fs rq (dict_set "input_files" (JArr files) rs)).
Proof. eexists. reflexivity. Qed.

(** Step 4 without a usable [SERVICE_PROXY_URL]: nothing happens. *)
Lemma test_service_access_skip (s : state) :
  truthy (environ ctx !! "SERVICE_PROXY_URL") = None ->
  test_service_access ctx s = (Ok tt, s).
Proof. intros Hurl. unfold test_service_access. by rewrite Hurl. Qed.

(** Step 4 never fails, never touches the file system, and writes only
    its own three keys. *)
Lemma test_service_access_run (fs : node) (rq : list string) (rs : dict) :
  exists rq' rs',
    test_service_access ctx (State fs rq rs) = (Ok tt, State fs rq' rs') /\
    forall k, k <> "service_proxy_status" -> k <> "available_services" ->
              k <> "service_proxy_error" -> dict_get k rs' = dict_get k rs.
Proof.
  unfold test_service_access.
  destruct (truthy (environ ctx !! "SERVICE_PROXY_URL")) as [url|];
    [|by eexists _, _].
  unfold try_except, check_health, bind, requests_get, lift, set_result.
  simpl_state.
  destruct (network ctx (url +:+ "/health")) as [resp|e].
  - destruct (status_code resp =? 200)%Z.
    + destruct (response_json resp) as [health_data|e].
      * destruct (py_getitem health_data "status") as [?|e].
        -- destruct (py_get health_data "services" (JObj [])) as [services|e].
           ++ destruct (py_keys services) as [names|e];
                (eexists _, _; split; [reflexivity|]; intros k ? ? ?; simpl;
                 by rewrite !dict_get_set_ne).
           ++ eexists _, _; split; [reflexivity|]; intros k ? ? ?; simpl.
              by rewrite !dict_get_set_ne.
        -- eexists _, _; split; [reflexivity|]; intros k ? ? ?; simpl.
           by rewrite !dict_get_set_ne.
      * eexists _, _; split; [reflexivity|]; intros k ? ? ?; simpl.
        by rewrite !dict_get_set_ne.
    + eexists _, _; split; [reflexivity|]; intros k ? ? ?; simpl.
      by rewrite !dict_get_set_ne.
  - eexists _, _; split; [reflexivity|]; intros k ? ? ?; simpl.
    by rewrite !dict_get_set_ne.
Qed.

(** The health check of a proxy that answers 200 with a well-formed
    body. *)
Lemma test_service_access_healthy (url : string) (resp : response) (d : dict)
      (status : json) (names : list string)
      (fs : node) (rq : list string) (rs : dict) :
  truthy (environ ctx !! "SERVICE_PROXY_URL") = Some url ->
  network ctx (url +:+ "/health") = Ok resp ->
  status_code resp = 200%Z ->
  json_loads (body resp) = Ok (JObj d) ->
  dict_get "status" d = Some status ->
  result_bind (py_get (JObj d) "services" (JObj [])) py_keys = Ok names ->
  test_service_access ctx (State fs rq rs) =
  (Ok tt,
   State fs ((url +:+ "/health") :: rq)
         (dict_set "available_services" (JArr (JStr <$> names))
            (dict_set "service_proxy_status" (JStr "healthy") rs))).
Proof.
  intros Hurl Hnet Hcode Hbody Hstatus Hservices.
  unfold test_service_access. rewrite Hurl.
  unfold try_except, check_health, bind, requests_get, lift, set_result,
    response_json.
  simpl_state. rewrite Hnet, Hcode, Hbody. simpl. rewrite Hstatus.
  simpl in Hservices.
  destruct (py_keys _) as [names'|]; by simplify_eq.
Qed.




Lemma test_service_access_raises (url : string) (e : exn)
      (fs : node) (rq : list string) (rs : dict) :
  truthy (environ ctx !! "SERVICE_PROXY_URL") = Some url ->
  health_request_raises ctx url e ->
  test_service_access ctx (State fs rq rs) =
  (Ok tt,
   State fs ((url +:+ "/health") :: rq)
         (dict_set "service_proxy_error" (JStr (exn_msg e)) rs)).
Proof.
  intros Hurl Hraise.
  unfold test_service_access. rewrite Hurl.
  unfold try_except, check_health, bind, requests_get, lift, set_result,
    response_json.
  simpl_state.
  destruct Hraise as [Hnet | (resp & Hnet & Hcode & Hbody)]; rewrite Hnet.
  - reflexivity.
  - by rewrite Hcode, Hbody.
Qed.
End TestContainerSteps.

(** ** The test container as a whole *)

Section TestContainerRun.
Import TestContainer.
Context `{JsonCodec} (ctx : context).
Open Scope prog_scope.

Lemma not_prefix_of_output (q : path) :
  q = graph_file \/ q = config_file \/ q = input_dir ->
  ¬ q `prefix_of` output_dir.
Proof. intros [->|[->| ->]] [k Hk]; discriminate Hk. Qed.

(** Steps 0 to 3 on a workspace that keeps the contract: they succeed,
    and leave an empty output directory. *)
Lemma main_prefix (fs : node) :
  workspace_ok fs ->
  exists fs1 rs3,
    main ctx (initial fs) =
    (test_service_access ctx ;;
     generate_output_files (environ_get ctx "EXECUTION_ID" "unknown") ;;
     generate_graph_update (environ_get ctx "EXECUTION_ID" "unknown") ;;
     ret 0%Z) (State fs1 [] rs3) /\
    fs_lookup output_dir fs1 = Some (Dir ∅) /\
    fs_lookup graph_file fs1 = fs_lookup graph_file fs /\
    inputs_read fs rs3.
Proof.
  intros [[m Hroot] Hout Hconfig Hgraph].
  (* step 0: the output directory *)
  assert (Hm : m !! "output" = None \/ m !! "output" = Some (Dir ∅)).
  { change output_dir with (["workspace"] ++ ["output"])%list in Hout.
    rewrite fs_lookup_app, Hroot in Hout. simpl in Hout.
    destruct (m !! "output"); naive_solver. }
  destruct (fs_mkdir_at_in_dir output_dir ["workspace"] "output" fs m Hroot)
    as (fs1 & Hmk & Hout1).
  { intros data Hd. destruct Hm; congruence. }
  assert (Hout1' : fs_lookup output_dir fs1 = Some (Dir ∅)).
  { change output_dir with (["workspace"] ++ ["output"])%list.
    rewrite Hout1. by destruct Hm as [-> | ->]. }
  assert (Hsame : forall q, q = graph_file \/ q = config_file \/ q = input_dir ->
                            fs_lookup q fs1 = fs_lookup q fs).
  { intros q Hq. eapply fs_mkdir_at_other; [exact Hmk|].
    by apply not_prefix_of_output. }
  (* steps 1 to 3 *)
  destruct (read_graph_data_run fs1 [] []) as (rs1 & Hrun1 & Hrs1).
  { unfold holds_object. rewrite Hsame by auto. exact Hgraph. }
  destruct (read_configuration_run fs1 [] rs1) as (rs2 & Hrun2 & Hrs2).
  { unfold holds_object. rewrite Hsame by auto. exact Hconfig. }
  destruct (list_input_files_run fs1 [] rs2) as (files & Hrun3).
  exists fs1, (dict_set "input_files" (JArr files) rs2).
  split; [|split; [exact Hout1'|split; [auto|]]].
  - unfold main, initial, mkdir, fs_mkdir. unfold bind at 1. simpl_state.
    change (["workspace"] ++ ["output"])%list with output_dir in Hmk.
    rewrite Hmk. simpl_state.
    rewrite (bind_run _ _ _ _ _ Hrun1), (bind_run _ _ _ _ _ Hrun2).
    by rewrite (bind_run _ _ _ _ _ Hrun3).
  - rewrite !Hsame in * by auto.
    assert (Hrs2' : forall k, k <> "config_keys" -> dict_get k rs2 = dict_get k rs1).
    { intros k Hk. destruct Hrs2 as [[_ ->]|(? & ? & _ & _ & ->)]; [done|].
      by rewrite dict_get_set_ne. }
    split.
    + exists files. by rewrite dict_get_set.
    + intros k Hk1 Hk2 Hk3. rewrite dict_get_set_ne, Hrs2' by done.
      destruct Hrs1 as [[_ ->]|(? & ? & _ & _ & ->)]; [done|].
      by rewrite dict_get_set_ne.
    + intros Hnone. rewrite dict_get_set_ne, Hrs2' by done.
      destruct Hrs1 as [[_ ->]|(? & ? & Hf & _ & _)]; [done | congruence].
    + intros text d Hf Hl. rewrite dict_get_set_ne, Hrs2' by done.
      destruct Hrs1 as [[Hn _]|(text' & d' & Hf' & Hl' & ->)]; [congruence|].
      rewrite dict_get_set. simpl. congruence.
Qed.

Lemma write_text_run (parent : path) (x data : string) (m : gmap string node)
      (fs : node) (rq : list string) (rs : dict) :
  fs_lookup parent fs = Some (Dir m) ->
  (forall m', m !! x <> Some (Dir m')) ->
  exists fs',
    write_text (parent ++ [x]) data (State fs rq rs) = (Ok tt, State fs' rq rs) /\
    fs_lookup parent fs' = Some (Dir (<[x := File data]> m)) /\
    forall q : path, ¬ q `prefix_of` (parent ++ [x])%list ->
                     fs_lookup q fs' = fs_lookup q fs.
Proof.
  intros Hp Hx.
  destruct (fs_write_at_in_dir (parent ++ [x]) parent x data fs m Hp Hx)
    as (fs' & Hw & Hl).
  exists fs'. unfold write_text, fs_write. simpl_state. rewrite Hw.
  split; [reflexivity|]. split; [exact Hl|].
  intros q Hq. by eapply fs_write_at_other.
Qed.

(** Steps 5 and 6 in an empty output directory: they succeed, and this
    is what they write. *)
Lemma main_suffix (execution_id : string) (fs1 : node) (rq : list string)
      (rs4 : dict) (files : list json) :
  fs_lookup output_dir fs1 = Some (Dir ∅) ->
  dict_get "input_files" rs4 = Some (JArr files) ->
  exists fs2,
    (generate_output_files execution_id ;;
     generate_graph_update execution_id ;;
     ret 0%Z) (State fs1 rq rs4) =
    (Ok 0%Z, State fs2 rq (final_results execution_id rs4)) /\
    holds_json fs2 results_file (JObj (final_results execution_id rs4)) /\
    fs_lookup analysis_file fs2 =
      Some (File (analysis_report execution_id (length files)
                                  (final_results execution_id rs4))) /\
    (fs_lookup graph_file fs1 <> None ->
     holds_json fs2 graph_update_file (graph_update execution_id)) /\
    (fs_lookup graph_file fs1 = None -> fs_lookup graph_update_file fs2 = None).
Proof.
  intros Hout Hfiles.
  set (rs5 := final_results execution_id rs4).
  assert (Hfiles5 : dict_get "input_files" rs5 = Some (JArr files)).
  { unfold rs5, final_results. by rewrite !dict_get_set. }
  destruct (write_text_run output_dir "results.json" (json_dumps (JObj rs5))
              ∅ fs1 rq rs5 Hout) as (fsa & Hwa & Houta & Hsamea).
  { intros m'. by rewrite lookup_empty. }
  destruct (write_text_run output_dir "analysis.txt"
              (analysis_report execution_id (length files) rs5)
              _ fsa rq rs5 Houta) as (fsb & Hwb & Houtb & Hsameb).
  { intros m'. by rewrite lookup_insert_ne, lookup_empty. }
  assert (Hgraph : fs_lookup graph_file fsb = fs_lookup graph_file fs1).
  { rewrite Hsameb, Hsamea; [done| |]; intros [k Hk]; discriminate Hk. }
  assert (Hfirst :
            generate_output_files execution_id (State fs1 rq rs4) =
            (Ok tt, State fsb rq rs5)).
  { unfold generate_output_files, bind, set_result, get_results, dump_json, lift.
    simpl_state. fold (final_results execution_id rs4). fold rs5.
    change (results_file) with (output_dir ++ ["results.json"])%list.
    rewrite Hwa. simpl_state. rewrite Hfiles5. simpl.
    change (analysis_file) with (output_dir ++ ["analysis.txt"])%list.
    by rewrite Hwb. }
  unfold bind at 1. rewrite Hfirst.
  unfold generate_graph_update, bind, path_exists, fs_exists, ret, dump_json.
  simpl_state. rewrite Hgraph.
  destruct (fs_lookup graph_file fs1) as [g|] eqn:Hg.
  - destruct (write_text_run output_dir "graph_update.json"
                (json_dumps (graph_update execution_id))
                _ fsb rq rs5 Houtb) as (fsc & Hwc & Houtc & Hsamec).
    { intros m'. by rewrite !lookup_insert_ne, lookup_empty. }
    exists fsc.
    change (graph_update_file) with (output_dir ++ ["graph_update.json"])%list.
    rewrite Hwc. split; [reflexivity|].
    unfold holds_json, results_file, analysis_file. rewrite !fs_lookup_app, Houtc.
    simpl. repeat split; intros; by simplify_map_eq.
  - exists fsb. split; [reflexivity|].
    unfold holds_json, results_file, analysis_file, graph_update_file.
    rewrite !fs_lookup_app, Houtb.
    simpl. repeat split; intros; by simplify_map_eq.
Qed.

Lemma write_text_ok (p : path) (data : string) (s s' : state) :
  write_text p data s = (Ok tt, s') ->
  fs_lookup p (st_fs s') = Some (File data) /\
  st_results s' = st_results s /\
  forall q : path, ¬ q `prefix_of` p -> fs_lookup q (st_fs s') = fs_lookup q (st_fs s).
Proof.
  unfold write_text, fs_write. simpl_state.
  destruct (fs_write_at p p data (st_fs s)) as [n|e] eqn:Hw; [|discriminate].
  intros [= <-]. simpl. split; [by eapply fs_write_at_lookup|].
  split; [done|]. intros q Hq. by eapply fs_write_at_other.
Qed.

(** Whenever step 5 succeeds, the results file holds the final
    [results], which are not empty. *)
Lemma generate_output_files_ok (execution_id : string) (s s' : state) :
  generate_output_files execution_id s = (Ok tt, s') ->
  st_results s' = final_results execution_id (st_results s) /\
  holds_json (st_fs s') results_file (JObj (st_results s')).
Proof.
  unfold generate_output_files. destruct s as [fs rq rs].
  unfold bind at 1, set_result at 1. simpl_state.
  unfold bind at 1, set_result at 1. simpl_state.
  unfold bind at 1, set_result at 1. simpl_state.
  fold (final_results execution_id rs).
  unfold bind at 1, get_results at 1. simpl_state.
  intros ([] & s1 & Hdump & Hrest)%bind_ok.
  apply write_text_ok in Hdump as (Hfile & Hrs1 & _).
  apply bind_ok in Hrest as (rs' & s2 & Hget & Hrest).
  unfold get_results in Hget. simplify_eq.
  apply bind_ok in Hrest as (n & s3 & Hlen & Hrest).
  unfold lift in Hlen. simplify_eq.
  apply write_text_ok in Hrest as (_ & Hrs' & Hsame).
  simpl in Hrs1. rewrite Hrs', Hrs1. split; [done|].
  unfold holds_json. rewrite Hsame; [done|].
  intros [k Hk]. discriminate Hk.
Qed.

(** Step 6 leaves the results file alone. *)
Lemma generate_graph_update_ok (execution_id : string) (s s' : state) :
  generate_graph_update execution_id s = (Ok tt, s') ->
  st_results s' = st_results s /\
  fs_lookup results_file (st_fs s') = fs_lookup results_file (st_fs s).
Proof.
  unfold generate_graph_update, bind, path_exists.
  destruct (fs_exists graph_file (get_fs s)).
  - intros (_ & Hrs & Hsame)%write_text_ok. split; [done|].
    apply Hsame. intros [k Hk]. discriminate Hk.
  - unfold ret. by intros [= <-].
Qed.

(** A run that exits with 0 has written its results, whatever the
    workspace was. *)
Lemma run_success_results (fs : node) :
  exit_code (run ctx fs) = 0%Z ->
  exists results,
    st_results (run ctx fs).2 = results /\ results <> [] /\
    holds_json (st_fs (run ctx fs).2) results_file (JObj results).
Proof.
  unfold exit_code, run.
  destruct (main ctx (initial fs)) as [[z|e] s'] eqn:Hmain; simpl; [|done].
  intros _. unfold main in Hmain.
  apply bind_ok in Hmain as (? & s1 & _ & Hmain).
  apply bind_ok in Hmain as (? & s2 & _ & Hmain).
  apply bind_ok in Hmain as (? & s3 & _ & Hmain).
  apply bind_ok in Hmain as (? & s4 & _ & Hmain).
  apply bind_ok in Hmain as (? & s5 & _ & Hmain).
  apply bind_ok in Hmain as ([] & s6 & Hout & Hmain).
  apply bind_ok in Hmain as ([] & s7 & Hupd & Hmain).
  unfold ret in Hmain. simplify_eq.
  apply generate_output_files_ok in Hout as (Hrs & Hfile).
  apply generate_graph_update_ok in Hupd as (Hrs' & Hsame).
  eexists; split; [reflexivity|]. rewrite Hrs'. split.
  - rewrite Hrs. apply dict_set_nonempty.
  - unfold holds_json. by rewrite Hsame.
Qed.

(** The whole run on a workspace that keeps the contract: it exits with
    0, step 4 being the only part that depends on the network. *)
Lemma run_spec (fs : node) :
  workspace_ok fs ->
  let execution_id := environ_get ctx "EXECUTION_ID" "unknown" in
  exists fs1 fs2 rs3 rq rs4 files,
    test_service_access ctx (State fs1 [] rs3) = (Ok tt, State fs1 rq rs4) /\
    inputs_read fs rs3 /\
    dict_get "input_files" rs4 = Some (JArr files) /\
    (forall k, k <> "service_proxy_status" -> k <> "available_services" ->
               k <> "service_proxy_error" -> dict_get k rs4 = dict_get k rs3) /\
    run ctx fs = (Ok 0%Z, State fs2 rq (final_results execution_id rs4)) /\
    holds_json fs2 results_file (JObj (final_results execution_id rs4)) /\
    fs_lookup analysis_file fs2 =
      Some (File (analysis_report execution_id (length files)
                                  (final_results execution_id rs4))) /\
    (fs_lookup graph_file fs <> None ->
     holds_json fs2 graph_update_file (graph_update execution_id)).
Proof.
  intros Hwf eid.
  destruct (main_prefix fs Hwf) as (fs1 & rs3 & Hmain & Hout & Hgraph & Hin).
  destruct (test_service_access_run ctx fs1 [] rs3) as (rq & rs4 & Hsvc & Hframe).
  destruct (read_files _ _ Hin) as [files Hfiles].
  assert (Hfiles4 : dict_get "input_files" rs4 = Some (JArr files))
    by (by rewrite Hframe).
  destruct (main_suffix eid fs1 rq rs4 files Hout Hfiles4)
    as (fs2 & Hsuffix & Hres & Hana & Hupd & _).
  exists fs1, fs2, rs3, rq, rs4, files.
  do 4 (split; [done|]). split; [|do 2 (split; [done|])].
  - unfold run. rewrite Hmain. unfold bind at 1. by rewrite Hsvc.
  - intros Hg. apply Hupd. by rewrite Hgraph.
Qed.
End TestContainerRun.

(** ** What the test container guarantees *)

Section TestContainerClaims.
Import TestContainer.
Context `{JsonCodec} (ctx : context).

(** C1. A workspace whose [input/graph_data.json] holds 3 nodes and 2
    relationships, run without [SERVICE_PROXY_URL]: the run exits with
    0, and [output/results.json] holds results whose [status] is
    [completed], whose [input_graph_stats] is [{node_count: 3,
    relationship_count: 2}], and which have no [service_proxy_status]
    key. *)
Theorem graph_scenario_completes (fs : node) (text : string) (g : json) :
  workspace_ok fs ->
  fs_lookup graph_file fs = Some (File text) ->
  json_loads text = Ok g ->
  graph_with g 3 2 ->
  environ ctx !! "SERVICE_PROXY_URL" = None ->
  exit_code (run ctx fs) = 0%Z /\
  exists results,
    holds_json (st_fs (run ctx fs).2) results_file (JObj results) /\
    dict_get "status" results = Some (JStr "completed") /\
    dict_get "input_graph_stats" results =
      Some (JObj [("node_count", JInt 3); ("relationship_count", JInt 2)]) /\
    dict_get "service_proxy_status" results = None.
Proof.
  intros Hwf Hfile Hload (d & nodes & rels & -> & Hn & Hnl & Hr & Hrl) Hurl.
  destruct (run_spec ctx fs Hwf)
    as (fs1 & fs2 & rs3 & rq & rs4 & files & Hsvc & Hin & _ & _ & Hrun & Hres & _).
  rewrite test_service_access_skip in Hsvc by (by rewrite Hurl).
  simplify_eq. rewrite Hrun. split; [reflexivity|].
  eexists; split; [exact Hres|].
  unfold final_results. rewrite !dict_get_set. simpl.
  split; [done|]. split.
  - rewrite (read_graph _ _ Hin text d Hfile Hload).
    unfold graph_stats, array_length. by rewrite Hn, Hr, Hnl, Hrl.
  - by apply (read_only _ _ Hin).
Qed.

(** C3. Without [SERVICE_PROXY_URL] the container makes no request,
    records no error key, and exits with 0. *)
Theorem no_proxy_is_not_an_error (fs : node) :
  workspace_ok fs ->
  environ ctx !! "SERVICE_PROXY_URL" = None ->
  exit_code (run ctx fs) = 0%Z /\
  st_requests (run ctx fs).2 = [] /\
  exists results,
    holds_json (st_fs (run ctx fs).2) results_file (JObj results) /\
    dict_get "service_proxy_error" results = None /\
    dict_get "error" results = None /\
    dict_get "status" results = Some (JStr "completed").
Proof.
  intros Hwf Hurl.
  destruct (run_spec ctx fs Hwf)
    as (fs1 & fs2 & rs3 & rq & rs4 & files & Hsvc & Hin & _ & _ & Hrun & Hres & _).
  rewrite test_service_access_skip in Hsvc by (by rewrite Hurl).
  simplify_eq. rewrite Hrun. do 2 (split; [reflexivity|]).
  eexists; split; [exact Hres|].
  unfold final_results. rewrite !dict_get_set. simpl.
  by rewrite !(read_only _ _ Hin).
Qed.

(** C4. When [SERVICE_PROXY_URL] is set and the health endpoint returns
    [{"status": "healthy", "services": {"catalog": {}}}], the results
    hold [service_proxy_status] = ["healthy"] and [available_services] =
    [["catalog"]]. *)
Theorem healthy_gateway_is_reported (fs : node) (url : string) :
  workspace_ok fs ->
  truthy (environ ctx !! "SERVICE_PROXY_URL") = Some url ->
  health_returns ctx url
    (JObj [("status", JStr "healthy"); ("services", JObj [("catalog", JObj [])])]) ->
  exists results,
    holds_json (st_fs (run ctx fs).2) results_file (JObj results) /\
    dict_get "service_proxy_status" results = Some (JStr "healthy") /\
    dict_get "available_services" results = Some (JArr [JStr "catalog"]).
Proof.
  intros Hwf Hurl (resp & Hnet & Hcode & Hbody).
  destruct (run_spec ctx fs Hwf)
    as (fs1 & fs2 & rs3 & rq & rs4 & files & Hsvc & Hin & _ & _ & Hrun & Hres & _).
  erewrite test_service_access_healthy in Hsvc by (done || reflexivity).
  simplify_eq. rewrite Hrun.
  eexists; split; [exact Hres|].
  unfold final_results. by rewrite !dict_get_set.
Qed.


(** C9. When the health request raises (the library raises, or the body
    of the answer is not JSON), the message is recorded under
    [service_proxy_error], the results are still written with [status]
    ["completed"], and the exit code is 0. *)
Theorem health_exception_is_swallowed (fs : node) (url : string) (e : exn) :
  workspace_ok fs ->
  truthy (environ ctx !! "SERVICE_PROXY_URL") = Some url ->
  health_request_raises ctx url e ->
  exit_code (run ctx fs) = 0%Z /\
  exists results,
    holds_json (st_fs (run ctx fs).2) results_file (JObj results) /\
    dict_get "service_proxy_error" results = Some (JStr (exn_msg e)) /\
    dict_get "status" results = Some (JStr "completed").
Proof.
  intros Hwf Hurl Hraise.
  destruct (run_spec ctx fs Hwf)
    as (fs1 & fs2 & rs3 & rq & rs4 & files & Hsvc & Hin & _ & _ & Hrun & Hres & _).
  erewrite test_service_access_raises in Hsvc by done.
  simplify_eq. rewrite Hrun. split; [reflexivity|].
  eexists; split; [exact Hres|].
  unfold final_results. by rewrite !dict_get_set.
Qed.

(** C10. Without [EXECUTION_ID] the run still exits with 0, and the
    identifier is ["unknown"]: in [execution_id] of the results, in the
    analysis report, and in the ids of the graph update when one is
    written. *)
Theorem missing_execution_id_is_unknown (fs : node) :
  workspace_ok fs ->
  environ ctx !! "EXECUTION_ID" = None ->
  exit_code (run ctx fs) = 0%Z /\
  exists results (files : list json) rest,
    holds_json (st_fs (run ctx fs).2) results_file (JObj results) /\
    dict_get "execution_id" results = Some (JStr "unknown") /\
    fs_lookup analysis_file (st_fs (run ctx fs).2) =
      Some (File ("Container Analysis Report" +:+ nl
                  +:+ "========================" +:+ nl +:+ nl
                  +:+ "Execution ID: unknown" +:+ nl
                  +:+ "Input files processed: " +:+ pretty (length files)
                  +:+ nl +:+ rest)) /\
    (fs_lookup graph_file fs <> None ->
     holds_json (st_fs (run ctx fs).2) graph_update_file
       (JObj
          [("nodes",
            JArr [JObj [("id", JStr "analysis-unknown");
                        ("labels", JArr [JStr "Analysis"]);
                        ("properties",
                         JObj [("type", JStr "container_execution");
                               ("execution_id", JStr "unknown");
                               ("timestamp", JStr "2025-01-01T00:00:00Z");
                               ("status", JStr "completed")])]]);
           ("relationships",
            JArr [JObj [("id", JStr "analyzed-unknown");
                        ("type", JStr "ANALYZED_BY");
                        ("start_node", JStr "original-data");
                        ("end_node", JStr "analysis-unknown");
                        ("properties",
                         JObj [("timestamp", JStr "2025-01-01T00:00:00Z")])]])])).
Proof.
  intros Hwf Hid.
  destruct (run_spec ctx fs Hwf)
    as (fs1 & fs2 & rs3 & rq & rs4 & files & _ & _ & _ & _ & Hrun & Hres & Hana & Hupd).
  unfold environ_get in *. rewrite Hid in *.
  rewrite Hrun. split; [reflexivity|].
  eexists _, files, _. split; [exact Hres|].
  split; [unfold final_results; by rewrite !dict_get_set|].
  split; [exact Hana|]. exact Hupd.
Qed.
End TestContainerClaims.

(** ** The worker script *)

Section WorkerScriptClaims.
Import WorkerScript.
Context `{JsonCodec}.

Lemma read_config_run (fs : node) (config : json) :
  worker_config fs config -> read_config fs = (Ok config, fs).
Proof.
  unfold read_config, bind, path_exists, fs_exists. simpl_state.
  intros [[Hnone ->] | (text & Hfile & Hload)].
  - by rewrite Hnone.
  - rewrite Hfile. unfold load_json, bind, read_text, fs_read, lift. simpl_state.
    by rewrite Hfile, Hload.
Qed.

(** The worker on a workspace that is ready for output: it exits with 0
    and writes what [dispatch] returns. *)
Lemma worker_run (fs : node) (config result : json) :
  output_ready fs ->
  worker_config fs config ->
  dispatch config = Ok result ->
  exit_code (run fs) = 0%Z /\ holds_json (run fs).2 result_file result.
Proof.
  intros [[m Hroot] Hout] Hconfig Hresult.
  assert (Hm : m !! "output" = None \/ m !! "output" = Some (Dir ∅)).
  { change output_dir with (["workspace"] ++ ["output"])%list in Hout.
    rewrite fs_lookup_app, Hroot in Hout. simpl in Hout.
    destruct (m !! "output"); naive_solver. }
  destruct (fs_mkdir_at_in_dir output_dir ["workspace"] "output" fs m Hroot)
    as (fs1 & Hmk & Hout1).
  { intros data Hd. destruct Hm; congruence. }
  assert (Hout1' : fs_lookup output_dir fs1 = Some (Dir ∅)).
  { change output_dir with (["workspace"] ++ ["output"])%list.
    rewrite Hout1. by destruct Hm as [-> | ->]. }
  destruct (fs_write_at_in_dir result_file output_dir "result.json"
              (json_dumps result) fs1 ∅ Hout1')
    as (fs2 & Hw & Hout2).
  { intros m'. by rewrite lookup_empty. }
  assert (Hrun : run fs = (Ok 0%Z, fs2)).
  { unfold run, main. rewrite (bind_run _ _ _ _ _ (read_config_run fs config Hconfig)).
    unfold bind at 1, lift. rewrite Hresult.
    unfold bind at 1, mkdir, fs_mkdir. simpl_state.
    change (["workspace"] ++ ["output"])%list with output_dir in Hmk. rewrite Hmk.
    unfold bind, dump_json, write_text, fs_write. simpl_state.
    change (output_dir ++ ["result.json"])%list with result_file in Hw.
    by rewrite Hw. }
  rewrite Hrun. split; [reflexivity|].
  unfold holds_json. cbn [snd]. by eapply fs_write_at_lookup.
Qed.

(** C2 does not hold of the worker script: the worker script
    looks for its configuration under [input/], and whatever
    [config/config.json] holds, it falls back to its default when
    [input/config.json] does not exist. *)
Theorem worker_reads_input_config (fs : node) :
  fs_lookup ["workspace"; "input"; "config.json"] fs = None ->
  read_config fs = (Ok (JObj [("operation", JStr "default")]), fs).
Proof. intros Hnone. apply read_config_run. by left. Qed.

Lemma process_data_run (d : dict) :
  (forall v, dict_get "input_files" d = Some v -> has_len v) ->
  exists n : nat,
    process_data (JObj d) =
    Ok (JObj [("operation", JStr "data_processing");
              ("files_processed", JInt (Z.of_nat n));
              ("status", JStr "completed");
              ("output_files", JArr [JStr "processed_data.json"])]).
Proof.
  intros Hlen. unfold process_data. simpl.
  destruct (dict_get "input_files" d) as [v|] eqn:E.
  - specialize (Hlen v eq_refl). destruct v; try done; by eexists.
  - by eexists.
Qed.

(** Whatever [dispatch] returns is an object with an [operation]. *)
Lemma dispatch_object (config result : json) :
  dispatch config = Ok result ->
  exists fields, result = JObj fields /\ fields <> [].
Proof.
  unfold dispatch. destruct config; try done. simpl.
  destruct (py_eq_str _ "data_processing").
  - unfold process_data. simpl.
    destruct (py_len _); simpl; [|done]. intros [= <-]. by eexists.
  - destruct (py_eq_str _ "ml_training"); intros [= <-]; by eexists.
Qed.

(** C5, as the code has it.  On a workspace ready for output, with a
    configuration that is an object (or no configuration file), the
    worker exits with 0 and writes a result chosen by the [operation]
    entry: a data-processing result for ["data_processing"], provided
    [input_files], when present, has a length; an ml-training result for
    ["ml_training"]; and the default result, whose [operation] is
    ["default"], for any other or missing entry. *)
Theorem worker_selects_by_operation (fs : node) (config : json) (d : dict) :
  output_ready fs ->
  worker_config fs config ->
  config = JObj d ->
  (dict_get "operation" d = Some (JStr "data_processing") ->
   forall v, dict_get "input_files" d = Some v -> has_len v) ->
  exit_code (run fs) = 0%Z /\
  exists result,
    holds_json (run fs).2 result_file (JObj result) /\
    (dict_get "operation" d = Some (JStr "data_processing") ->
     dict_get "operation" result = Some (JStr "data_processing") /\
     exists n, dict_get "files_processed" result = Some (JInt n)) /\
    (dict_get "operation" d = Some (JStr "ml_training") ->
     dict_get "operation" result = Some (JStr "ml_training") /\
     exists model, dict_get "model_type" result = Some model) /\
    (dict_get "operation" d <> Some (JStr "data_processing") ->
     dict_get "operation" d <> Some (JStr "ml_training") ->
     result = [("operation", JStr "default");
               ("status", JStr "completed");
               ("message", JStr "Default processing completed successfully")]).
Proof.
  intros Hready Hconfig -> Hlen.
  assert (Hdispatch :
            exists result,
              dispatch (JObj d) = Ok (JObj result) /\
              (dict_get "operation" d = Some (JStr "data_processing") ->
               dict_get "operation" result = Some (JStr "data_processing") /\
               exists n, dict_get "files_processed" result = Some (JInt n)) /\
              (dict_get "operation" d = Some (JStr "ml_training") ->
               dict_get "operation" result = Some (JStr "ml_training") /\
               exists model, dict_get "model_type" result = Some model) /\
              (dict_get "operation" d <> Some (JStr "data_processing") ->
               dict_get "operation" d <> Some (JStr "ml_training") ->
               result = [("operation", JStr "default");
                         ("status", JStr "completed");
                         ("message",
                          JStr "Default processing completed successfully")])).
  { unfold dispatch. simpl.
    destruct (dict_get "operation" d) as [op|] eqn:Hop; simpl.
    - destruct op as [| | | |op| |]; simpl;
        try (eexists; split; [reflexivity|]; by repeat split).
      destruct (String.eqb_spec op "data_processing") as [->|Hdp].
      + destruct (process_data_run d (Hlen eq_refl)) as [n ->].
        eexists; split; [reflexivity|]. repeat split; try done. by eexists.
      + destruct (String.eqb_spec op "ml_training") as [->|Hml].
        * eexists; split; [reflexivity|]. repeat split; try done. by eexists.
        * eexists; split; [reflexivity|]. repeat split; congruence.
    - eexists; split; [reflexivity|]. by repeat split. }
  destruct Hdispatch as (result & Hresult & Hcases).
  destruct (worker_run fs (JObj d) (JObj result) Hready Hconfig Hresult)
    as [Hexit Hfile].
  split; [exact Hexit|]. by exists result.
Qed.

(** A worker run that exits with 0 has written an object that is not
    empty to [output/result.json], whatever the workspace was. *)
Lemma worker_success_result (fs : node) :
  exit_code (run fs) = 0%Z ->
  exists result,
    result <> [] /\ holds_json (run fs).2 result_file (JObj result).
Proof.
  unfold exit_code, run.
  destruct (main fs) as [[z|e] fs'] eqn:Hmain; simpl; [|done].
  intros _. unfold main in Hmain.
  apply bind_ok in Hmain as (config & fs1 & _ & Hmain).
  apply bind_ok in Hmain as (result & fs2 & Hresult & Hmain).
  apply bind_ok in Hmain as ([] & fs3 & _ & Hmain).
  apply bind_ok in Hmain as ([] & fs4 & Hdump & Hmain).
  unfold ret in Hmain. unfold lift in Hresult.
  injection Hresult as Hresult <-. simplify_eq.
  apply dispatch_object in Hresult as (fields & -> & Hne).
  exists fields. split; [done|].
  unfold dump_json, write_text, fs_write in Hdump. simpl_state.
  destruct (fs_write_at _ _ _ _) eqn:Hw; simplify_eq.
  unfold holds_json. by eapply fs_write_at_lookup.
Qed.
End WorkerScriptClaims.

(** ** What the Result Collector finds *)

Section Collected.
Import TestContainer.
Context `{JsonCodec}.

Lemma metadata_of_json (fs : node) (p : path) (d : dict) :
  json_loads (json_dumps (JObj d)) = Ok (JObj d) ->
  holds_json fs p (JObj d) -> metadata_of fs p = d.
Proof.
  intros Hrt Hfile. unfold metadata_of, fs_read. by rewrite Hfile, Hrt.
Qed.

Lemma collect_metadata_nonempty (fs : node) (p : path) (d : dict) :
  json_loads (json_dumps (JObj d)) = Ok (JObj d) ->
  p ∈ well_known_paths ->
  holds_json fs p (JObj d) -> d <> [] ->
  collect_metadata fs <> [].
Proof.
  intros Hrt Hp Hfile Hd. unfold collect_metadata, well_known_paths in *. simpl.
  apply dict_update_nonempty.
  apply elem_of_cons in Hp as [-> | Hp].
  - left. apply dict_update_nonempty. right.
    by rewrite (metadata_of_json _ _ d).
  - apply list_elem_of_singleton in Hp as ->. right.
    by rewrite (metadata_of_json _ _ d).
Qed.

(** C7. After a successful run of either script one of the two
    well-known paths holds a JSON object that is not empty; when the
    library reads that object back as it was written, the metadata the
    Result Collector reports is not empty. *)
Theorem successful_run_reports_metadata (ctx : context) (fs fs' : node) :
  successful_run ctx fs fs' ->
  exists p d,
    p ∈ well_known_paths /\ holds_json fs' p (JObj d) /\ d <> [] /\
    (json_loads (json_dumps (JObj d)) = Ok (JObj d) ->
     collect_metadata fs' <> []).
Proof.
  intros [[Hexit ->] | [Hexit ->]].
  - destruct (run_success_results ctx fs Hexit) as (results & _ & Hne & Hfile).
    exists TestContainer.results_file, results.
    assert (Hp : TestContainer.results_file ∈ well_known_paths)
      by (apply list_elem_of_In; simpl; auto).
    do 3 (split; [done|]). intros Hrt. by eapply collect_metadata_nonempty.
  - destruct (worker_success_result fs Hexit) as (result & Hne & Hfile).
    exists WorkerScript.result_file, result.
    assert (Hp : WorkerScript.result_file ∈ well_known_paths)
      by (apply list_elem_of_In; simpl; auto).
    do 3 (split; [done|]). intros Hrt. by eapply collect_metadata_nonempty.
Qed.



End Collected.

(** ** The reference codec round-trips *)

Section ReferenceCodecProofs.
Import ReferenceCodec.
Local Arguments String.append !_ _ / : simpl nomatch.
Local Arguments is_digit : simpl never.

(** An induction principle that reaches the values inside arrays and
    objects. *)
Lemma json_nested_ind (P : json -> Prop) :
  P JNull ->
  (forall b, P (JBool b)) ->
  (forall n, P (JInt n)) ->
  (forall m e, P (JFloat m e)) ->
  (forall s, P (JStr s)) ->
  (forall items, Forall P items -> P (JArr items)) ->
  (forall fields, Forall (fun kv => P kv.2) fields -> P (JObj fields)) ->
  forall v, P v.
Proof.
  intros Hnull Hbool Hint Hfloat Hstr Harr Hobj.
  fix IH 1. intros [|b|n|m e|s|items|fields].
  - exact Hnull.
  - apply Hbool.
  - apply Hint.
  - apply Hfloat.
  - apply Hstr.
  - apply Harr. induction items as [|v items IHitems]; constructor.
    + apply IH.
    + exact IHitems.
  - apply Hobj. induction fields as [|[k v] fields IHfields]; constructor.
    + apply IH.
    + exact IHfields.
Qed.

Lemma append_assoc (a b c : string) : (a +:+ b) +:+ c = a +:+ (b +:+ c).
Proof. induction a; simpl; congruence. Qed.

Lemma uint_digits (u : Decimal.uint) :
  all_digits (NilEmpty.string_of_uint u) = true.
Proof. induction u; simpl; auto. Qed.

Lemma nilzero_digits (u : Decimal.uint) :
  all_digits (NilZero.string_of_uint u) = true /\
  NilZero.string_of_uint u <> EmptyString.
Proof.
  destruct u; simpl; (split; [try apply uint_digits; reflexivity | discriminate]).
Qed.

Lemma span_digits_app (ds rest : string) :
  all_digits ds = true -> starts_with_digit rest = false ->
  span_digits (ds +:+ rest) = (ds, rest).
Proof.
  intros Hds Hrest. induction ds as [|c ds IH]; simpl in *.
  - destruct rest as [|c rest]; [reflexivity|]. simpl in *. by rewrite Hrest.
  - apply andb_true_iff in Hds as [Hc Hds]. by rewrite Hc, IH.
Qed.

Lemma int_of_print (n : Z) :
  NilZero.int_of_string (print_int n) = Some (Z.to_int n).
Proof.
  unfold print_int. apply NilZero.isi; destruct n; simpl; try discriminate;
    intros [= E]; by apply (Unsigned.to_uint_nonnil p).
Qed.

Lemma parse_int_print (n : Z) (rest : string) :
  starts_with_digit rest = false ->
  parse_int (print_int n +:+ rest) = Some (n, rest).
Proof.
  intros Hrest. pose proof (int_of_print n) as Hint.
  pose proof (DecimalZ.of_to n) as Hof.
  unfold print_int in *. destruct (Z.to_int n) as [u|u]; simpl in *;
    destruct (nilzero_digits u) as [Hds Hne].
  - destruct (NilZero.string_of_uint u) as [|c ds] eqn:Hu; [done|].
    unfold parse_int. simpl. simpl in Hds. apply andb_true_iff in Hds as [Hc Hds].
    destruct (Ascii.eqb_spec c "-") as [->|_]; [done|].
    change (String c (ds +:+ rest)) with (String c ds +:+ rest).
    rewrite span_digits_app; [|simpl; by rewrite Hc, Hds|done].
    simpl. change (String c ds) with (EmptyString +:+ String c ds) in Hint.
    simpl in Hint. rewrite Hint. simpl. by rewrite Hof.
  - unfold parse_int. simpl.
    rewrite span_digits_app by done.
    destruct (NilZero.string_of_uint u) as [|c ds] eqn:Hu; [done|].
    change (String "-" (String c ds)) with ("-" +:+ String c ds) in Hint.
    rewrite Hint. simpl. by rewrite Hof.
Qed.

Lemma parse_chars_escape (s rest : string) :
  parse_chars (escape s +:+ String quote rest) = Some (s, rest).
Proof.
  induction s as [|c s IH]; simpl.
  - reflexivity.
  - destruct (Ascii.eqb_spec c quote) as [->|Hq]; simpl.
    + by rewrite IH.
    + destruct (Ascii.eqb_spec c backslash) as [->|Hb]; simpl.
      * by rewrite IH.
      * destruct (Ascii.eqb_spec c quote); [done|].
        destruct (Ascii.eqb_spec c backslash); [done|]. by rewrite IH.
Qed.

Lemma value_end_no_digit (rest : string) :
  value_end rest -> starts_with_digit rest = false.
Proof. destruct rest as [|c rest]; [done|]. by intros [->|[->| ->]]. Qed.

Lemma parse_number_int (n : Z) (rest : string) :
  value_end rest -> parse_number (print_int n +:+ rest) = Some (JInt n, rest).
Proof.
  intros Hrest. unfold parse_number.
  rewrite parse_int_print by by apply value_end_no_digit.
  destruct rest as [|c rest]; [done|]. by destruct Hrest as [->|[->| ->]].
Qed.

Lemma parse_number_float (m e : Z) (rest : string) :
  value_end rest ->
  parse_number ((print_int m +:+ "e" +:+ print_int e) +:+ rest) =
  Some (JFloat m e, rest).
Proof.
  intros Hrest. unfold parse_number.
  rewrite !append_assoc. rewrite parse_int_print by done. simpl.
  by rewrite parse_int_print by by apply value_end_no_digit.
Qed.

Lemma weight_pos (v : json) : 0 < weight v.
Proof. destruct v; simpl; lia. Qed.

(** A printed integer starts with a digit or a minus sign. *)
Lemma print_int_head (n : Z) :
  exists c s, print_int n = String c s /\ is_digit c || Ascii.eqb c "-" = true.
Proof.
  unfold print_int. destruct (Z.to_int n) as [u|u]; simpl.
  - destruct (nilzero_digits u) as [Hds Hne].
    destruct (NilZero.string_of_uint u) as [|c ds]; [done|].
    simpl in Hds. apply andb_true_iff in Hds as [Hc _].
    exists c, ds. by rewrite Hc.
  - by eexists _, _.
Qed.

Lemma number_start_not_close (c : ascii) :
  is_digit c || Ascii.eqb c "-" = true ->
  Ascii.eqb c "]" = false /\ Ascii.eqb c "}" = false.
Proof.
  intros Hc. split.
  - destruct (Ascii.eqb_spec c "]") as [->|]; [discriminate Hc | done].
  - destruct (Ascii.eqb_spec c "}") as [->|]; [discriminate Hc | done].
Qed.

(** A printed value is not empty and does not start with a closing
    bracket. *)
Lemma print_head (v : json) (rest : string) :
  exists c s,
    print v +:+ rest = String c s /\
    Ascii.eqb c "]" = false /\ Ascii.eqb c "}" = false.
Proof.
  destruct v as [|[]|n|m e|t|items|fields]; simpl; try by eexists _, _.
  - destruct (print_int_head n) as (c & s & -> & Hc). simpl.
    exists c, (s +:+ rest). split; [done|]. by apply number_start_not_close.
  - destruct (print_int_head m) as (c & s & -> & Hc). simpl.
    eexists c, _. split; [done|]. by apply number_start_not_close.
Qed.

Lemma parse_seq_print {A} (print_elem : A -> string)
      (parse_elem : string -> option (A * string))
      (close : ascii) (l : list A) (n : nat) (rest : string) :
  close = "]"%char \/ close = "}"%char ->
  l <> [] -> length l <= n ->
  (forall x rest', x ∈ l -> value_end rest' ->
                   parse_elem (print_elem x +:+ rest') = Some (x, rest')) ->
  parse_seq parse_elem close n (print_seq print_elem l +:+ String close rest) =
  Some (l, rest).
Proof.
  intros Hclose. revert n.
  induction l as [|x l IH]; intros n Hne Hlen Hparse; [done|].
  destruct n as [|n]; [simpl in Hlen; lia|].
  destruct l as [|y l].
  - simpl. rewrite Hparse; [|by left|].
    + by rewrite Ascii.eqb_refl.
    + simpl. tauto.
  - change (print_seq print_elem (x :: y :: l))
      with (print_elem x +:+ "," +:+ print_seq print_elem (y :: l)).
    rewrite !append_assoc. cbn [parse_seq].
    change ("," +:+ print_seq print_elem (y :: l) +:+ String close rest)
      with (String "," (print_seq print_elem (y :: l) +:+ String close rest)).
    rewrite Hparse; [|by left|simpl; tauto].
    assert (Ascii.eqb "," close = false) as ->
        by (by destruct Hclose as [-> | ->]).
    rewrite Ascii.eqb_refl.
    rewrite IH; [done|done|simpl in *; lia|].
    intros x' rest' Hx'. apply Hparse. by right.
Qed.

Lemma parse_field_print (parse_value : string -> option (json * string))
      (k : string) (v : json) (rest : string) :
  parse_value (print v +:+ rest) = Some (v, rest) ->
  parse_field parse_value ((print_string k +:+ ":" +:+ print v) +:+ rest) =
  Some ((k, v), rest).
Proof.
  intros Hv. unfold print_string, parse_field. simpl.
  rewrite !append_assoc. simpl.
  by rewrite parse_chars_escape, Hv.
Qed.

Lemma weight_elem (items : list json) (x : json) :
  x ∈ items -> weight x <= foldr (fun x acc => weight x + acc) 0 items.
Proof.
  induction 1 as [|x y items _ IH]; simpl; lia.
Qed.

Lemma weight_length (items : list json) :
  length items <= foldr (fun x acc => weight x + acc) 0 items.
Proof.
  induction items as [|x items IH]; simpl; [lia|].
  pose proof (weight_pos x). lia.
Qed.

Lemma weight_field (fields : list (string * json)) (kv : string * json) :
  kv ∈ fields -> weight kv.2 <= foldr (fun kv acc => weight kv.2 + acc) 0 fields.
Proof.
  induction 1 as [|x y items _ IH]; simpl; lia.
Qed.

Lemma weight_fields_length (fields : list (string * json)) :
  length fields <= foldr (fun kv acc => weight kv.2 + acc) 0 fields.
Proof.
  induction fields as [|x items IH]; simpl; [lia|].
  pose proof (weight_pos x.2). lia.
Qed.

(** Parsing undoes printing, given fuel for the size of the value. *)
Lemma parse_print (v : json) :
  forall fuel rest,
    value_end rest -> weight v < fuel ->
    parse fuel (print v +:+ rest) = Some (v, rest).
Proof.
  induction v as [|b|n|m e|t|items IH|fields IH] using json_nested_ind;
    intros [|fuel] rest Hrest Hfuel; try (simpl in Hfuel; lia).
  - reflexivity.
  - by destruct b.
  - cbn [print]. destruct (print_int_head n) as (c & s & Hs & Hc).
    rewrite Hs. cbn [String.append parse]. rewrite Hc.
    change (parse_number (String c s +:+ rest) = Some (JInt n, rest)).
    rewrite <- Hs. by apply parse_number_int.
  - cbn [print]. destruct (print_int_head m) as (c & s & Hs & Hc).
    rewrite Hs. cbn [String.append parse]. rewrite Hc.
    change (parse_number ((String c s +:+ "e" +:+ print_int e) +:+ rest) =
            Some (JFloat m e, rest)).
    rewrite <- Hs. by apply parse_number_float.
  - cbn [print]. unfold print_string. simpl.
    rewrite append_assoc. simpl. by rewrite parse_chars_escape.
  - cbn [print]. rewrite !append_assoc. simpl.
    destruct items as [|x items]; [reflexivity|].
    destruct (print_head x (match items with
                            | [] => EmptyString
                            | _ => "," +:+ print_seq print items
                            end +:+ String "]" rest))
      as (c & s & Hs & Hc & _).
    assert (Hseq : print_seq print (x :: items) +:+ String "]" rest = String c s).
    { rewrite <- Hs. destruct items; simpl; by rewrite ?append_assoc. }
    rewrite Hseq, Hc, <- Hseq.
    rewrite parse_seq_print; [done|by left|done| |].
    + simpl in Hfuel. pose proof (weight_length (x :: items)). simpl in *. lia.
    + intros y rest' Hy Hrest'.
      rewrite Forall_forall in IH. apply IH; [done|done|].
      pose proof (weight_elem _ _ Hy). simpl in *. lia.
  - destruct fields as [|[k x] fields]; [reflexivity|].
    set (print_kv := fun kv : string * json => print_string kv.1 +:+ ":" +:+ print kv.2).
    change (print (JObj ((k, x) :: fields)))
      with ("{" +:+ print_seq print_kv ((k, x) :: fields) +:+ "}").
    rewrite !append_assoc.
    change ("}" +:+ rest) with (String "}" rest).
    remember (print_seq print_kv ((k, x) :: fields) +:+ String "}" rest)
      as body eqn:Hbody.
    assert (Hhead : exists s, body = String quote s).
    { subst body. destruct fields; simpl; by eexists. }
    destruct Hhead as [s Hhead]. simpl. rewrite Hhead. simpl.
    rewrite <- Hhead. subst body.
    rewrite parse_seq_print; [done|by right|done| |].
    + simpl in Hfuel. pose proof (weight_fields_length ((k, x) :: fields)).
      simpl in *. lia.
    + intros [k' y] rest' Hy Hrest'. apply parse_field_print.
      rewrite Forall_forall in IH. apply (IH _ Hy); [done|].
      pose proof (weight_field _ _ Hy). simpl in *. lia.
Qed.

Lemma length_append (a b : string) :
  String.length (a +:+ b) = String.length a + String.length b.
Proof. induction a; simpl; congruence. Qed.

Lemma append_empty (a : string) : a +:+ EmptyString = a.
Proof. induction a; simpl; congruence. Qed.

Lemma weight_seq_length {A} (print_elem : A -> string) (w : A -> nat)
      (l : list A) :
  Forall (fun x => w x <= String.length (print_elem x)) l ->
  foldr (fun x acc => w x + acc) 0 l <= String.length (print_seq print_elem l).
Proof.
  induction 1 as [|x l Hx Hl IH]; [done|].
  destruct l as [|y l]; [simpl in *; lia|].
  change (print_seq print_elem (x :: y :: l))
    with (print_elem x +:+ "," +:+ print_seq print_elem (y :: l)).
  rewrite !length_append. simpl in *. lia.
Qed.

(** A printed value has at least as many characters as its size. *)
Lemma weight_le_length (v : json) : weight v <= String.length (print v).
Proof.
  induction v as [|b|n|m e|t|items IH|fields IH] using json_nested_ind.
  - simpl. lia.
  - destruct b; simpl; lia.
  - simpl. destruct (print_int_head n) as (c & s & -> & _). simpl. lia.
  - simpl. destruct (print_int_head m) as (c & s & -> & _). simpl. lia.
  - simpl. lia.
  - cbn [weight print]. rewrite !length_append.
    pose proof (weight_seq_length print weight items IH) as Hseq.
    simpl. apply le_n_S. etransitivity; [apply Hseq|apply Nat.le_add_r].
  - cbn [weight print]. rewrite !length_append.
    pose proof (weight_seq_length
                  (fun kv : string * json => print_string kv.1 +:+ ":" +:+ print kv.2)
                  (fun kv => weight kv.2) fields) as Hseq.
    simpl. apply le_n_S. etransitivity; [apply Hseq|apply Nat.le_add_r].
    eapply Forall_impl; [exact IH|]. intros [k x] Hx. simpl in *.
    rewrite !length_append. cbn [String.length]. lia.
Qed.

(** The reference codec reads back what it wrote. *)
Lemma reference_round_trip (v : json) :
  @json_loads codec (@json_dumps codec v) = Ok v.
Proof.
  unfold json_loads, json_dumps, codec, loads, dumps.
  rewrite <- (append_empty (print v)) at 2.
  rewrite parse_print; [done|done|].
  pose proof (weight_le_length v). lia.
Qed.


End ReferenceCodecProofs.

(** ** Files and directories that are already there *)

Lemma fs_write_at_cons (full p : path) (y data : string) (m : gmap string node) :
  p <> [] ->
  fs_write_at full (y :: p) data (Dir m) =
  match m !! y with
  | Some c => result_bind (fs_write_at full p data c) (fun c' => Ok (Dir (<[y := c']> m)))
  | None => Raise (os_error FileNotFoundError "[Errno 2] No such file or directory" full)
  end.
Proof. destruct p; [done | reflexivity]. Qed.

(** Writing a file again with the text it holds changes nothing. *)
Lemma fs_write_at_same (full p : path) (data : string) (n : node) :
  p <> [] -> fs_lookup p n = Some (File data) -> fs_write_at full p data n = Ok n.
Proof.
  revert n. induction p as [|x p IH]; intros n Hne Hp; [done|].
  simpl in Hp. destruct n as [|m]; [discriminate|].
  destruct (m !! x) as [c|] eqn:Hx; [|discriminate].
  destruct (decide (p = [])) as [->|Hp'].
  - simpl in Hp. simplify_eq. simpl. rewrite Hx. by rewrite insert_id.
  - rewrite fs_write_at_cons, Hx, (IH c) by done. simpl. by rewrite insert_id.
Qed.

(** [mkdir(exist_ok=True)] on a directory changes nothing. *)
Lemma fs_mkdir_at_same (full p : path) (n : node) (m : gmap string node) :
  fs_lookup p n = Some (Dir m) -> fs_mkdir_at full p n = Ok n.
Proof.
  revert n. induction p as [|x p IH]; intros n Hp; [done|].
  simpl in Hp. destruct n as [|m0]; [discriminate|].
  destruct (m0 !! x) as [c|] eqn:Hx; [|discriminate].
  destruct (decide (p = [])) as [->|Hp'].
  - simpl in Hp. simplify_eq. simpl. by rewrite Hx.
  - rewrite fs_mkdir_at_cons, Hx, (IH c) by done. simpl. by rewrite insert_id.
Qed.

(** A write that succeeds found a directory above its file, and no
    directory in its place. *)
Lemma fs_write_at_inv (full parent : path) (x data : string) (n n' : node) :
  fs_write_at full (parent ++ [x]) data n = Ok n' ->
  exists m, fs_lookup parent n = Some (Dir m) /\
            forall m', m !! x <> Some (Dir m').
Proof.
  revert n n'. induction parent as [|y parent IH]; intros n n' Hw.
  - simpl in Hw. destruct n as [|m]; [discriminate|].
    exists m. split; [done|]. intros m' Hx. by rewrite Hx in Hw.
  - change ((y :: parent) ++ [x])%list with (y :: (parent ++ [x]))%list in Hw.
    destruct n as [|m]; [discriminate|].
    rewrite fs_write_at_cons in Hw by (by destruct parent).
    destruct (m !! y) as [c|] eqn:Hy; [|discriminate].
    destruct (fs_write_at full (parent ++ [x]) data c) as [c'|] eqn:Hc; [|discriminate].
    simpl. rewrite Hy. by apply (IH c c').
Qed.

(** A [mkdir] that succeeds found a directory above, and no regular file
    in its place. *)
Lemma fs_mkdir_at_inv (full parent : path) (x : string) (n n' : node) :
  fs_mkdir_at full (parent ++ [x]) n = Ok n' ->
  exists m, fs_lookup parent n = Some (Dir m) /\
            forall data, m !! x <> Some (File data).
Proof.
  revert n n'. induction parent as [|y parent IH]; intros n n' Hw.
  - simpl in Hw. destruct n as [|m]; [discriminate|].
    exists m. split; [done|]. intros m' Hx. by rewrite Hx in Hw.
  - change ((y :: parent) ++ [x])%list with (y :: (parent ++ [x]))%list in Hw.
    destruct n as [|m]; [discriminate|].
    rewrite fs_mkdir_at_cons in Hw by (by destruct parent).
    destruct (m !! y) as [c|] eqn:Hy; [|discriminate].
    destruct (fs_mkdir_at full (parent ++ [x]) c) as [c'|] eqn:Hc; [|discriminate].
    simpl. rewrite Hy. by apply (IH c c').
Qed.

(** What is below a file that exists is a directory up to the file. *)
Lemma fs_lookup_parent (parent : path) (x : string) (n c : node) :
  fs_lookup (parent ++ [x]) n = Some c ->
  exists m, fs_lookup parent n = Some (Dir m) /\ m !! x = Some c.
Proof.
  rewrite fs_lookup_app. destruct (fs_lookup parent n) as [[|m]|]; try done.
  simpl. destruct (m !! x) eqn:E; [|done]. intros [= ->]. by exists m.
Qed.

(** What a [mkdir(exist_ok=True)] that succeeds has done: nothing, when
    the directory was there; made an empty one, when nothing was. *)
Lemma fs_mkdir_at_result (full parent : path) (x : string) (n n' : node) :
  fs_mkdir_at full (parent ++ [x]) n = Ok n' ->
  exists m,
    fs_lookup (parent ++ [x]) n' = Some (Dir m) /\
    ((fs_lookup (parent ++ [x]) n = Some (Dir m) /\ n' = n) \/
     (fs_lookup (parent ++ [x]) n = None /\ m = ∅)).
Proof.
  intros Hmk. destruct (fs_mkdir_at_inv _ _ _ _ _ Hmk) as (m0 & Hparent & Hx).
  destruct (fs_mkdir_at_in_dir full parent x n m0 Hparent Hx) as (n'' & Hmk' & Hl).
  rewrite Hmk in Hmk'. injection Hmk' as <-.
  assert (Hn : fs_lookup (parent ++ [x]) n = m0 !! x).
  { rewrite fs_lookup_app, Hparent. simpl. by destruct (m0 !! x). }
  rewrite Hl, Hn. destruct (m0 !! x) as [[data|mo]|] eqn:E.
  - by destruct (Hx data).
  - exists mo. split; [done|]. left. split; [done|].
    rewrite (fs_mkdir_at_same full (parent ++ [x]) n mo) in Hmk by (by rewrite Hn).
    by injection Hmk.
  - exists ∅. split; [done|]. by right.
Qed.

Lemma output_creatable_mkdir (fs : node) :
  output_creatable fs <-> exists fs1, fs_mkdir WorkerScript.output_dir fs = Ok fs1.
Proof.
  unfold fs_mkdir. change WorkerScript.output_dir with (["workspace"] ++ ["output"])%list.
  split.
  - intros (m & Hroot & Hm).
    destruct (fs_mkdir_at_in_dir (["workspace"] ++ ["output"]) ["workspace"] "output" fs m Hroot Hm)
      as (fs1 & Hmk & _). by exists fs1.
  - intros [fs1 Hmk]. by apply fs_mkdir_at_inv in Hmk.
Qed.

(** ** Every run of the test container *)

Section TestContainerEveryRun.
Import TestContainer.
Context `{JsonCodec} (ctx : context).
Open Scope prog_scope.

Lemma count_of_ok (g : json) (k : string) (n : nat) :
  count_of g k = Ok n -> exists d, g = JObj d /\ has_len_if_present k d.
Proof.
  unfold count_of, has_len_if_present. destruct g as [| | | | | |d]; try done.
  simpl. intros Hn. exists d. split; [done|]. intros v Hv. rewrite Hv in Hn.
  by destruct v.
Qed.

Lemma count_of_has_len (d : dict) (k : string) :
  has_len_if_present k d -> exists n, count_of (JObj d) k = Ok n.
Proof.
  unfold count_of, has_len_if_present. simpl. intros Hlen.
  destruct (dict_get k d) as [v|]; [|by eexists].
  specialize (Hlen v eq_refl). destruct v; try done; by eexists.
Qed.

(** Step 1, whatever the workspace holds. *)
Lemma read_graph_data_eq (fs : node) (rq : list string) (rs : dict) :
  read_graph_data (State fs rq rs) =
  match fs_lookup graph_file fs with
  | None => (Ok tt, State fs rq rs)
  | Some (Dir _) =>
      (Raise (os_error IsADirectoryError "[Errno 21] Is a directory" graph_file),
       State fs rq rs)
  | Some (File text) =>
      match result_bind (json_loads text) (fun g =>
            result_bind (count_of g "nodes") (fun n =>
            result_bind (count_of g "relationships") (fun m => Ok (n, m)))) with
      | Ok (n, m) =>
          (Ok tt,
           State fs rq
                 (dict_set "input_graph_stats"
                    (JObj [("node_count", JInt (Z.of_nat n));
                           ("relationship_count", JInt (Z.of_nat m))]) rs))
      | Raise e => (Raise e, State fs rq rs)
      end
  end.
Proof.
  unfold read_graph_data, load_graph_stats, load_json, bind, path_exists,
    fs_exists, read_text, fs_read, lift, ret, set_result.
  simpl_state.
  destruct (fs_lookup graph_file fs) as [[text|m]|] eqn:E;
    rewrite ?E; simpl_state; rewrite ?E; try done.
  destruct (json_loads text) as [g|e]; simpl_state; [|done].
  cbn [result_bind].
  destruct (count_of g "nodes"); simpl_state; [|done].
  by destruct (count_of g "relationships").
Qed.

(** Step 2, whatever the workspace holds. *)
Lemma read_configuration_eq (fs : node) (rq : list string) (rs : dict) :
  read_configuration (State fs rq rs) =
  match fs_lookup config_file fs with
  | None => (Ok tt, State fs rq rs)
  | Some (Dir _) =>
      (Raise (os_error IsADirectoryError "[Errno 21] Is a directory" config_file),
       State fs rq rs)
  | Some (File text) =>
      match result_bind (json_loads text) py_keys with
      | Ok keys => (Ok tt, State fs rq (dict_set "config_keys" (JArr (JStr <$> keys)) rs))
      | Raise e => (Raise e, State fs rq rs)
      end
  end.
Proof.
  unfold read_configuration, load_json, bind, path_exists,
    fs_exists, read_text, fs_read, lift, ret, set_result.
  simpl_state.
  destruct (fs_lookup config_file fs) as [[text|m]|] eqn:E;
    rewrite ?E; simpl_state; rewrite ?E; try done.
  destruct (json_loads text) as [g|e]; simpl_state; [|done].
  cbn [result_bind].
  by destruct (py_keys g).
Qed.

(** Step 3, whatever the workspace holds. *)
Lemma list_input_files_eq (fs : node) (rq : list string) (rs : dict) :
  list_input_files (State fs rq rs) =
  (Ok tt, State fs rq (dict_set "input_files" (JArr (JStr <$> input_names fs)) rs)).
Proof. reflexivity. Qed.

(** Step 1 succeeds on the graphs it can count, and on no others. *)
Lemma read_graph_data_cases (fs : node) (rq : list string) (rs : dict) :
  (graph_readable fs /\
   exists rs', read_graph_data (State fs rq rs) = (Ok tt, State fs rq rs') /\
               (forall k, k <> "input_graph_stats" -> dict_get k rs' = dict_get k rs) /\
               (fs_lookup graph_file fs = None -> rs' = rs) /\
               (fs_lookup graph_file fs <> None ->
                exists stats, dict_get "input_graph_stats" rs' = Some stats)) \/
  (~ graph_readable fs /\
   exists e, read_graph_data (State fs rq rs) = (Raise e, State fs rq rs)).
Proof.
  rewrite read_graph_data_eq. unfold graph_readable, holds_object.
  destruct (fs_lookup graph_file fs) as [[text|m]|] eqn:E.
  - destruct (json_loads text) as [g|e] eqn:Hl; simpl.
    + destruct (count_of g "nodes") as [n|e] eqn:Hn; simpl.
      * destruct (count_of g "relationships") as [m|e] eqn:Hm; simpl.
        -- left. apply count_of_ok in Hn as (d & -> & Hn).
           apply count_of_ok in Hm as (d' & [= <-] & Hm).
           split; [right; by exists text, d|].
           eexists; split; [reflexivity|]. split; [|split; [done|]].
           ++ intros k Hk. by rewrite dict_get_set_ne.
           ++ intros _. eexists. by rewrite dict_get_set.
        -- right. split; [|by eexists].
           intros [? | (text' & d & [= <-] & Hl' & _ & Hlen)]; [done|].
           rewrite Hl in Hl'. injection Hl' as ->.
           destruct (count_of_has_len d "relationships" Hlen); congruence.
      * right. split; [|by eexists].
        intros [? | (text' & d & [= <-] & Hl' & Hlen & _)]; [done|].
        rewrite Hl in Hl'. injection Hl' as ->.
        destruct (count_of_has_len d "nodes" Hlen); congruence.
    + right. split; [|by eexists].
      intros [? | (text' & d & [= <-] & Hl' & _)]; [done|]. congruence.
  - right. split; [|by eexists]. intros [? | (text' & d & ? & _)]; done.
  - left. split; [by left|]. eexists; split; [reflexivity|]. by repeat split.
Qed.

(** Step 2 succeeds on the configurations that are objects, and on no
    others. *)
Lemma read_configuration_cases (fs : node) (rq : list string) (rs : dict) :
  (config_readable fs /\
   exists rs', read_configuration (State fs rq rs) = (Ok tt, State fs rq rs') /\
               (forall k, k <> "config_keys" -> dict_get k rs' = dict_get k rs) /\
               (fs_lookup config_file fs = None -> rs' = rs) /\
               (forall text d,
                   fs_lookup config_file fs = Some (File text) ->
                   json_loads text = Ok (JObj d) ->
                   dict_get "config_keys" rs' = Some (JArr (JStr <$> dict_keys d)))) \/
  (~ config_readable fs /\
   exists e, read_configuration (State fs rq rs) = (Raise e, State fs rq rs)).
Proof.
  rewrite read_configuration_eq. unfold config_readable, holds_object.
  destruct (fs_lookup config_file fs) as [[text|m]|] eqn:E.
  - destruct (json_loads text) as [g|e] eqn:Hl; simpl.
    + destruct (py_keys g) as [keys|e] eqn:Hk.
      * left. destruct g as [| | | | | |d]; try done. simpl in Hk. injection Hk as <-.
        split; [right; by exists text, d|].
        eexists; split; [reflexivity|]. split; [|split; [done|]].
        -- intros k Hk. by rewrite dict_get_set_ne.
        -- intros text' d' [= <-] Hl'. rewrite Hl in Hl'. injection Hl' as <-.
           by rewrite dict_get_set.
      * right. split; [|by eexists].
        intros [? | (text' & d & [= <-] & Hl' & _)]; [done|].
        rewrite Hl in Hl'. by injection Hl' as ->.
    + right. split; [|by eexists].
      intros [? | (text' & d & [= <-] & Hl' & _)]; [done|]. congruence.
  - right. split; [|by eexists]. intros [? | (text' & d & ? & _)]; done.
  - left. split; [by left|]. eexists; split; [reflexivity|]. by repeat split.
Qed.

(** Steps 1 to 3 look at three places of the file system only. *)
Lemma read_graph_data_fs (fs fs' : node) (rq : list string) (rs rs' : dict)
      (r : result unit) :
  fs_lookup graph_file fs' = fs_lookup graph_file fs ->
  read_graph_data (State fs rq rs) = (r, State fs rq rs') ->
  read_graph_data (State fs' rq rs) = (r, State fs' rq rs').
Proof.
  intros Heq. rewrite !read_graph_data_eq, Heq.
  repeat case_match; intros; by simplify_eq.
Qed.

Lemma read_configuration_fs (fs fs' : node) (rq : list string) (rs rs' : dict)
      (r : result unit) :
  fs_lookup config_file fs' = fs_lookup config_file fs ->
  read_configuration (State fs rq rs) = (r, State fs rq rs') ->
  read_configuration (State fs' rq rs) = (r, State fs' rq rs').
Proof.
  intros Heq. rewrite !read_configuration_eq, Heq.
  repeat case_match; intros; by simplify_eq.
Qed.

Lemma input_names_fs (fs fs' : node) :
  fs_lookup input_dir fs' = fs_lookup input_dir fs -> input_names fs' = input_names fs.
Proof. intros Heq. unfold input_names, fs_children. by rewrite Heq. Qed.

(** Step 4, whatever the gateway answers: it never fails, never looks at
    the file system, and makes one request when there is a URL. *)
Lemma test_service_access_eq (fs : node) (rq : list string) (rs : dict) :
  test_service_access ctx (State fs rq rs) =
  match truthy (environ ctx !! "SERVICE_PROXY_URL") with
  | None => (Ok tt, State fs rq rs)
  | Some url =>
      (Ok tt,
       State fs ((url +:+ "/health") :: rq)
         match network ctx (url +:+ "/health") with
         | Raise e => dict_set "service_proxy_error" (JStr (exn_msg e)) rs
         | Ok resp =>
             if (status_code resp =? 200)%Z then
               match result_bind (response_json resp) (fun health_data =>
                     result_bind (py_getitem health_data "status") (fun _ =>
                     Ok health_data)) with
               | Raise e => dict_set "service_proxy_error" (JStr (exn_msg e)) rs
               | Ok health_data =>
                   match result_bind (py_get health_data "services" (JObj []))
                                     py_keys with
                   | Ok names =>
                       dict_set "available_services" (JArr (JStr <$> names))
                         (dict_set "service_proxy_status" (JStr "healthy") rs)
                   | Raise e =>
                       dict_set "service_proxy_error" (JStr (exn_msg e))
                         (dict_set "service_proxy_status" (JStr "healthy") rs)
                   end
               end
             else dict_set "service_proxy_status" (JStr "unhealthy") rs
         end)
  end.
Proof.
  unfold test_service_access.
  destruct (truthy (environ ctx !! "SERVICE_PROXY_URL")) as [url|]; [|done].
  unfold try_except, check_health, bind, requests_get, lift, set_result.
  simpl_state.
  destruct (network ctx (url +:+ "/health")) as [resp|e]; [|done].
  destruct (status_code resp =? 200)%Z; [|done].
  destruct (response_json resp) as [health_data|e]; [|done].
  cbn [result_bind].
  destruct (py_getitem health_data "status") as [?|e]; [|done].
  cbn [result_bind].
  destruct (py_get health_data "services" (JObj [])) as [services|e]; [|done].
  cbn [result_bind].
  by destruct (py_keys services) as [names|e].
Qed.

Lemma test_service_access_fs (fs fs' : node) (rq rq' : list string)
      (rs rs' : dict) (r : result unit) :
  test_service_access ctx (State fs rq rs) = (r, State fs rq' rs') ->
  test_service_access ctx (State fs' rq rs) = (r, State fs' rq' rs').
Proof.
  rewrite !test_service_access_eq.
  destruct (truthy (environ ctx !! "SERVICE_PROXY_URL"));
    intros [= <- <- <-]; reflexivity.
Qed.

Lemma not_prefix_of_output_dir (q : path) :
  ¬ q `prefix_of` results_file \/ ¬ q `prefix_of` analysis_file \/
  ¬ q `prefix_of` graph_update_file ->
  ¬ q `prefix_of` output_dir.
Proof.
  intros Hq Hp.
  destruct Hq as [Hq|[Hq|Hq]]; apply Hq; (etransitivity; [exact Hp|]);
    by apply prefix_app_r.
Qed.

(** Steps 0 to 3, whatever the workspace holds. *)
Lemma run_inputs (fs : node) :
  match fs_mkdir output_dir fs with
  | Raise e => run ctx fs = (Raise e, initial fs)
  | Ok fs1 =>
      (~ (graph_readable fs /\ config_readable fs) /\
       exists e rs, run ctx fs = (Raise e, State fs1 [] rs)) \/
      (graph_readable fs /\ config_readable fs /\
       exists rs1 rs2,
         read_graph_data (State fs [] []) = (Ok tt, State fs [] rs1) /\
         read_configuration (State fs [] rs1) = (Ok tt, State fs [] rs2) /\
         run ctx fs =
         (test_service_access ctx ;;
          generate_output_files (environ_get ctx "EXECUTION_ID" "unknown") ;;
          generate_graph_update (environ_get ctx "EXECUTION_ID" "unknown") ;;
          ret 0%Z)
           (State fs1 []
                  (dict_set "input_files" (JArr (JStr <$> input_names fs)) rs2)))
  end.
Proof.
  destruct (fs_mkdir output_dir fs) as [fs1|e] eqn:Hmk.
  - assert (Hsame : forall q, q = graph_file \/ q = config_file \/ q = input_dir ->
                              fs_lookup q fs1 = fs_lookup q fs).
    { intros q Hq. eapply fs_mkdir_at_other; [exact Hmk|].
      by apply not_prefix_of_output. }
    assert (Hrun : run ctx fs =
                   (read_graph_data ;; read_configuration ;; list_input_files ;;
                    test_service_access ctx ;;
                    generate_output_files (environ_get ctx "EXECUTION_ID" "unknown") ;;
                    generate_graph_update (environ_get ctx "EXECUTION_ID" "unknown") ;;
                    ret 0%Z) (State fs1 [] [])).
    { unfold run, main, initial. unfold bind at 1, mkdir. simpl_state. by rewrite Hmk. }
    rewrite Hrun.
    destruct (read_graph_data_cases fs [] [])
      as [(Hg & rs1 & H1 & _) | (Hg & e & H1)].
    + destruct (read_configuration_cases fs [] rs1)
        as [(Hc & rs2 & H2 & _) | (Hc & e & H2)].
      * right. do 2 (split; [done|]). exists rs1, rs2. do 2 (split; [done|]).
        rewrite (bind_run _ _ _ _ _ (read_graph_data_fs fs fs1 _ _ _ _ (Hsame _ (or_introl eq_refl)) H1)).
        rewrite (bind_run _ _ _ _ _ (read_configuration_fs fs fs1 _ _ _ _ (Hsame _ (or_intror (or_introl eq_refl))) H2)).
        unfold bind at 1. rewrite list_input_files_eq.
        by rewrite (input_names_fs fs fs1) by auto.
      * left. split; [tauto|]. exists e, rs1.
        rewrite (bind_run _ _ _ _ _ (read_graph_data_fs fs fs1 _ _ _ _ (Hsame _ (or_introl eq_refl)) H1)).
        unfold bind at 1.
        by rewrite (read_configuration_fs fs fs1 _ _ _ _ (Hsame _ (or_intror (or_introl eq_refl))) H2).
    + left. split; [tauto|]. exists e, [].
      unfold bind at 1.
      by rewrite (read_graph_data_fs fs fs1 _ _ _ _ (Hsame _ (or_introl eq_refl)) H1).
  - unfold run, main, initial. unfold bind at 1, mkdir. simpl_state. by rewrite Hmk.
Qed.

(** Steps 5 and 6, whatever the output directory holds. *)
Lemma run_outputs (execution_id : string) (fs1 : node) (rq : list string)
      (rs4 : dict) (files : list json) :
  dict_get "input_files" rs4 = Some (JArr files) ->
  (generate_output_files execution_id ;;
   generate_graph_update execution_id ;;
   ret 0%Z) (State fs1 rq rs4) =
  let rs5 := final_results execution_id rs4 in
  match fs_write results_file (json_dumps (JObj rs5)) fs1 with
  | Raise e => (Raise e, State fs1 rq rs5)
  | Ok fsa =>
      match fs_write analysis_file
                     (analysis_report execution_id (length files) rs5) fsa with
      | Raise e => (Raise e, State fsa rq rs5)
      | Ok fsb =>
          match fs_lookup graph_file fs1 with
          | None => (Ok 0%Z, State fsb rq rs5)
          | Some _ =>
              match fs_write graph_update_file
                             (json_dumps (graph_update execution_id)) fsb with
              | Raise e => (Raise e, State fsb rq rs5)
              | Ok fsc => (Ok 0%Z, State fsc rq rs5)
              end
          end
      end
  end.
Proof.
  intros Hfiles. cbv zeta.
  assert (Hfiles5 : dict_get "input_files" (final_results execution_id rs4)
                    = Some (JArr files)).
  { unfold final_results. by rewrite !dict_get_set. }
  unfold generate_output_files, generate_graph_update, bind, set_result,
    get_results, dump_json, write_text, lift, path_exists, fs_exists, ret.
  simpl_state. fold (final_results execution_id rs4).
  destruct (fs_write results_file _ fs1) as [fsa|e] eqn:Hwa; [|done].
  simpl_state. rewrite Hfiles5. cbn [py_len].
  destruct (fs_write analysis_file _ fsa) as [fsb|e] eqn:Hwb; [|done].
  simpl_state.
  assert (Hgraph : fs_lookup graph_file fsb = fs_lookup graph_file fs1).
  { rewrite (fs_write_at_other _ _ graph_file _ _ _ Hwb),
      (fs_write_at_other _ _ graph_file _ _ _ Hwa);
      [done| |]; intros [k Hk]; discriminate Hk. }
  rewrite Hgraph. destruct (fs_lookup graph_file fs1); [|done].
  simpl_state. by destruct (fs_write graph_update_file _ fsb).
Qed.

Lemma test_service_access_frame (s s' : state) (r : result unit) :
  test_service_access ctx s = (r, s') ->
  r = Ok tt /\ st_fs s' = st_fs s /\
  (st_requests s' = st_requests s \/
   exists url, truthy (environ ctx !! "SERVICE_PROXY_URL") = Some url /\
               st_requests s' = (url +:+ "/health") :: st_requests s) /\
  forall k, k <> "service_proxy_status" -> k <> "available_services" ->
            k <> "service_proxy_error" ->
            dict_get k (st_results s') = dict_get k (st_results s).
Proof.
  destruct s as [fs rq rs].
  destruct (test_service_access_run ctx fs rq rs) as (rq' & rs' & Hrun & Hframe).
  rewrite Hrun. intros [= <- <-]. do 2 (split; [done|]). split; [|exact Hframe].
  rewrite test_service_access_eq in Hrun. simpl.
  destruct (truthy (environ ctx !! "SERVICE_PROXY_URL")) as [url|];
    injection Hrun as <- _; [right; by exists url | by left].
Qed.

(** Every run, by the step it stops at. *)
Lemma run_cases (fs : node) :
  (~ output_creatable fs /\ exists e, run ctx fs = (Raise e, initial fs)) \/
  exists fs1,
    fs_mkdir output_dir fs = Ok fs1 /\
    ((~ (graph_readable fs /\ config_readable fs) /\
      exists e rs, run ctx fs = (Raise e, State fs1 [] rs)) \/
     (graph_readable fs /\ config_readable fs /\
      exists rs1 rs2 rq rs4,
        read_graph_data (State fs [] []) = (Ok tt, State fs [] rs1) /\
        read_configuration (State fs [] rs1) = (Ok tt, State fs [] rs2) /\
        test_service_access ctx
          (State fs1 []
                 (dict_set "input_files" (JArr (JStr <$> input_names fs)) rs2)) =
        (Ok tt, State fs1 rq rs4) /\
        dict_get "input_files" rs4 = Some (JArr (JStr <$> input_names fs)) /\
        run ctx fs =
        let execution_id := environ_get ctx "EXECUTION_ID" "unknown" in
        let rs5 := final_results execution_id rs4 in
        match fs_write results_file (json_dumps (JObj rs5)) fs1 with
        | Raise e => (Raise e, State fs1 rq rs5)
        | Ok fsa =>
            match fs_write analysis_file
                    (analysis_report execution_id (length (input_names fs)) rs5)
                    fsa with
            | Raise e => (Raise e, State fsa rq rs5)
            | Ok fsb =>
                match fs_lookup graph_file fs with
                | None => (Ok 0%Z, State fsb rq rs5)
                | Some _ =>
                    match fs_write graph_update_file
                            (json_dumps (graph_update execution_id)) fsb with
                    | Raise e => (Raise e, State fsb rq rs5)
                    | Ok fsc => (Ok 0%Z, State fsc rq rs5)
                    end
                end
            end
        end)).
Proof.
  pose proof (run_inputs fs) as Hin.
  destruct (fs_mkdir output_dir fs) as [fs1|e] eqn:Hmk.
  - right. exists fs1. split; [done|].
    destruct Hin as [Hbad | (Hg & Hc & rs1 & rs2 & H1 & H2 & Hrun)]; [by left|].
    right. do 2 (split; [done|]).
    destruct (test_service_access ctx
                (State fs1 [] (dict_set "input_files"
                                 (JArr (JStr <$> input_names fs)) rs2)))
      as [r [fs' rq rs4]] eqn:H4.
    destruct (test_service_access_frame _ _ _ H4) as (-> & Hfs & _ & Hframe).
    simpl in Hfs, Hframe. subst fs'.
    assert (Hfiles : dict_get "input_files" rs4
                     = Some (JArr (JStr <$> input_names fs))).
    { rewrite Hframe by done. by rewrite dict_get_set. }
    exists rs1, rs2, rq, rs4. do 4 (split; [done|]).
    rewrite Hrun. unfold bind at 1. rewrite H4.
    rewrite (run_outputs _ _ _ _ _ Hfiles). cbv zeta.
    rewrite length_fmap.
    by rewrite (fs_mkdir_at_other _ _ graph_file _ _ Hmk)
      by (intros [k Hk]; discriminate Hk).
  - left. split; [|by exists e].
    intros [fs1 Hmk']%output_creatable_mkdir.
    change WorkerScript.output_dir with output_dir in Hmk'. congruence.
Qed.

(** What steps 1 to 3 have put into [results]. *)
Lemma inputs_facts (fs : node) (rs1 rs2 : dict) :
  read_graph_data (State fs [] []) = (Ok tt, State fs [] rs1) ->
  read_configuration (State fs [] rs1) = (Ok tt, State fs [] rs2) ->
  (forall k, k <> "input_graph_stats" -> k <> "config_keys" -> dict_get k rs2 = None) /\
  dict_has "input_graph_stats" rs2 = fs_exists graph_file fs /\
  dict_has "config_keys" rs2 = fs_exists config_file fs /\
  (forall text d,
      fs_lookup config_file fs = Some (File text) ->
      json_loads text = Ok (JObj d) ->
      dict_get "config_keys" rs2 = Some (JArr (JStr <$> dict_keys d))) /\
  dict_get "input_graph_stats" rs2 = dict_get "input_graph_stats" rs1.
Proof.
  intros H1 H2.
  destruct (read_graph_data_cases fs [] [])
    as [(_ & rs1' & H1' & Hf1 & Hn1 & Hs1) | (_ & e & H1')];
    rewrite H1 in H1'; [injection H1' as <- | discriminate].
  destruct (read_configuration_cases fs [] rs1)
    as [(_ & rs2' & H2' & Hf2 & Hn2 & Hs2) | (_ & e & H2')];
    rewrite H2 in H2'; [injection H2' as <- | discriminate].
  split; [|split; [|split; [|split; [exact Hs2 | by apply Hf2]]]].
  - intros k Hk1 Hk2. by rewrite Hf2, Hf1.
  - unfold dict_has, fs_exists. rewrite Hf2 by done.
    destruct (fs_lookup graph_file fs) as [g|].
    + by destruct Hs1 as [stats ->].
    + by rewrite Hn1.
  - unfold dict_has, fs_exists.
    destruct (fs_lookup config_file fs) as [[text|m]|] eqn:Hc.
    + rewrite read_configuration_eq, Hc in H2.
      destruct (json_loads text) as [[| | | | | |d]|] eqn:Hl; try done.
      by rewrite (Hs2 text d eq_refl Hl).
    + by rewrite read_configuration_eq, Hc in H2.
    + rewrite Hn2, Hf1 by done. reflexivity.
Qed.

Lemma fs_write_at_not_dir (full parent : path) (x data : string) (n n' : node) :
  fs_write_at full (parent ++ [x]) data n = Ok n' ->
  not_a_directory n (parent ++ [x]).
Proof.
  intros (m & Hp & Hx)%fs_write_at_inv m' Hm.
  rewrite fs_lookup_app, Hp in Hm. simpl in Hm.
  destruct (m !! x) eqn:E; simplify_eq. by destruct (Hx m').
Qed.

(** What a run that exits with 0 went through, and what it left. *)
Lemma run_ok_inv (fs : node) :
  exit_code (run ctx fs) = 0%Z ->
  exists fs1 rs1 rs2 rq rs4 fs2,
    fs_mkdir output_dir fs = Ok fs1 /\
    read_graph_data (State fs [] []) = (Ok tt, State fs [] rs1) /\
    read_configuration (State fs [] rs1) = (Ok tt, State fs [] rs2) /\
    test_service_access ctx
      (State fs1 [] (dict_set "input_files" (JArr (JStr <$> input_names fs)) rs2)) =
    (Ok tt, State fs1 rq rs4) /\
    let execution_id := environ_get ctx "EXECUTION_ID" "unknown" in
    let rs5 := final_results execution_id rs4 in
    run ctx fs = (Ok 0%Z, State fs2 rq rs5) /\
    holds_json fs2 results_file (JObj rs5) /\
    fs_lookup analysis_file fs2 =
      Some (File (analysis_report execution_id (length (input_names fs)) rs5)) /\
    (fs_lookup graph_file fs = None ->
     fs_lookup graph_update_file fs2 = fs_lookup graph_update_file fs) /\
    (fs_lookup graph_file fs <> None ->
     holds_json fs2 graph_update_file (graph_update execution_id)).
Proof.
  intros Hexit.
  destruct (run_cases fs) as [(_ & e & Hrun) | (fs1 & Hmk & [(_ & e & rs & Hrun) | Hok])];
    [by rewrite Hrun in Hexit .. |].
  destruct Hok as (_ & _ & rs1 & rs2 & rq & rs4 & H1 & H2 & H4 & _ & Hrun).
  cbv zeta in Hrun. rewrite Hrun in Hexit.
  destruct (fs_write results_file _ fs1) as [fsa|e] eqn:Hwa; [|done].
  destruct (fs_write analysis_file _ fsa) as [fsb|e] eqn:Hwb; [|done].
  assert (Hres : forall fs', fs_lookup results_file fs' = fs_lookup results_file fsa ->
                             holds_json fs' results_file
                               (JObj (final_results
                                        (environ_get ctx "EXECUTION_ID" "unknown") rs4))).
  { intros fs' Heq. unfold holds_json. rewrite Heq. by eapply fs_write_at_lookup. }
  assert (Hana : fs_lookup analysis_file fsb =
                 Some (File (analysis_report (environ_get ctx "EXECUTION_ID" "unknown")
                               (length (input_names fs))
                               (final_results
                                  (environ_get ctx "EXECUTION_ID" "unknown") rs4))))
    by (by eapply fs_write_at_lookup).
  assert (Hupd : fs_lookup graph_update_file fsb = fs_lookup graph_update_file fs).
  { rewrite (fs_write_at_other _ _ graph_update_file _ _ _ Hwb),
      (fs_write_at_other _ _ graph_update_file _ _ _ Hwa);
      [| intros [k Hk]; discriminate Hk ..].
    eapply fs_mkdir_at_other; [exact Hmk|]. intros [k Hk]; discriminate Hk. }
  destruct (fs_lookup graph_file fs) as [g|] eqn:Hg.
  - destruct (fs_write graph_update_file _ fsb) as [fsc|e] eqn:Hwc; [|done].
    exists fs1, rs1, rs2, rq, rs4, fsc. do 4 (split; [done|]). cbv zeta.
    split; [done|]. split; [|split; [|split; [done|]]].
    + apply Hres.
      rewrite (fs_write_at_other _ _ results_file _ _ _ Hwc),
        (fs_write_at_other _ _ results_file _ _ _ Hwb);
        [done | intros [k Hk]; discriminate Hk ..].
    + rewrite (fs_write_at_other _ _ analysis_file _ _ _ Hwc);
        [done | intros [k Hk]; discriminate Hk].
    + intros _. by eapply fs_write_at_lookup.
  - exists fs1, rs1, rs2, rq, rs4, fsb. do 4 (split; [done|]). cbv zeta.
    split; [done|]. split; [|split; [done|split; [done|done]]].
    apply Hres.
    rewrite (fs_write_at_other _ _ results_file _ _ _ Hwb);
      [done | intros [k Hk]; discriminate Hk].
Qed.

(** The entries of the final [results] that steps 1 to 3 wrote. *)
Lemma final_results_inputs (execution_id : string) (fs : node)
      (rq rq' : list string) (rs3 rs4 : dict) (k : string) :
  test_service_access ctx (State fs rq rs3) = (Ok tt, State fs rq' rs4) ->
  k = "input_graph_stats" \/ k = "config_keys" \/ k = "input_files" ->
  dict_get k (final_results execution_id rs4) = dict_get k rs3.
Proof.
  intros (_ & _ & _ & Hframe)%test_service_access_frame Hk. simpl in Hframe.
  unfold final_results.
  destruct Hk as [-> | [-> | ->]]; by rewrite !dict_get_set_ne, Hframe.
Qed.

(** Every run leaves alone what is not on the way to one of its three
    output files. *)
Lemma run_frame (fs : node) (q : path) :
  ¬ q `prefix_of` results_file ->
  ¬ q `prefix_of` analysis_file ->
  ¬ q `prefix_of` graph_update_file ->
  fs_lookup q (st_fs (run ctx fs).2) = fs_lookup q fs.
Proof.
  intros Hq1 Hq2 Hq3.
  destruct (run_cases fs) as [(_ & e & ->) | (fs1 & Hmk & Hrun)]; [done|].
  assert (Hfs1 : fs_lookup q fs1 = fs_lookup q fs).
  { eapply fs_mkdir_at_other; [exact Hmk|]. apply not_prefix_of_output_dir. by left. }
  destruct Hrun as [(_ & e & rs & ->) | Hok]; [done|].
  destruct Hok as (_ & _ & rs1 & rs2 & rq & rs4 & _ & _ & _ & _ & ->). cbv zeta.
  destruct (fs_write results_file _ fs1) as [fsa|e] eqn:Hwa; [|done].
  assert (Hfsa : fs_lookup q fsa = fs_lookup q fs).
  { rewrite <- Hfs1. by eapply fs_write_at_other. }
  destruct (fs_write analysis_file _ fsa) as [fsb|e] eqn:Hwb; [|done].
  assert (Hfsb : fs_lookup q fsb = fs_lookup q fs).
  { rewrite <- Hfsa. by eapply fs_write_at_other. }
  destruct (fs_lookup graph_file fs); [|done].
  destruct (fs_write graph_update_file _ fsb) as [fsc|e] eqn:Hwc; [|done].
  cbn [snd st_fs]. rewrite <- Hfsb. by eapply fs_write_at_other.
Qed.

(** X1. Whatever happens (success or failure, any environment, any
    answer of the gateway), the test container changes nothing but its
    three output files and the directories above them: [input/] and
    [config/] are left as they were. *)
Theorem only_output_files_change (fs : node) (q : path) :
  ¬ q `prefix_of` results_file ->
  ¬ q `prefix_of` analysis_file ->
  ¬ q `prefix_of` graph_update_file ->
  fs_lookup q (st_fs (run ctx fs).2) = fs_lookup q fs.
Proof. apply run_frame. Qed.

(** X2. The container calls [requests.get] at most once, and then with
    [/health] under the URL of [SERVICE_PROXY_URL]; without that
    variable, or with an empty one, it does not call it. *)
Theorem requests_get_is_called_at_most_once (fs : node) :
  st_requests (run ctx fs).2 = [] \/
  exists url,
    truthy (environ ctx !! "SERVICE_PROXY_URL") = Some url /\
    st_requests (run ctx fs).2 = [url +:+ "/health"].
Proof.
  destruct (run_cases fs) as [(_ & e & ->) | (fs1 & Hmk & Hrun)]; [by left|].
  destruct Hrun as [(_ & e & rs & ->) | Hok]; [by left|].
  destruct Hok as (_ & _ & rs1 & rs2 & rq & rs4 & _ & _ & H4 & _ & Hrun).
  assert (Hrq : st_requests (run ctx fs).2 = rq).
  { rewrite Hrun. cbv zeta. repeat case_match; reflexivity. }
  rewrite Hrq.
  apply test_service_access_frame in H4 as (_ & _ & [Heq | (url & Hurl & Heq)] & _);
    simpl in Heq; [by left | right; by exists url].
Qed.

(** X3. When [input/graph_data.json] or [config/config.json] exists
    but cannot be read as the container reads it, the run exits with 1
    before any request is made and before any output file is written:
    at most the output directory has been made. *)
Theorem unreadable_input_aborts (fs : node) :
  ~ graph_readable fs \/ ~ config_readable fs ->
  exit_code (run ctx fs) = 1%Z /\
  st_requests (run ctx fs).2 = [] /\
  forall q : path, ¬ q `prefix_of` output_dir ->
                   fs_lookup q (st_fs (run ctx fs).2) = fs_lookup q fs.
Proof.
  intros Hbad.
  destruct (run_cases fs) as [(_ & e & ->) | (fs1 & Hmk & Hrun)]; [done|].
  destruct Hrun as [(_ & e & rs & ->) | (Hg & Hc & _)]; [|tauto].
  do 2 (split; [done|]). intros q Hq. cbn [snd st_fs].
  by eapply fs_mkdir_at_other.
Qed.

Lemma output_entry_not_dir (fs fs1 : node) (mo : gmap string node) (x : string) :
  fs_mkdir output_dir fs = Ok fs1 ->
  fs_lookup output_dir fs1 = Some (Dir mo) ->
  not_a_directory fs (output_dir ++ [x]) ->
  forall m', mo !! x <> Some (Dir m').
Proof.
  intros Hmk Hout Hx m' Hm'. apply (Hx m').
  rewrite <- (fs_mkdir_at_other _ _ (output_dir ++ [x]) _ _ Hmk)
    by (intros [k Hk]; discriminate Hk).
  rewrite fs_lookup_app, Hout. simpl. by rewrite Hm'.
Qed.

(** X4. A run of the container that exits with 0 found a workspace in
    which the output directory can be made, the graph and the
    configuration are readable (each one absent, or an object; [nodes]
    and [relationships], when present, with a length), and none of the
    output files it writes is a directory. *)
Theorem container_success_requires (fs : node) :
  exit_code (run ctx fs) = 0%Z ->
  output_creatable fs /\ graph_readable fs /\ config_readable fs /\
  not_a_directory fs results_file /\
  not_a_directory fs analysis_file /\
  (fs_lookup graph_file fs <> None -> not_a_directory fs graph_update_file).
Proof.
  assert (Hother : forall fs1 q,
             fs_mkdir output_dir fs = Ok fs1 -> ¬ q `prefix_of` output_dir ->
             fs_lookup q fs1 = fs_lookup q fs).
  { intros fs1 q Hmk Hq. by eapply fs_mkdir_at_other. }
  destruct (run_cases fs)
    as [(Hno & e & Hrun) | (fs1 & Hmk & [(Hbad & e & rs & Hrun) | Hok])];
    [by rewrite Hrun .. |].
  destruct Hok as (Hg & Hc & rs1 & rs2 & rq & rs4 & _ & _ & _ & _ & Hrun).
  cbv zeta in Hrun. rewrite Hrun. clear Hrun.
  assert (Hcreate : output_creatable fs)
    by (apply output_creatable_mkdir; by exists fs1).
  destruct (fs_write results_file _ fs1) as [fsa|e] eqn:Hwa; [|done].
  destruct (fs_write analysis_file _ fsa) as [fsb|e] eqn:Hwb; [|done].
  assert (H1 : not_a_directory fs results_file).
  { intros m Hm. apply (fs_write_at_not_dir _ _ _ _ _ _ Hwa m).
    rewrite <- Hm. apply Hother; [done|]. intros [k Hk]; discriminate Hk. }
  assert (H2 : not_a_directory fs analysis_file).
  { intros m Hm. apply (fs_write_at_not_dir _ _ _ _ _ _ Hwb m).
    change (output_dir ++ ["analysis.txt"])%list with analysis_file.
    rewrite <- Hm.
    rewrite (fs_write_at_other _ _ analysis_file _ _ _ Hwa)
      by (intros [k Hk]; discriminate Hk).
    apply Hother; [done|]. intros [k Hk]; discriminate Hk. }
  destruct (fs_lookup graph_file fs) as [g|] eqn:Hgf; [|by intros _].
  destruct (fs_write graph_update_file _ fsb) as [fsc|e] eqn:Hwc; [|done].
  intros _. do 5 (split; [done|]). intros _ m Hm.
  apply (fs_write_at_not_dir _ _ _ _ _ _ Hwc m).
  change (output_dir ++ ["graph_update.json"])%list with graph_update_file.
  rewrite <- Hm.
  rewrite (fs_write_at_other _ _ graph_update_file _ _ _ Hwb),
    (fs_write_at_other _ _ graph_update_file _ _ _ Hwa)
    by (intros [k Hk]; discriminate Hk).
  apply Hother; [done|]. intros [k Hk]; discriminate Hk.
Qed.

(** The names step 3 lists are those of the regular files directly under
    [input/], each once. *)
Lemma input_names_spec (fs : node) :
  NoDup (input_names fs) /\
  forall name,
    name ∈ input_names fs <->
    exists data, fs_lookup (input_dir ++ [name]) fs = Some (File data).
Proof.
  unfold input_names, fs_children.
  destruct (fs_lookup input_dir fs) as [[data|m]|] eqn:E.
  - split; [constructor|]. intros name. rewrite fs_lookup_app, E. simpl.
    split; [by intros ?%elem_of_nil | by intros [? ?]].
  - split.
    + eapply sublist_NoDup; [apply (NoDup_fst_map_to_list m)|].
      apply fmap_sublist, sublist_filter.
    + intros name. rewrite fs_lookup_app, E. simpl.
      rewrite list_elem_of_fmap. split.
      * intros ([name' c] & -> & [Hfile Hin]%list_elem_of_filter).
        apply elem_of_map_to_list in Hin. simpl in *. rewrite Hin.
        destruct c as [data|]; [by exists data | done].
      * intros [data Hdata]. exists (name, File data). split; [done|].
        apply list_elem_of_filter. split; [done|].
        apply elem_of_map_to_list. by destruct (m !! name).
  - split; [constructor|]. intros name. rewrite fs_lookup_app, E. simpl.
    split; [by intros ?%elem_of_nil | by intros [? ?]].
Qed.

(** X5. After a successful run [config_keys] lists the keys of the
    configuration object in the order of the file; without a
    configuration file there is no such entry. *)
Theorem config_keys_are_listed_in_order (fs : node) :
  exit_code (run ctx fs) = 0%Z ->
  exists results,
    holds_json (st_fs (run ctx fs).2) results_file (JObj results) /\
    (fs_lookup config_file fs = None -> dict_get "config_keys" results = None) /\
    (forall text d,
        fs_lookup config_file fs = Some (File text) ->
        json_loads text = Ok (JObj d) ->
        dict_get "config_keys" results = Some (JArr (JStr <$> dict_keys d))).
Proof.
  intros (fs1 & rs1 & rs2 & rq & rs4 & fs2 & _ & H1 & H2 & H4 & Hrest)%run_ok_inv.
  cbv zeta in Hrest. destruct Hrest as (-> & Hres & _).
  destruct (inputs_facts fs rs1 rs2 H1 H2) as (_ & _ & Hhas & Hkeys & _).
  eexists; split; [exact Hres|].
  rewrite (final_results_inputs _ _ _ _ _ _ "config_keys" H4) by auto.
  rewrite dict_get_set_ne by done. split; [|exact Hkeys].
  intros Hnone. unfold dict_has, fs_exists in Hhas. rewrite Hnone in Hhas.
  by destruct (dict_get "config_keys" rs2).
Qed.

(** X6. After a successful run [input_files] names the regular files
    directly under [input/], each once: directories are left out, and a
    missing [input/] gives the empty list. *)
Theorem input_files_are_the_regular_files (fs : node) :
  exit_code (run ctx fs) = 0%Z ->
  exists results names,
    holds_json (st_fs (run ctx fs).2) results_file (JObj results) /\
    dict_get "input_files" results = Some (JArr (JStr <$> names)) /\
    NoDup names /\
    forall name,
      name ∈ names <->
      exists data, fs_lookup (input_dir ++ [name]) fs = Some (File data).
Proof.
  intros (fs1 & rs1 & rs2 & rq & rs4 & fs2 & _ & H1 & H2 & H4 & Hrest)%run_ok_inv.
  cbv zeta in Hrest. destruct Hrest as (-> & Hres & _).
  eexists _, (input_names fs). split; [exact Hres|].
  rewrite (final_results_inputs _ _ _ _ _ _ "input_files" H4) by auto.
  rewrite dict_get_set. split; [done|]. apply input_names_spec.
Qed.

(** X7. A successful run writes [output/graph_update.json] exactly when
    there is a graph input; what it writes depends on the execution
    identifier only.  Without graph input, whatever was at that path
    stays. *)
Theorem graph_update_only_with_graph_input (fs : node) :
  exit_code (run ctx fs) = 0%Z ->
  (fs_lookup graph_file fs = None ->
   fs_lookup graph_update_file (st_fs (run ctx fs).2) =
   fs_lookup graph_update_file fs) /\
  (fs_lookup graph_file fs <> None ->
   holds_json (st_fs (run ctx fs).2) graph_update_file
     (graph_update (environ_get ctx "EXECUTION_ID" "unknown"))).
Proof.
  intros (fs1 & rs1 & rs2 & rq & rs4 & fs2 & _ & _ & _ & _ & Hrest)%run_ok_inv.
  cbv zeta in Hrest. by destruct Hrest as (-> & _ & _ & Hnone & Hsome).
Qed.

(** X8. After a successful run [output/analysis.txt] is the report
    built from the results in [output/results.json]: it counts the
    regular files directly under [input/], and its graph and
    configuration flags say whether [input/graph_data.json] and
    [config/config.json] exist. *)
Theorem analysis_report_agrees_with_inputs (fs : node) :
  exit_code (run ctx fs) = 0%Z ->
  exists results names,
    holds_json (st_fs (run ctx fs).2) results_file (JObj results) /\
    fs_lookup analysis_file (st_fs (run ctx fs).2) =
      Some (File (analysis_report (environ_get ctx "EXECUTION_ID" "unknown")
                                  (length names) results)) /\
    NoDup names /\
    (forall name,
        name ∈ names <->
        exists data, fs_lookup (input_dir ++ [name]) fs = Some (File data)) /\
    dict_has "input_graph_stats" results = fs_exists graph_file fs /\
    dict_has "config_keys" results = fs_exists config_file fs.
Proof.
  intros (fs1 & rs1 & rs2 & rq & rs4 & fs2 & _ & H1 & H2 & H4 & Hrest)%run_ok_inv.
  cbv zeta in Hrest. destruct Hrest as (-> & Hres & Hana & _).
  destruct (inputs_facts fs rs1 rs2 H1 H2) as (_ & Hgraph & Hconfig & _ & _).
  eexists _, (input_names fs). do 2 (split; [done|]).
  split; [apply input_names_spec|]. split; [apply input_names_spec|].
  unfold dict_has in *.
  rewrite (final_results_inputs _ _ _ _ _ _ "input_graph_stats" H4) by auto.
  rewrite (final_results_inputs _ _ _ _ _ _ "config_keys" H4) by auto.
  by rewrite !dict_get_set_ne.
Qed.

(** X9. After a successful run on a graph whose [nodes] and
    [relationships], when present, are arrays, [input_graph_stats] holds
    their lengths, an absent entry counting as 0. *)
Theorem graph_counts_are_reported (fs : node) (text : string) (d : dict) :
  fs_lookup graph_file fs = Some (File text) ->
  json_loads text = Ok (JObj d) ->
  array_if_present "nodes" d ->
  array_if_present "relationships" d ->
  exit_code (run ctx fs) = 0%Z ->
  exists results,
    holds_json (st_fs (run ctx fs).2) results_file (JObj results) /\
    dict_get "input_graph_stats" results =
      Some (JObj [("node_count", JInt (Z.of_nat (array_length "nodes" d)));
                  ("relationship_count",
                   JInt (Z.of_nat (array_length "relationships" d)))]).
Proof.
  intros Hfile Hload Hn Hr
         (fs1 & rs1 & rs2 & rq & rs4 & fs2 & _ & H1 & H2 & H4 & Hrest)%run_ok_inv.
  cbv zeta in Hrest. destruct Hrest as (-> & Hres & _).
  destruct (inputs_facts fs rs1 rs2 H1 H2) as (_ & _ & _ & _ & Hstats).
  eexists; split; [exact Hres|].
  rewrite (final_results_inputs _ _ _ _ _ _ "input_graph_stats" H4) by auto.
  rewrite dict_get_set_ne, Hstats by done.
  rewrite read_graph_data_eq, Hfile, Hload in H1. cbn [result_bind] in H1.
  rewrite !count_of_array in H1 by done. cbn [result_bind] in H1.
  injection H1 as <-. reflexivity.
Qed.

(** X10. An [EXECUTION_ID] that is set, even to the empty string, is used
    as it is: in [execution_id] of the results, in the analysis report
    and in the ids of the graph update. *)
Theorem execution_id_is_used_verbatim (fs : node) (id : string) :
  environ ctx !! "EXECUTION_ID" = Some id ->
  exit_code (run ctx fs) = 0%Z ->
  exists results (files : nat) rest,
    holds_json (st_fs (run ctx fs).2) results_file (JObj results) /\
    dict_get "execution_id" results = Some (JStr id) /\
    fs_lookup analysis_file (st_fs (run ctx fs).2) =
      Some (File ("Container Analysis Report" +:+ nl
                  +:+ "========================" +:+ nl +:+ nl
                  +:+ "Execution ID: " +:+ id +:+ nl
                  +:+ "Input files processed: " +:+ pretty files +:+ nl +:+ rest)) /\
    (fs_lookup graph_file fs <> None ->
     holds_json (st_fs (run ctx fs).2) graph_update_file (graph_update id)).
Proof.
  intros Hid (fs1 & rs1 & rs2 & rq & rs4 & fs2 & _ & _ & _ & _ & Hrest)%run_ok_inv.
  cbv zeta in Hrest. unfold environ_get in Hrest. rewrite Hid in Hrest.
  destruct Hrest as (-> & Hres & Hana & _ & Hupd).
  eexists _, _, _. split; [exact Hres|].
  split; [unfold final_results; by rewrite !dict_get_set|].
  split; [exact Hana | exact Hupd].
Qed.




(** X13. An empty [SERVICE_PROXY_URL] is the same as none: the run is
    the run without the variable. *)
Theorem empty_proxy_url_is_unset (fs : node) :
  environ ctx !! "SERVICE_PROXY_URL" = Some EmptyString ->
  run ctx fs =
  run (MkContext (delete "SERVICE_PROXY_URL" (environ ctx)) (network ctx)) fs.
Proof.
  intros Hurl. unfold run, main, test_service_access, environ_get. simpl.
  rewrite Hurl, lookup_delete_eq, lookup_delete_ne by done. reflexivity.
Qed.

Lemma fs_write_at_dir (full parent : path) (x data : string) (n : node)
      (m : gmap string node) :
  fs_lookup (parent ++ [x]) n = Some (Dir m) ->
  exists e, fs_write_at full (parent ++ [x]) data n = Raise e.
Proof.
  intros Hdir. destruct (fs_write_at full (parent ++ [x]) data n) as [n'|e] eqn:Hw;
    [|by exists e].
  by destruct (fs_write_at_not_dir _ _ _ _ _ _ Hw m).
Qed.

(** X14. The output is not written all at once: when the results file
    can be written and [output/analysis.txt] is a directory, the run
    exits with 1 and leaves an [output/results.json] whose [status] is
    ["completed"]. *)
Theorem results_survive_a_failed_report (fs : node) (m : gmap string node) :
  output_creatable fs -> graph_readable fs -> config_readable fs ->
  not_a_directory fs results_file ->
  fs_lookup analysis_file fs = Some (Dir m) ->
  exit_code (run ctx fs) = 1%Z /\
  exists results,
    holds_json (st_fs (run ctx fs).2) results_file (JObj results) /\
    dict_get "status" results = Some (JStr "completed").
Proof.
  intros Hcreate Hg Hc Hres Hana.
  destruct (run_cases fs)
    as [(Hno & _) | (fs1 & Hmk & [(Hbad & _) | Hok])]; [tauto | tauto |].
  destruct Hok as (_ & _ & rs1 & rs2 & rq & rs4 & _ & _ & _ & _ & ->). cbv zeta.
  destruct (fs_mkdir_at_result output_dir ["workspace"] "output" fs fs1 Hmk)
    as (mo & Hout & _).
  change (["workspace"] ++ ["output"])%list with output_dir in Hout.
  destruct (fs_write_at_in_dir results_file output_dir "results.json"
              (json_dumps (JObj (final_results
                 (environ_get ctx "EXECUTION_ID" "unknown") rs4))) fs1 mo Hout)
    as (fsa & Hwa & _); [by eapply output_entry_not_dir|].
  change (output_dir ++ ["results.json"])%list with results_file in Hwa.
  unfold fs_write. rewrite Hwa.
  assert (Hdir : fs_lookup (output_dir ++ ["analysis.txt"]) fsa = Some (Dir m)).
  { change (output_dir ++ ["analysis.txt"])%list with analysis_file.
    rewrite (fs_write_at_other _ _ analysis_file _ _ _ Hwa)
      by (intros [k Hk]; discriminate Hk).
    rewrite <- Hana. eapply fs_mkdir_at_other; [exact Hmk|].
    intros [k Hk]; discriminate Hk. }
  destruct (fs_write_at_dir analysis_file output_dir "analysis.txt"
              (analysis_report (environ_get ctx "EXECUTION_ID" "unknown")
                 (length (input_names fs))
                 (final_results (environ_get ctx "EXECUTION_ID" "unknown") rs4))
              fsa m Hdir) as [e He].
  change (output_dir ++ ["analysis.txt"])%list with analysis_file in He.
  rewrite He. split; [done|]. cbn [snd st_fs].
  eexists; split; [by eapply fs_write_at_lookup|].
  unfold final_results. by rewrite !dict_get_set.
Qed.

(** X15. Running the container again on the file system that a
    successful run left, in the same environment and with the same
    answers of the gateway, gives the same run: the same exit code,
    requests, results and files. *)
Theorem rerun_is_idempotent (fs : node) :
  exit_code (run ctx fs) = 0%Z ->
  run ctx (st_fs (run ctx fs).2) = run ctx fs.
Proof.
  intros (fs1 & rs1 & rs2 & rq & rs4 & fs2 & Hmk & H1 & H2 & H4 & Hrest)%run_ok_inv.
  cbv zeta in Hrest. destruct Hrest as (Hrun & Hres & Hana & Hnone & Hsome).
  rewrite Hrun. cbn [snd st_fs].
  assert (Hsame : forall q, q = graph_file \/ q = config_file \/ q = input_dir ->
                            fs_lookup q fs2 = fs_lookup q fs).
  { intros q Hq. pose proof (run_frame fs q) as Hframe.
    rewrite Hrun in Hframe. apply Hframe;
      destruct Hq as [-> | [-> | ->]]; intros [k Hk]; discriminate Hk. }
  destruct (fs_lookup_parent output_dir "results.json" fs2 _ Hres) as (mo & Hout & _).
  pose proof (read_graph_data_fs fs fs2 _ _ _ _ (Hsame _ (or_introl eq_refl)) H1) as H1'.
  pose proof (read_configuration_fs fs fs2 _ _ _ _
                (Hsame _ (or_intror (or_introl eq_refl))) H2) as H2'.
  unfold run, main, initial. unfold bind at 1, mkdir. simpl_state.
  rewrite (fs_mkdir_at_same _ _ _ mo Hout : fs_mkdir output_dir fs2 = Ok fs2).
  simpl_state.
  rewrite (bind_run _ _ _ _ _ H1'), (bind_run _ _ _ _ _ H2').
  unfold bind at 1. rewrite list_input_files_eq, (input_names_fs fs fs2) by auto.
  unfold bind at 1.
  pose proof (test_service_access_fs _ fs2 _ _ _ _ _ H4) as H4'.
  rewrite H4'.
  assert (Hfiles : dict_get "input_files" rs4
                   = Some (JArr (JStr <$> input_names fs))).
  { apply test_service_access_frame in H4 as (_ & _ & _ & Hframe).
    simpl in Hframe. rewrite Hframe by done. by rewrite dict_get_set. }
  rewrite (run_outputs _ _ _ _ _ Hfiles). cbv zeta. rewrite length_fmap.
  unfold fs_write. rewrite (fs_write_at_same _ _ _ fs2) by done.
  rewrite (fs_write_at_same _ _ _ fs2) by done.
  rewrite Hsame by auto.
  destruct (fs_lookup graph_file fs) as [g|] eqn:Hg; [|done].
  rewrite (fs_write_at_same _ _ _ fs2); [done | done | by apply Hsome].
Qed.
End TestContainerEveryRun.

(** ** Every run of the worker script *)

Section WorkerScriptRuns.
Import WorkerScript.
Context `{JsonCodec}.

(** Reading the configuration depends on the file at [config_path] only,
    and changes nothing. *)
Lemma read_config_result (fs : node) :
  read_config fs =
  (match fs_lookup config_path fs with
   | None => Ok (JObj [("operation", JStr "default")])
   | Some (File text) => json_loads text
   | Some (Dir _) =>
       Raise (os_error IsADirectoryError "[Errno 21] Is a directory" config_path)
   end, fs).
Proof.
  unfold read_config, bind, path_exists, fs_exists, load_json, bind, read_text,
    fs_read, lift, ret.
  simpl_state.
  destruct (fs_lookup config_path fs) as [[text|m]|] eqn:E; rewrite ?E; try done.
Qed.

(** The run, step by step. *)
Lemma worker_run_steps (fs : node) :
  run fs =
  match (read_config fs).1 with
  | Raise e => (Raise e, fs)
  | Ok config =>
      match dispatch config with
      | Raise e => (Raise e, fs)
      | Ok result =>
          match fs_mkdir output_dir fs with
          | Raise e => (Raise e, fs)
          | Ok fs1 =>
              match fs_write result_file (json_dumps result) fs1 with
              | Raise e => (Raise e, fs1)
              | Ok fs2 => (Ok 0%Z, fs2)
              end
          end
      end
  end.
Proof.
  unfold run, main. unfold bind at 1. rewrite read_config_result. cbn [fst].
  destruct (match fs_lookup config_path fs with
            | Some (File text) => json_loads text
            | Some (Dir _) => _
            | None => _
            end) as [config|e]; [|done].
  unfold bind, lift, mkdir, dump_json, write_text, ret. simpl_state.
  destruct (dispatch config) as [result|e]; [|done].
  destruct (fs_mkdir output_dir fs) as [fs1|e]; [|done].
  by destruct (fs_write result_file (json_dumps result) fs1).
Qed.

Lemma dispatch_not_object (config : json) :
  (forall d, config <> JObj d) -> exists e, dispatch config = Raise e.
Proof. intros Hd. destruct config; try (by eexists). by destruct (Hd fields). Qed.

(** [dispatch] returns for an object exactly when it does not have to
    take the length of something that has none. *)
Lemma dispatch_defined (d : dict) :
  (exists result, dispatch (JObj d) = Ok result) <->
  (dict_get "operation" d = Some (JStr "data_processing") ->
   has_len_if_present "input_files" d).
Proof.
  unfold dispatch, has_len_if_present. simpl.
  destruct (dict_get "operation" d) as [op|] eqn:Hop; simpl;
    [|split; [done | by eexists]].
  destruct (py_eq_str op "data_processing") eqn:Hdp.
  - destruct op; try done. simpl in Hdp. apply String.eqb_eq in Hdp as ->.
    unfold process_data. simpl.
    destruct (dict_get "input_files" d) as [v|]; simpl.
    + split.
      * intros [result Hr] _ v' [= <-]. by destruct v.
      * intros Hlen. specialize (Hlen eq_refl v eq_refl). destruct v; try done; by eexists.
    + split; [done | by eexists].
  - split; [|intros _; destruct (py_eq_str op "ml_training"); by eexists].
    intros _ [= ->]. vm_compute in Hdp. discriminate Hdp.
Qed.

Lemma not_prefix_of_worker_output (q : path) :
  ¬ q `prefix_of` result_file -> ¬ q `prefix_of` output_dir.
Proof.
  intros Hq Hp. apply Hq. etransitivity; [exact Hp|]. by apply prefix_app_r.
Qed.

(** X16. The worker script exits with 0 exactly when it can use its
    configuration (no file at [input/config.json], or an object that does
    not make it take the length of something that has none), the output
    directory can be made, and [output/result.json] is not a
    directory. *)
Theorem worker_succeeds_iff (fs : node) :
  exit_code (run fs) = 0%Z <->
  worker_accepts fs /\ output_creatable fs /\ not_a_directory fs result_file.
Proof.
  rewrite worker_run_steps, read_config_result. cbn [fst].
  unfold worker_accepts, holds_object, not_a_directory. split.
  - destruct (fs_lookup config_path fs) as [[text|m]|] eqn:Hc; [| done |].
    + destruct (json_loads text) as [config|e] eqn:Hl; [|done].
      destruct (dispatch config) as [result|e] eqn:Hd; [|done].
      destruct (fs_mkdir output_dir fs) as [fs1|e] eqn:Hmk; [|done].
      destruct (fs_write result_file (json_dumps result) fs1) as [fs2|e] eqn:Hw; [|done].
      intros _. split; [right|split].
      * destruct config as [| | | | | |d]; try done.
        exists text, d. do 2 (split; [done|]). apply dispatch_defined. by eexists.
      * apply output_creatable_mkdir. by eexists.
      * intros m Hm. apply fs_write_at_inv in Hw as (mo & Hout & Hx).
        rewrite <- (fs_mkdir_at_other _ _ result_file _ _ Hmk) in Hm
          by (intros [k Hk]; discriminate Hk).
        unfold result_file in Hm. rewrite fs_lookup_app, Hout in Hm. simpl in Hm.
        destruct (mo !! "result.json") eqn:E; simplify_eq. by destruct (Hx m).
    + destruct (dispatch (JObj [("operation", JStr "default")])) as [result|e];
        [|done].
      destruct (fs_mkdir output_dir fs) as [fs1|e] eqn:Hmk; [|done].
      destruct (fs_write result_file _ fs1) as [fs2|e] eqn:Hw; [|done].
      intros _. split; [by left|split].
      * apply output_creatable_mkdir. by eexists.
      * intros m Hm. apply fs_write_at_inv in Hw as (mo & Hout & Hx).
        rewrite <- (fs_mkdir_at_other _ _ result_file _ _ Hmk) in Hm
          by (intros [k Hk]; discriminate Hk).
        unfold result_file in Hm. rewrite fs_lookup_app, Hout in Hm. simpl in Hm.
        destruct (mo !! "result.json") eqn:E; simplify_eq. by destruct (Hx m).
  - intros (Hacc & (m & Hroot & Hm) & Hfile).
    assert (Hdisp : exists result,
               match match fs_lookup config_path fs with
                     | Some (File text) => json_loads text
                     | Some (Dir _) =>
                         Raise (os_error IsADirectoryError "[Errno 21] Is a directory"
                                         config_path)
                     | None => Ok (JObj [("operation", JStr "default")])
                     end with
               | Ok config => dispatch config
               | Raise e => Raise e
               end = Ok result).
    { destruct Hacc as [-> | (text & d & -> & -> & Hlen)]; [by eexists|].
      by apply dispatch_defined. }
    destruct Hdisp as [result Hdisp].
    destruct (match fs_lookup config_path fs with
              | Some (File text) => json_loads text
              | Some (Dir _) => _
              | None => _
              end) as [config|e]; [|done].
    rewrite Hdisp.
    destruct (fs_mkdir_at_in_dir output_dir ["workspace"] "output" fs m Hroot Hm)
      as (fs1 & Hmk & _).
    unfold fs_mkdir. change output_dir with (["workspace"] ++ ["output"])%list at 2.
    rewrite Hmk.
    destruct (fs_mkdir_at_result _ _ _ _ _ Hmk) as (mo & Hout1 & Hwas).
    destruct (fs_write_at_in_dir result_file output_dir "result.json"
                (json_dumps result) fs1 mo Hout1) as (fs2 & Hw & _).
    { intros m' Hm'. destruct Hwas as [[Hout _] | [_ ->]].
      - apply (Hfile m'). unfold result_file.
        change output_dir with (["workspace"] ++ ["output"])%list.
        rewrite fs_lookup_app, Hout. simpl. by rewrite Hm'.
      - by rewrite lookup_empty in Hm'. }
    unfold fs_write. change (output_dir ++ ["result.json"])%list with result_file in Hw.
    by rewrite Hw.
Qed.

(** What a successful run went through. *)
Lemma worker_success_inv (fs : node) :
  exit_code (run fs) = 0%Z ->
  exists config result fs1 fs2,
    read_config fs = (Ok config, fs) /\
    dispatch config = Ok result /\
    fs_mkdir output_dir fs = Ok fs1 /\
    fs_write result_file (json_dumps result) fs1 = Ok fs2 /\
    run fs = (Ok 0%Z, fs2).
Proof.
  intros Hexit. pose proof (worker_run_steps fs) as Hrun.
  rewrite Hrun in Hexit.
  destruct (read_config fs) as [[config|e] fs'] eqn:Hc; [|done].
  assert (fs' = fs) as -> by (rewrite read_config_result in Hc; congruence).
  cbn [fst] in *.
  destruct (dispatch config) as [result|e] eqn:Hd; [|done].
  destruct (fs_mkdir output_dir fs) as [fs1|e] eqn:Hmk; [|done].
  destruct (fs_write result_file (json_dumps result) fs1) as [fs2|e] eqn:Hw; [|done].
  by exists config, result, fs1, fs2.
Qed.

Lemma worker_success_file (fs : node) :
  exit_code (run fs) = 0%Z ->
  exists config result,
    read_config fs = (Ok config, fs) /\
    dispatch config = Ok result /\
    holds_json (run fs).2 result_file result.
Proof.
  intros (config & result & fs1 & fs2 & Hc & Hd & _ & Hw & ->)%worker_success_inv.
  exists config, result. do 2 (split; [done|]).
  unfold holds_json. cbn [snd]. by eapply fs_write_at_lookup.
Qed.

(** X17. A worker run that fails leaves the file system exactly as it
    was: the result is computed before anything is written, and an
    output directory the worker had to make is empty, so the write into
    it cannot fail. *)
Theorem worker_failure_leaves_workspace (fs : node) :
  exit_code (run fs) <> 0%Z -> (run fs).2 = fs.
Proof.
  rewrite worker_run_steps.
  destruct (read_config fs).1 as [config|e]; [|done].
  destruct (dispatch config) as [result|e]; [|done].
  destruct (fs_mkdir output_dir fs) as [fs1|e] eqn:Hmk; [|done].
  destruct (fs_write result_file (json_dumps result) fs1) as [fs2|e] eqn:Hw; [done|].
  intros _. cbn [snd].
  destruct (fs_mkdir_at_result output_dir ["workspace"] "output" fs fs1 Hmk)
    as (mo & Hout & [[_ ->] | [_ ->]]); [done|].
  destruct (fs_write_at_in_dir result_file output_dir "result.json"
              (json_dumps result) fs1 ∅ Hout) as (fs2 & Hw' & _).
  { intros m'. by rewrite lookup_empty. }
  unfold fs_write in Hw. change (output_dir ++ ["result.json"])%list with result_file in Hw'.
  congruence.
Qed.

(** X18. Whatever happens, the worker changes nothing but
    [output/result.json] and the directories above it. *)
Theorem worker_only_writes_result (fs : node) (q : path) :
  ¬ q `prefix_of` result_file ->
  fs_lookup q (run fs).2 = fs_lookup q fs.
Proof.
  intros Hq. rewrite worker_run_steps.
  destruct (read_config fs).1 as [config|e]; [|done].
  destruct (dispatch config) as [result|e]; [|done].
  destruct (fs_mkdir output_dir fs) as [fs1|e] eqn:Hmk; [|done].
  assert (Hfs1 : fs_lookup q fs1 = fs_lookup q fs).
  { eapply fs_mkdir_at_other; [exact Hmk|]. by apply not_prefix_of_worker_output. }
  destruct (fs_write result_file (json_dumps result) fs1) as [fs2|e] eqn:Hw; [|done].
  cbn [snd]. rewrite <- Hfs1. by eapply fs_write_at_other.
Qed.

(** X19. A data-processing run that succeeds reports
    [len(input_files)] as [files_processed]: 0 without an [input_files]
    entry, the number of items of an array, and also the number of
    characters (code points, not bytes) of a string and of keys of an
    object. *)
Theorem worker_counts_input_files (fs : node) (d : dict) :
  worker_config fs (JObj d) ->
  dict_get "operation" d = Some (JStr "data_processing") ->
  exit_code (run fs) = 0%Z ->
  exists n : nat,
    holds_json (run fs).2 result_file
      (JObj [("operation", JStr "data_processing");
             ("files_processed", JInt (Z.of_nat n));
             ("status", JStr "completed");
             ("output_files", JArr [JStr "processed_data.json"])]) /\
    (dict_get "input_files" d = None -> n = 0) /\
    (forall files, dict_get "input_files" d = Some (JArr files) -> n = length files) /\
    (forall s, dict_get "input_files" d = Some (JStr s) -> n = code_points s) /\
    (forall o, dict_get "input_files" d = Some (JObj o) -> n = length o).
Proof.
  intros Hconfig Hop (config & result & Hc & Hd & Hfile)%worker_success_file.
  rewrite (read_config_run fs _ Hconfig) in Hc. injection Hc as <-.
  unfold dispatch in Hd. simpl in Hd. rewrite Hop in Hd. simpl in Hd.
  unfold process_data in Hd. simpl in Hd.
  destruct (dict_get "input_files" d) as [v|]; simpl in Hd.
  - destruct (py_len v) as [n|e] eqn:Hlen; [|done]. simpl in Hd. injection Hd as <-.
    exists n. split; [done|].
    split; [done|]. repeat split; intros ? [= ->]; simpl in Hlen; congruence.
  - injection Hd as <-. exists 0. by repeat split.
Qed.

(** X20. A training run that succeeds writes this result: the
    [model_type] of the configuration is echoed whatever its type,
    ["random_forest"] stands in for a missing one, and the accuracy is
    0.95. *)
Theorem worker_training_result (fs : node) (d : dict) :
  worker_config fs (JObj d) ->
  dict_get "operation" d = Some (JStr "ml_training") ->
  exit_code (run fs) = 0%Z ->
  holds_json (run fs).2 result_file
    (JObj [("operation", JStr "ml_training");
           ("model_type",
            match dict_get "model_type" d with
            | Some model_type => model_type
            | None => JStr "random_forest"
            end);
           ("accuracy", JFloat 95 (-2));
           ("status", JStr "completed");
           ("output_files", JArr [JStr "model.pkl"; JStr "metrics.json"])]).
Proof.
  intros Hconfig Hop (config & result & Hc & Hd & Hfile)%worker_success_file.
  rewrite (read_config_run fs _ Hconfig) in Hc. injection Hc as <-.
  unfold dispatch in Hd. simpl in Hd. rewrite Hop in Hd. simpl in Hd.
  by injection Hd as <-.
Qed.

(** X21. Every result the worker writes has [status] ["completed"] and
    one of the three operations. *)
Theorem worker_result_shape (fs : node) :
  exit_code (run fs) = 0%Z ->
  exists result,
    holds_json (run fs).2 result_file (JObj result) /\
    dict_get "status" result = Some (JStr "completed") /\
    (dict_get "operation" result = Some (JStr "data_processing") \/
     dict_get "operation" result = Some (JStr "ml_training") \/
     dict_get "operation" result = Some (JStr "default")).
Proof.
  intros (config & result & _ & Hd & Hfile)%worker_success_file.
  unfold dispatch in Hd. destruct config as [| | | | | |d]; try done. simpl in Hd.
  destruct (py_eq_str _ "data_processing").
  - unfold process_data in Hd. simpl in Hd.
    destruct (py_len _); simpl in Hd; [|done]. injection Hd as <-.
    eexists; split; [exact Hfile|]. auto.
  - destruct (py_eq_str _ "ml_training"); injection Hd as <-;
      (eexists; split; [exact Hfile|]; auto).
Qed.

(** X22. Running the worker again on the file system that a successful
    run left changes nothing and succeeds again. *)
Theorem worker_rerun_is_idempotent (fs : node) :
  exit_code (run fs) = 0%Z -> run (run fs).2 = run fs.
Proof.
  intros (config & result & fs1 & fs2 & Hc & Hd & Hmk & Hw & Hrun)%worker_success_inv.
  rewrite Hrun. cbn [snd].
  assert (Hfile : fs_lookup result_file fs2 = Some (File (json_dumps result)))
    by (by eapply fs_write_at_lookup).
  assert (Hsame : fs_lookup config_path fs2 = fs_lookup config_path fs).
  { rewrite (fs_write_at_other _ _ config_path _ _ _ Hw)
      by (intros [k Hk]; discriminate Hk).
    eapply fs_mkdir_at_other; [exact Hmk|]. intros [k Hk]; discriminate Hk. }
  rewrite worker_run_steps, read_config_result, Hsame. cbn [fst].
  assert (Hc' : (read_config fs).1 = Ok config) by (by rewrite Hc).
  rewrite read_config_result in Hc'. cbn [fst] in Hc'. rewrite Hc', Hd.
  destruct (fs_lookup_parent output_dir "result.json" fs2 _ Hfile) as (mo & Hout & _).
  unfold fs_mkdir, fs_write.
  rewrite (fs_mkdir_at_same _ _ _ mo Hout).
  by rewrite fs_write_at_same.
Qed.
End WorkerScriptRuns.

(** ** The example executions *)

Lemma example_workspace_ok :
  @workspace_ok ReferenceCodec.codec Example.workspace.
Proof.
  split.
  - eexists. reflexivity.
  - left. reflexivity.
  - right. eexists _, _. split; [reflexivity|]. split; [|done].
    vm_compute. reflexivity.
  - right. eexists _, _. split; [reflexivity|]. split; [vm_compute; reflexivity|].
    split; intros v Hv; vm_compute in Hv; injection Hv as <-; by eexists.
Defined.

(** The scenario of C1 on the example workspace. *)
Lemma graph_scenario_completes_witness :
  let out := @TestContainer.run ReferenceCodec.codec Example.no_proxy
                                Example.workspace in
  exit_code out = 0%Z /\
  exists results,
    @holds_json ReferenceCodec.codec (TestContainer.st_fs out.2)
                TestContainer.results_file (JObj results) /\
    dict_get "status" results = Some (JStr "completed") /\
    dict_get "input_graph_stats" results =
      Some (JObj [("node_count", JInt 3); ("relationship_count", JInt 2)]) /\
    dict_get "service_proxy_status" results = None.
Proof.
  apply (@graph_scenario_completes ReferenceCodec.codec Example.no_proxy
           Example.workspace (ReferenceCodec.dumps Example.graph) Example.graph).
  - exact example_workspace_ok.
  - reflexivity.
  - vm_compute. reflexivity.
  - eexists _, _, _. repeat split; reflexivity.
  - reflexivity.
Defined.

(** C3 on the example workspace: no request is made. *)
Lemma no_proxy_is_not_an_error_witness :
  let out := @TestContainer.run ReferenceCodec.codec Example.no_proxy
                                Example.workspace in
  exit_code out = 0%Z /\
  TestContainer.st_requests out.2 = [] /\
  exists results,
    @holds_json ReferenceCodec.codec (TestContainer.st_fs out.2)
                TestContainer.results_file (JObj results) /\
    dict_get "service_proxy_error" results = None /\
    dict_get "error" results = None /\
    dict_get "status" results = Some (JStr "completed").
Proof.
  apply (@no_proxy_is_not_an_error ReferenceCodec.codec Example.no_proxy
           Example.workspace).
  - exact example_workspace_ok.
  - reflexivity.
Defined.

(** C4 with the gateway of the scenario. *)
Lemma healthy_gateway_is_reported_witness :
  exists results,
    @holds_json ReferenceCodec.codec
       (TestContainer.st_fs
          (@TestContainer.run ReferenceCodec.codec Example.healthy_proxy
                              Example.workspace).2)
       TestContainer.results_file (JObj results) /\
    dict_get "service_proxy_status" results = Some (JStr "healthy") /\
    dict_get "available_services" results = Some (JArr [JStr "catalog"]).
Proof.
  apply (@healthy_gateway_is_reported ReferenceCodec.codec Example.healthy_proxy
           Example.workspace Example.proxy_url).
  - exact example_workspace_ok.
  - vm_compute. reflexivity.
  - eexists. split; [vm_compute; reflexivity|].
    split; [reflexivity | vm_compute; reflexivity].
Defined.



(** C9 with a gateway that times out. *)
Lemma health_exception_is_swallowed_witness :
  let out := @TestContainer.run ReferenceCodec.codec Example.slow_proxy
                                Example.workspace in
  exit_code out = 0%Z /\
  exists results,
    @holds_json ReferenceCodec.codec (TestContainer.st_fs out.2)
                TestContainer.results_file (JObj results) /\
    dict_get "service_proxy_error" results =
      Some (JStr "Read timed out. (read timeout=5)") /\
    dict_get "status" results = Some (JStr "completed").
Proof.
  apply (@health_exception_is_swallowed ReferenceCodec.codec Example.slow_proxy
           Example.workspace Example.proxy_url
           (Exn RequestException "Read timed out. (read timeout=5)")).
  - exact example_workspace_ok.
  - vm_compute. reflexivity.
  - left. vm_compute. reflexivity.
Defined.

(** C10 on the example workspace, without [EXECUTION_ID]. *)
Lemma missing_execution_id_is_unknown_witness :
  exit_code (@TestContainer.run ReferenceCodec.codec Example.anonymous
                                Example.workspace) = 0%Z /\
  exists results,
    @holds_json ReferenceCodec.codec
       (TestContainer.st_fs
          (@TestContainer.run ReferenceCodec.codec Example.anonymous
                              Example.workspace).2)
       TestContainer.results_file (JObj results) /\
    dict_get "execution_id" results = Some (JStr "unknown").
Proof.
  destruct (@missing_execution_id_is_unknown ReferenceCodec.codec Example.anonymous
              Example.workspace example_workspace_ok eq_refl)
    as (Hexit & results & files & rest & Hfile & Hid & _).
  exact (conj Hexit (ex_intro _ results (conj Hfile Hid))).
Defined.

(** C2: the configuration under [config/] asks for model training, and the
    worker script works with its default. *)
Lemma worker_reads_input_config_witness :
  fs_lookup ["workspace"; "config"; "config.json"] Example.training_workspace =
    Some (File (ReferenceCodec.dumps (JObj [("operation", JStr "ml_training")]))) /\
  @WorkerScript.read_config ReferenceCodec.codec Example.training_workspace =
    (Ok (JObj [("operation", JStr "default")]), Example.training_workspace).
Proof.
  split; [reflexivity|].
  apply (@worker_reads_input_config ReferenceCodec.codec). reflexivity.
Defined.

(** The whole run at that input: the worker exits with 0 and reports the
    default operation. *)
Lemma worker_ignores_config_dir :
  let out := @WorkerScript.run ReferenceCodec.codec Example.training_workspace in
  exit_code out = 0%Z /\
  fs_lookup WorkerScript.result_file out.2 =
    Some (File (ReferenceCodec.dumps
                  (JObj [("operation", JStr "default");
                         ("status", JStr "completed");
                         ("message",
                          JStr "Default processing completed successfully")]))).
Proof. split; vm_compute; reflexivity. Qed.

(** C5 with a data-processing configuration. *)
Lemma worker_selects_by_operation_witness :
  exit_code (@WorkerScript.run ReferenceCodec.codec
               (Example.worker_workspace Example.config)) = 0%Z /\
  exists result,
    @holds_json ReferenceCodec.codec
       (@WorkerScript.run ReferenceCodec.codec
          (Example.worker_workspace Example.config)).2
       WorkerScript.result_file (JObj result) /\
    dict_get "operation" result = Some (JStr "data_processing") /\
    exists n, dict_get "files_processed" result = Some (JInt n).
Proof.
  destruct (@worker_selects_by_operation ReferenceCodec.codec
              (Example.worker_workspace Example.config) Example.config
              [("operation", JStr "data_processing");
               ("input_files", JArr [JStr "a.csv"])])
    as (Hexit & result & Hfile & Hdata & _).
  - split; [eexists; reflexivity | left; reflexivity].
  - right. eexists. split; [reflexivity | vm_compute; reflexivity].
  - reflexivity.
  - intros _ v Hv. vm_compute in Hv. injection Hv as <-. exact I.
  - exact (conj Hexit (ex_intro _ result (conj Hfile (Hdata eq_refl)))).
Defined.

(** C5, read for every configuration, fails when [input_files] has no length:
    [len] raises a [TypeError], the worker exits with 1 and writes no
    result. *)
Lemma data_processing_with_odd_input_files :
  @worker_config ReferenceCodec.codec (Example.worker_workspace Example.odd_config)
                 Example.odd_config /\
  py_get Example.odd_config "operation" (JStr "default") =
    Ok (JStr "data_processing") /\
  let out := @WorkerScript.run ReferenceCodec.codec
               (Example.worker_workspace Example.odd_config) in
  out.1 = Raise (Exn TypeError "object of type 'int' has no len()") /\
  exit_code out = 1%Z /\
  fs_lookup WorkerScript.result_file out.2 = None.
Proof.
  split.
  { right. eexists. split; [reflexivity | vm_compute; reflexivity]. }
  split; [reflexivity|].
  repeat split; vm_compute; reflexivity.
Qed.

(** C7 on the example workspace. *)
Lemma successful_run_reports_metadata_witness :
  exists p d,
    p ∈ well_known_paths /\
    @holds_json ReferenceCodec.codec
       (TestContainer.st_fs
          (@TestContainer.run ReferenceCodec.codec Example.no_proxy
                              Example.workspace).2) p (JObj d) /\
    d <> [] /\
    @collect_metadata ReferenceCodec.codec
       (TestContainer.st_fs
          (@TestContainer.run ReferenceCodec.codec Example.no_proxy
                              Example.workspace).2) <> [].
Proof.
  destruct (@successful_run_reports_metadata ReferenceCodec.codec Example.no_proxy
              Example.workspace
              (TestContainer.st_fs
                 (@TestContainer.run ReferenceCodec.codec Example.no_proxy
                                     Example.workspace).2))
    as (p & d & Hp & Hfile & Hne & Hmeta).
  - left. split; [vm_compute; reflexivity | reflexivity].
  - exact (ex_intro _ p (ex_intro _ d
             (conj Hp (conj Hfile (conj Hne (Hmeta (reference_round_trip _))))))).
Defined.



(** ** More example executions *)

(** X1 on the example workspace: the graph input is as it was. *)
Lemma only_output_files_change_witness :
  fs_lookup TestContainer.graph_file
    (TestContainer.st_fs
       (@TestContainer.run ReferenceCodec.codec Example.healthy_proxy
                           Example.workspace).2) =
  fs_lookup TestContainer.graph_file Example.workspace.
Proof.
  apply (@only_output_files_change ReferenceCodec.codec Example.healthy_proxy
           Example.workspace TestContainer.graph_file);
    intros [k Hk]; discriminate Hk.
Defined.

(** X3 on a workspace whose configuration is not JSON. *)
Lemma unreadable_input_aborts_witness :
  let out := @TestContainer.run ReferenceCodec.codec Example.healthy_proxy
                                Example.unreadable_workspace in
  exit_code out = 1%Z /\
  TestContainer.st_requests out.2 = [] /\
  forall q : path, ¬ q `prefix_of` TestContainer.output_dir ->
                   fs_lookup q (TestContainer.st_fs out.2) =
                   fs_lookup q Example.unreadable_workspace.
Proof.
  apply (@unreadable_input_aborts ReferenceCodec.codec Example.healthy_proxy
           Example.unreadable_workspace).
  right. intros [Hnone | (text & d & Hfile & Hload & _)].
  - vm_compute in Hnone. discriminate Hnone.
  - vm_compute in Hfile. injection Hfile as <-.
    vm_compute in Hload. discriminate Hload.
Defined.

(** X4 on the example workspace. *)
Lemma container_success_requires_witness :
  output_creatable Example.workspace /\
  @graph_readable ReferenceCodec.codec Example.workspace /\
  @config_readable ReferenceCodec.codec Example.workspace /\
  not_a_directory Example.workspace TestContainer.results_file /\
  not_a_directory Example.workspace TestContainer.analysis_file /\
  (fs_lookup TestContainer.graph_file Example.workspace <> None ->
   not_a_directory Example.workspace TestContainer.graph_update_file).
Proof.
  apply (@container_success_requires ReferenceCodec.codec Example.slow_proxy
           Example.workspace).
  vm_compute. reflexivity.
Defined.

(** X5 on the example workspace. *)
Lemma config_keys_are_listed_in_order_witness :
  exists results,
    @holds_json ReferenceCodec.codec
       (TestContainer.st_fs
          (@TestContainer.run ReferenceCodec.codec Example.no_proxy
                              Example.workspace).2)
       TestContainer.results_file (JObj results) /\
    dict_get "config_keys" results =
      Some (JArr [JStr "operation"; JStr "input_files"]).
Proof.
  destruct (@config_keys_are_listed_in_order ReferenceCodec.codec Example.no_proxy
              Example.workspace)
    as (results & Hfile & _ & Hkeys).
  - vm_compute. reflexivity.
  - exists results. split; [exact Hfile|].
    apply (Hkeys (ReferenceCodec.dumps Example.config)
                 [("operation", JStr "data_processing");
                  ("input_files", JArr [JStr "a.csv"])]).
    + reflexivity.
    + vm_compute. reflexivity.
Defined.

(** X6 on the example workspace. *)
Lemma input_files_are_the_regular_files_witness :
  exists results names,
    @holds_json ReferenceCodec.codec
       (TestContainer.st_fs
          (@TestContainer.run ReferenceCodec.codec Example.no_proxy
                              Example.workspace).2)
       TestContainer.results_file (JObj results) /\
    dict_get "input_files" results = Some (JArr (JStr <$> names)) /\
    NoDup names /\
    forall name,
      name ∈ names <->
      exists data,
        fs_lookup (TestContainer.input_dir ++ [name]) Example.workspace =
        Some (File data).
Proof.
  apply (@input_files_are_the_regular_files ReferenceCodec.codec Example.no_proxy
           Example.workspace).
  vm_compute. reflexivity.
Defined.

(** X7 on the example workspace, which has a graph. *)
Lemma graph_update_only_with_graph_input_witness :
  @holds_json ReferenceCodec.codec
     (TestContainer.st_fs
        (@TestContainer.run ReferenceCodec.codec Example.no_proxy
                            Example.workspace).2)
     TestContainer.graph_update_file (TestContainer.graph_update "exec-1").
Proof.
  destruct (@graph_update_only_with_graph_input ReferenceCodec.codec
              Example.no_proxy Example.workspace)
    as [_ Hsome].
  - vm_compute. reflexivity.
  - apply Hsome. intros Hnone. vm_compute in Hnone. discriminate Hnone.
Defined.

(** X8 on the example workspace. *)
Lemma analysis_report_agrees_with_inputs_witness :
  let out := @TestContainer.run ReferenceCodec.codec Example.no_proxy
                                Example.workspace in
  exists results names,
    @holds_json ReferenceCodec.codec (TestContainer.st_fs out.2)
                TestContainer.results_file (JObj results) /\
    fs_lookup TestContainer.analysis_file (TestContainer.st_fs out.2) =
      Some (File (TestContainer.analysis_report
                    (environ_get Example.no_proxy "EXECUTION_ID" "unknown")
                    (length names) results)) /\
    NoDup names /\
    (forall name,
        name ∈ names <->
        exists data,
          fs_lookup (TestContainer.input_dir ++ [name]) Example.workspace =
          Some (File data)) /\
    dict_has "input_graph_stats" results =
      fs_exists TestContainer.graph_file Example.workspace /\
    dict_has "config_keys" results =
      fs_exists TestContainer.config_file Example.workspace.
Proof.
  apply (@analysis_report_agrees_with_inputs ReferenceCodec.codec Example.no_proxy
           Example.workspace).
  vm_compute. reflexivity.
Defined.

(** X9 on the example workspace. *)
Lemma graph_counts_are_reported_witness :
  exists results,
    @holds_json ReferenceCodec.codec
       (TestContainer.st_fs
          (@TestContainer.run ReferenceCodec.codec Example.no_proxy
                              Example.workspace).2)
       TestContainer.results_file (JObj results) /\
    dict_get "input_graph_stats" results =
      Some (JObj [("node_count", JInt 3); ("relationship_count", JInt 2)]).
Proof.
  apply (@graph_counts_are_reported ReferenceCodec.codec Example.no_proxy
           Example.workspace (ReferenceCodec.dumps Example.graph)
           [("nodes",
             JArr [JObj [("id", JStr "n1")]; JObj [("id", JStr "n2")];
                   JObj [("id", JStr "n3")]]);
            ("relationships",
             JArr [JObj [("id", JStr "r1"); ("start_node", JStr "n1");
                         ("end_node", JStr "n2")];
                   JObj [("id", JStr "r2"); ("start_node", JStr "n2");
                         ("end_node", JStr "n3")]])]).
  - reflexivity.
  - vm_compute. reflexivity.
  - intros v Hv. vm_compute in Hv. injection Hv as <-. by eexists.
  - intros v Hv. vm_compute in Hv. injection Hv as <-. by eexists.
  - vm_compute. reflexivity.
Defined.

(** X10 on the example workspace. *)
Lemma execution_id_is_used_verbatim_witness :
  exists results,
    @holds_json ReferenceCodec.codec
       (TestContainer.st_fs
          (@TestContainer.run ReferenceCodec.codec Example.no_proxy
                              Example.workspace).2)
       TestContainer.results_file (JObj results) /\
    dict_get "execution_id" results = Some (JStr "exec-1").
Proof.
  destruct (@execution_id_is_used_verbatim ReferenceCodec.codec Example.no_proxy
              Example.workspace "exec-1")
    as (results & files & rest & Hfile & Hid & _).
  - reflexivity.
  - vm_compute. reflexivity.
  - exact (ex_intro _ results (conj Hfile Hid)).
Defined.



(** X13 with an empty [SERVICE_PROXY_URL]. *)
Lemma empty_proxy_url_is_unset_witness :
  @TestContainer.run ReferenceCodec.codec Example.blank_proxy Example.workspace =
  @TestContainer.run ReferenceCodec.codec
    (MkContext (delete "SERVICE_PROXY_URL" (environ Example.blank_proxy))
               (network Example.blank_proxy))
    Example.workspace.
Proof.
  apply (@empty_proxy_url_is_unset ReferenceCodec.codec Example.blank_proxy
           Example.workspace).
  vm_compute. reflexivity.
Defined.

(** X14 on a workspace where [output/analysis.txt] is a directory. *)
Lemma results_survive_a_failed_report_witness :
  let out := @TestContainer.run ReferenceCodec.codec Example.no_proxy
                                Example.cluttered_workspace in
  exit_code out = 1%Z /\
  exists results,
    @holds_json ReferenceCodec.codec (TestContainer.st_fs out.2)
                TestContainer.results_file (JObj results) /\
    dict_get "status" results = Some (JStr "completed").
Proof.
  apply (@results_survive_a_failed_report ReferenceCodec.codec Example.no_proxy
           Example.cluttered_workspace ∅).
  - eexists. split; [reflexivity|].
    intros data Hdata. vm_compute in Hdata. discriminate Hdata.
  - left. reflexivity.
  - left. reflexivity.
  - intros m Hdir. vm_compute in Hdir. discriminate Hdir.
  - reflexivity.
Defined.

(** X15 on the example workspace. *)
Lemma rerun_is_idempotent_witness :
  let out := @TestContainer.run ReferenceCodec.codec Example.healthy_proxy
                                Example.workspace in
  @TestContainer.run ReferenceCodec.codec Example.healthy_proxy
                     (TestContainer.st_fs out.2) = out.
Proof.
  apply (@rerun_is_idempotent ReferenceCodec.codec Example.healthy_proxy
           Example.workspace).
  vm_compute. reflexivity.
Defined.

(** X16 on a workspace with a data-processing configuration. *)
Lemma worker_succeeds_iff_witness :
  exit_code (@WorkerScript.run ReferenceCodec.codec
               (Example.worker_workspace Example.config)) = 0%Z.
Proof.
  apply (@worker_succeeds_iff ReferenceCodec.codec
           (Example.worker_workspace Example.config)).
  split; [|split].
  - right. eexists _, _. split; [reflexivity|]. split; [vm_compute; reflexivity|].
    intros _ v Hv. vm_compute in Hv. injection Hv as <-. exact I.
  - eexists. split; [reflexivity|].
    intros data Hdata. vm_compute in Hdata. discriminate Hdata.
  - intros m Hm. vm_compute in Hm. discriminate Hm.
Defined.

(** X17 with an [input_files] that has no length. *)
Lemma worker_failure_leaves_workspace_witness :
  (@WorkerScript.run ReferenceCodec.codec
     (Example.worker_workspace Example.odd_config)).2 =
  Example.worker_workspace Example.odd_config.
Proof.
  apply (@worker_failure_leaves_workspace ReferenceCodec.codec
           (Example.worker_workspace Example.odd_config)).
  intros Hexit. vm_compute in Hexit. discriminate Hexit.
Defined.

(** X18: the configuration is as it was. *)
Lemma worker_only_writes_result_witness :
  fs_lookup WorkerScript.config_path
    (@WorkerScript.run ReferenceCodec.codec
       (Example.worker_workspace Example.config)).2 =
  fs_lookup WorkerScript.config_path (Example.worker_workspace Example.config).
Proof.
  apply (@worker_only_writes_result ReferenceCodec.codec
           (Example.worker_workspace Example.config) WorkerScript.config_path).
  intros [k Hk]. discriminate Hk.
Defined.

(** X19 with one input file. *)
Lemma worker_counts_input_files_witness :
  exists n : nat,
    @holds_json ReferenceCodec.codec
      (@WorkerScript.run ReferenceCodec.codec
         (Example.worker_workspace Example.config)).2
      WorkerScript.result_file
      (JObj [("operation", JStr "data_processing");
             ("files_processed", JInt (Z.of_nat n));
             ("status", JStr "completed");
             ("output_files", JArr [JStr "processed_data.json"])]) /\
    n = 1.
Proof.
  destruct (@worker_counts_input_files ReferenceCodec.codec
              (Example.worker_workspace Example.config)
              [("operation", JStr "data_processing");
               ("input_files", JArr [JStr "a.csv"])])
    as (n & Hfile & _ & Harray & _).
  - right. eexists. split; [reflexivity | vm_compute; reflexivity].
  - reflexivity.
  - vm_compute. reflexivity.
  - exact (ex_intro _ n (conj Hfile (Harray [JStr "a.csv"] eq_refl))).
Defined.

(** X20 with a configuration that names its model. *)
Lemma worker_training_result_witness :
  @holds_json ReferenceCodec.codec
    (@WorkerScript.run ReferenceCodec.codec
       (Example.worker_workspace Example.training_config)).2
    WorkerScript.result_file
    (JObj [("operation", JStr "ml_training");
           ("model_type", JStr "xgboost");
           ("accuracy", JFloat 95 (-2));
           ("status", JStr "completed");
           ("output_files", JArr [JStr "model.pkl"; JStr "metrics.json"])]).
Proof.
  apply (@worker_training_result ReferenceCodec.codec
           (Example.worker_workspace Example.training_config)
           [("operation", JStr "ml_training"); ("model_type", JStr "xgboost")]).
  - right. eexists. split; [reflexivity | vm_compute; reflexivity].
  - reflexivity.
  - vm_compute. reflexivity.
Defined.

(** X21 on a workspace without configuration. *)
Lemma worker_result_shape_witness :
  let out := @WorkerScript.run ReferenceCodec.codec Example.bare_workspace in
  exists result,
    @holds_json ReferenceCodec.codec out.2 WorkerScript.result_file (JObj result) /\
    dict_get "status" result = Some (JStr "completed") /\
    (dict_get "operation" result = Some (JStr "data_processing") \/
     dict_get "operation" result = Some (JStr "ml_training") \/
     dict_get "operation" result = Some (JStr "default")).
Proof.
  apply (@worker_result_shape ReferenceCodec.codec Example.bare_workspace).
  vm_compute. reflexivity.
Defined.

(** X22 on a workspace with a data-processing configuration. *)
Lemma worker_rerun_is_idempotent_witness :
  let out := @WorkerScript.run ReferenceCodec.codec
               (Example.worker_workspace Example.config) in
  @WorkerScript.run ReferenceCodec.codec out.2 = out.
Proof.
  apply (@worker_rerun_is_idempotent ReferenceCodec.codec
           (Example.worker_workspace Example.config)).
  vm_compute. reflexivity.
Defined.
